(** * Deep-learning notebooks: transformer, MLP and colorization autoencoder

    A shallow embedding of the model code of

      - versions/2022/transformer/python/transformer_demo.ipynb
        (Attention, Mlp, Block, Transformer, LitTransformer, LitCifar10,
        SimpleMLP, TensorMLP, LitCIFAR10Model, WandbCallback)
      - versions/2022/autoencoder/python/colorize_pytorch_demo.ipynb
        (Encoder, Decoder, gray_collate_fn, LitColorizeCIFAR10Model,
        WandbCallback)

    The notebooks are glue around a tensor framework (torch, einops,
    Lightning, wandb).  The framework's operators are modelled from
    their documentation, twice: by their shape rules (module [Shape],
    where a forward pass maps a shape to a shape or raises), and by
    their values (module [Value], where a tensor is a shape together
    with its entries by multi-index, over an abstract scalar type, with
    exact reals, rationals and float32 as instances).  The
    Lightning modules and the logging callbacks are stated over an
    abstract tensor type with the framework's numerics as an interface
    ([Framework]).  Python code that can raise returns a [res]. *)

From Stdlib Require Import ZArith QArith Reals List Lia Lra Bool.
From Stdlib Require Floats.SpecFloat.
From stdpp Require Import base option list strings gmap.
Import ListNotations.

Local Open Scope Z_scope.

(** ** Python exceptions and results *)

(** The exceptions the notebooks can meet.  [TorchError] and
    [EinopsError] stand for whatever is raised inside a framework call
    (torch's RuntimeError or IndexError on a bad shape or axis, einops'
    EinopsError); the others are raised by an expression or statement
    written in a notebook. *)
Inductive PyErr : Type :=
  | AssertionError (msg : string)
  | ZeroDivisionError
  | ValueError
  | KeyError (key : string)
  | IndexError
  | TypeError
  | AttributeError (name : string)
  | TorchError
  | EinopsError.

Inductive res (A : Type) : Type :=
  | Ok (a : A)
  | Raise (e : PyErr).
Arguments Ok {A} a.
Arguments Raise {A} e.

#[global] Instance res_ret : MRet res := fun _ a => Ok a.
#[global] Instance res_bind : MBind res := fun _ _ f m =>
  match m with Ok a => f a | Raise e => Raise e end.
#[global] Instance res_fmap : FMap res := fun _ _ f m =>
  match m with Ok a => Ok (f a) | Raise e => Raise e end.



Definition is_Ok {A} (r : res A) : bool :=
  match r with Ok _ => true | Raise _ => false end.

(** [for _ in range(n)]: a comprehension whose body may raise. *)
Fixpoint replicateM {A} (n : nat) (m : res A) : res (list A) :=
  match n with
  | O => Ok []
  | S n' => a ← m; l ← replicateM n' m; Ok (a :: l)
  end.

(** Python's [a or b] on an optional integer: [None] and [0] are falsy. *)
Definition py_or (a : option Z) (b : Z) : Z :=
  match a with
  | Some v => if v =? 0 then b else v
  | None => b
  end.

(** Python's [int(x)] on a float, here a rational: truncation to zero. *)
Definition py_int (x : Q) : Z := Z.quot (Qnum x) (Z.pos (Qden x)).

(** ** Shape semantics *)

Module Shape.

Definition shape := list Z.

Definition numel (s : shape) : Z := fold_right Z.mul 1 s.

Definition nonneg (s : shape) : bool := forallb (fun d => 0 <=? d) s.

(** A dimension argument [d] of a rank-[r] tensor; negative ones count
    from the end. *)
Definition norm_dim (r : nat) (d : Z) : res nat :=
  let r' := Z.of_nat r in
  if (0 <=? d) && (d <? r') then Ok (Z.to_nat d)
  else if (- r' <=? d) && (d <? 0) then Ok (Z.to_nat (d + r'))
  else Raise TorchError.

(** *** Framework operators, by shape *)

(** [Tensor.reshape]: the target has the same number of elements.  The
    notebooks never pass the placeholder [-1], so a negative entry is
    an invalid shape. *)
Definition reshape (s tgt : shape) : res shape :=
  if nonneg tgt && (numel tgt =? numel s) then Ok tgt else Raise TorchError.

Definition is_perm (r : nat) (dims : list nat) : bool :=
  (length dims =? r)%nat && forallb (fun i => existsb (Nat.eqb i) dims) (seq 0 r).

(** [Tensor.permute]: axis [i] of the result is axis [dims !! i]. *)
Definition permute (s : shape) (dims : list Z) : res shape :=
  ds ← mapM (norm_dim (length s)) dims;
  if is_perm (length s) ds
  then Ok (map (fun i => nth i s 0) ds)
  else Raise TorchError.

(** [Tensor.transpose(d0, d1)] swaps two axes. *)
Definition transpose (s : shape) (d0 d1 : Z) : res shape :=
  i ← norm_dim (length s) d0;
  j ← norm_dim (length s) d1;
  Ok (<[i := nth j s 0]> (<[j := nth i s 0]> s)).

(** [Tensor.unbind(0)] followed by unpacking into three names. *)
Definition unbind0_3 (s : shape) : res (shape * shape * shape) :=
  match s with
  | [] => Raise TorchError
  | n :: rest => if n =? 3 then Ok (rest, rest, rest) else Raise ValueError
  end.

(** Broadcasting of two shapes given innermost axis first. *)
Fixpoint broadcast_rev (a b : list Z) : res (list Z) :=
  match a, b with
  | [], _ => Ok b
  | _, [] => Ok a
  | x :: a', y :: b' =>
      r ← broadcast_rev a' b';
      if x =? y then Ok (x :: r)
      else if x =? 1 then Ok (y :: r)
      else if y =? 1 then Ok (x :: r)
      else Raise TorchError
  end.

Definition broadcast (a b : shape) : res shape :=
  r ← broadcast_rev (rev a) (rev b); Ok (rev r).

(** [a @ b] for operands of rank at least two: matrix product over the
    last two axes, the leading axes broadcast. *)
Definition matmul (a b : shape) : res shape :=
  match rev a, rev b with
  | m :: n :: ba, p :: m' :: bb =>
      if m =? m' then
        bs ← broadcast_rev ba bb; Ok (rev (p :: n :: bs))
      else Raise TorchError
  | _, _ => Raise TorchError
  end.

(** [Tensor.softmax(dim)] keeps the shape. *)
Definition softmax (s : shape) (d : Z) : res shape :=
  _ ← norm_dim (length s) d; Ok s.

Record Linear := mkLinear {
  in_features : Z;
  out_features : Z;
  has_bias : bool }.

(** [nn.Linear(i, o, bias)]: allocating the weight fails for a negative
    size. *)
Definition nn_Linear (i o : Z) (b : bool) : res Linear :=
  if (0 <=? i) && (0 <=? o) then Ok (mkLinear i o b) else Raise TorchError.

(** Applying a linear layer replaces the last axis. *)
Definition Linear_forward (l : Linear) (s : shape) : res shape :=
  match rev s with
  | c :: rest =>
      if c =? in_features l then Ok (rev (out_features l :: rest))
      else Raise TorchError
  | [] => Raise TorchError
  end.

Record LayerNorm := mkLayerNorm { normalized_shape : Z }.

Definition nn_LayerNorm (d : Z) : res LayerNorm :=
  if 0 <=? d then Ok (mkLayerNorm d) else Raise TorchError.

Definition LayerNorm_forward (l : LayerNorm) (s : shape) : res shape :=
  match rev s with
  | c :: _ => if c =? normalized_shape l then Ok s else Raise TorchError
  | [] => Raise TorchError
  end.

Record Conv2d := mkConv2d {
  c_in : Z; c_out : Z; c_kernel : Z; c_stride : Z; c_padding : Z }.

Definition nn_Conv2d (i o k s p : Z) : res Conv2d :=
  if (0 <=? i) && (0 <=? o) && (0 <=? k) && (0 <? s) && (0 <=? p)
  then Ok (mkConv2d i o k s p) else Raise TorchError.

(** Output extent of a convolution along one spatial axis. *)
Definition conv_out (c : Conv2d) (h : Z) : Z :=
  (h + 2 * c_padding c - c_kernel c) / c_stride c + 1.

(** Applying [nn.Conv2d] to a batch (b, c, h, w); the notebooks never
    pass an unbatched image. *)
Definition Conv2d_forward (c : Conv2d) (s : shape) : res shape :=
  match s with
  | [b; ch; h; w] =>
      if (ch =? c_in c) && (c_kernel c <=? h + 2 * c_padding c)
         && (c_kernel c <=? w + 2 * c_padding c)
      then Ok [b; c_out c; conv_out c h; conv_out c w]
      else Raise TorchError
  | _ => Raise TorchError
  end.

(** Output extent of a transposed convolution along one spatial axis. *)
Definition convT_out (c : Conv2d) (h : Z) : Z :=
  (h - 1) * c_stride c - 2 * c_padding c + (c_kernel c - 1) + 1.

(** Applying [nn.ConvTranspose2d] to a batch (b, c, h, w).  A layer
    with no input channel, no output channel or an empty kernel can be
    built, but its weight is an empty tensor and the framework refuses
    to run it. *)
Definition ConvTranspose2d_forward (c : Conv2d) (s : shape) : res shape :=
  match s with
  | [b; ch; h; w] =>
      if (0 <? c_in c) && (0 <? c_out c) && (0 <? c_kernel c)
         && (ch =? c_in c) && (0 <? convT_out c h) && (0 <? convT_out c w)
      then Ok [b; c_out c; convT_out c h; convT_out c w]
      else Raise TorchError
  | _ => Raise TorchError
  end.

(** Element-wise activations keep the shape. *)
Definition activation (s : shape) : res shape := Ok s.

(** einops [rearrange(y, 'b c h w -> b (c h w)')]. *)
Definition rearrange_flatten (s : shape) : res shape :=
  match s with
  | [b; c; h; w] => Ok [b; c * h * w]
  | _ => Raise EinopsError
  end.

(** einops [rearrange(y, 'b (c h w) -> b c h w', b=B, h=h, w=w)]: the
    channel count is inferred from the flattened axis. *)
Definition rearrange_unflatten (s : shape) (B h w : Z) : res shape :=
  match s with
  | [b; f] =>
      if (b =? B) && (0 <? h * w) && (f mod (h * w) =? 0)
      then Ok [b; f / (h * w); h; w]
      else Raise EinopsError
  | _ => Raise EinopsError
  end.

(** *** transformer_demo.ipynb: Attention *)

(** The value of [head_dim ** -0.5], kept symbolic. *)
Inductive scale_const : Type := PowNegHalf (base : Z).

(** Python's [b ** -0.5] on an integer [b]: zero cannot be raised to a
    negative power. *)
Definition py_pow_neg_half (b : Z) : res scale_const :=
  if b =? 0 then Raise ZeroDivisionError else Ok (PowNegHalf b).

Record Attention := mkAttention {
  num_heads : Z;
  scale : scale_const;
  qkv : Linear;
  proj : Linear }.

Definition Attention_init (dim num_heads : Z) (qkv_bias : bool) : res Attention :=
  if num_heads =? 0 then Raise ZeroDivisionError
  else if negb (dim mod num_heads =? 0)
  then Raise (AssertionError "dim should be divisible by num_heads")
  else
    let head_dim := dim / num_heads in
    scale ← py_pow_neg_half head_dim;
    qkv ← nn_Linear dim (dim * 3) qkv_bias;
    proj ← nn_Linear dim dim true;
    Ok (mkAttention num_heads scale qkv proj).

Definition Attention_forward (self : Attention) (x : shape) : res shape :=
  match x with
  | [B; N; C] =>
      y ← Linear_forward (qkv self) x;
      if num_heads self =? 0 then Raise ZeroDivisionError else
      y ← reshape y [B; N; 3; num_heads self; C / num_heads self];
      y ← permute y [2; 0; 3; 1; 4];
      '(q, k, v) ← unbind0_3 y;
      kT ← transpose k (-2) (-1);
      attn ← matmul q kT;
      (* [attn * self.scale] keeps the shape *)
      attn ← softmax attn (-1);
      x ← matmul attn v;
      x ← transpose x 1 2;
      x ← reshape x [B; N; C];
      Linear_forward (proj self) x
  | _ => Raise ValueError
  end.

(** *** Mlp *)

Record Mlp := mkMlp { fc1 : Linear; fc2 : Linear }.

Definition Mlp_init (in_features : Z) (hidden_features out_features : option Z)
  : res Mlp :=
  let out_features := py_or out_features in_features in
  let hidden_features := py_or hidden_features in_features in
  fc1 ← nn_Linear in_features hidden_features true;
  fc2 ← nn_Linear hidden_features out_features true;
  Ok (mkMlp fc1 fc2).

Definition Mlp_forward (self : Mlp) (x : shape) : res shape :=
  x ← Linear_forward (fc1 self) x;
  x ← activation x;
  Linear_forward (fc2 self) x.

(** *** Block *)

Record Block := mkBlock {
  norm1 : LayerNorm; attn : Attention; norm2 : LayerNorm; mlp : Mlp }.

(** [mlp_ratio] is the value of a Python float.  The product
    [dim * mlp_ratio] is taken exactly, which is what the float product
    gives whenever it does not round: for every ratio a / 2^e with
    dim * a below 2^53 in magnitude, the default 4.0 among them. *)
Definition Block_init (dim num_heads : Z) (mlp_ratio : Q) (qkv_bias : bool)
  : res Block :=
  norm1 ← nn_LayerNorm dim;
  attn ← Attention_init dim num_heads qkv_bias;
  norm2 ← nn_LayerNorm dim;
  mlp ← Mlp_init dim (Some (py_int (inject_Z dim * mlp_ratio))) None;
  Ok (mkBlock norm1 attn norm2 mlp).

Definition Block_forward (self : Block) (x : shape) : res shape :=
  n ← LayerNorm_forward (norm1 self) x;
  a ← Attention_forward (attn self) n;
  x ← broadcast x a;
  n ← LayerNorm_forward (norm2 self) x;
  m ← Mlp_forward (mlp self) n;
  broadcast x m.

(** *** Transformer *)

Record Transformer := mkTransformer { blocks : list Block }.

Definition Transformer_init (dim num_heads num_blocks : Z) (mlp_ratio : Q)
    (qkv_bias : bool) : res Transformer :=
  blocks ← replicateM (Z.to_nat num_blocks)
              (Block_init dim num_heads mlp_ratio qkv_bias);
  Ok (mkTransformer blocks).

Fixpoint run_blocks (bs : list Block) (x : shape) : res shape :=
  match bs with
  | [] => Ok x
  | block :: bs' => x ← Block_forward block x; run_blocks bs' x
  end.

Definition Transformer_forward (self : Transformer) (x : shape) : res shape :=
  run_blocks (blocks self) x.

(** *** colorize_pytorch_demo.ipynb: Encoder and Decoder *)

Record Encoder := mkEncoder {
  e_conv1 : Conv2d; e_conv2 : Conv2d; e_conv3 : Conv2d; e_fc1 : Linear }.

Definition Encoder_init (n_features kernel_size n_filters feature_dim : Z)
  : res Encoder :=
  conv1 ← nn_Conv2d n_features n_filters kernel_size 2 0;
  conv2 ← nn_Conv2d n_filters (n_filters * 2) kernel_size 2 0;
  conv3 ← nn_Conv2d (n_filters * 2) (n_filters * 4) kernel_size 2 0;
  fc1 ← nn_Linear 2304 feature_dim true;
  Ok (mkEncoder conv1 conv2 conv3 fc1).

Definition Encoder_forward (self : Encoder) (x : shape) : res shape :=
  y ← Conv2d_forward (e_conv1 self) x;
  y ← activation y;
  y ← Conv2d_forward (e_conv2 self) y;
  y ← activation y;
  y ← Conv2d_forward (e_conv3 self) y;
  y ← activation y;
  y ← rearrange_flatten y;
  Linear_forward (e_fc1 self) y.

Record Decoder := mkDecoder {
  init_size : Z;
  d_fc1 : Linear;
  d_conv1 : Conv2d; d_conv2 : Conv2d; d_conv3 : Conv2d; d_conv4 : Conv2d }.

Definition Decoder_init
    (kernel_size n_filters feature_dim output_size output_channels : Z)
  : res Decoder :=
  let init_size := output_size / 2 ^ 2 in
  fc1 ← nn_Linear feature_dim (init_size ^ 2 * n_filters) true;
  conv1 ← nn_Conv2d n_filters (n_filters / 2) kernel_size 2 1;
  conv2 ← nn_Conv2d (n_filters / 2) (n_filters / 4) kernel_size 2 1;
  conv3 ← nn_Conv2d (n_filters / 4) (n_filters / 4) kernel_size 1 1;
  conv4 ← nn_Conv2d (n_filters / 4) output_channels (kernel_size + 1) 1 0;
  Ok (mkDecoder init_size fc1 conv1 conv2 conv3 conv4).

Definition Decoder_forward (self : Decoder) (x : shape) : res shape :=
  match x with
  | [B; _] =>
      y ← Linear_forward (d_fc1 self) x;
      y ← rearrange_unflatten y B (init_size self) (init_size self);
      y ← ConvTranspose2d_forward (d_conv1 self) y;
      y ← activation y;
      y ← ConvTranspose2d_forward (d_conv2 self) y;
      y ← activation y;
      y ← ConvTranspose2d_forward (d_conv3 self) y;
      y ← activation y;
      y ← ConvTranspose2d_forward (d_conv4 self) y;
      activation y
  | _ => Raise ValueError
  end.

(** The modules built by [Encoder()] and [Decoder()], with every
    constructor argument at its default. *)
Definition Encoder_default : Encoder :=
  mkEncoder (mkConv2d 1 64 3 2 0) (mkConv2d 64 128 3 2 0) (mkConv2d 128 256 3 2 0)
            (mkLinear 2304 256 true).

Definition Decoder_default : Decoder :=
  mkDecoder 8 (mkLinear 256 16384 true)
            (mkConv2d 256 128 3 2 1) (mkConv2d 128 64 3 2 1)
            (mkConv2d 64 64 3 1 1) (mkConv2d 64 3 4 1 0).

End Shape.

(** ** Value semantics *)

(** The scalar arithmetic of the framework, kept abstract: the
    definitions below fix the order of the additions and
    multiplications, and an instance says how each of them rounds. *)
Class Scalar (S : Type) := {
  szero : S;
  sadd : S -> S -> S;
  smul : S -> S -> S;
  sdiv : S -> S -> S;
  sexp : S -> S;
  (** an integer as a scalar *)
  sofZ : Z -> S;
  (** [b ** -0.5] *)
  spow_neg_half : Z -> S }.

Module Value.
Section WithScalar.
Context {S : Type} {SC : Scalar S}.

(** A tensor is a shape and its entries by multi-index; only the
    entries at in-range indices mean anything. *)
Record tensor := mkTensor { shape : Shape.shape; get : list Z -> S }.

Definition in_range (s : Shape.shape) (idx : list Z) : Prop :=
  Forall2 (fun d i => 0 <= i < d) s idx.

(** Equality of tensors: same shape, same entries. *)
Definition teq (a b : tensor) : Prop :=
  shape a = shape b /\ forall idx, in_range (shape a) idx -> get a idx = get b idx.

(** [f 0 + (f 1 + ... (f (n-1) + 0))] *)
Definition sum_range (n : Z) (f : Z -> S) : S :=
  fold_right sadd szero (map (fun k => f (Z.of_nat k)) (seq 0 (Z.to_nat n))).

(** Row-major position of a multi-index, and back. *)
Fixpoint ravel_acc (acc : Z) (s idx : list Z) : Z :=
  match s, idx with
  | d :: s', i :: idx' => ravel_acc (acc * d + i) s' idx'
  | _, _ => acc
  end.

Definition ravel (s idx : list Z) : Z := ravel_acc 0 s idx.

Fixpoint unravel (s : list Z) (flat : Z) : list Z :=
  match s with
  | [] => []
  | d :: s' => flat / Shape.numel s' :: unravel s' (flat mod Shape.numel s')
  end.

(** The index read by a broadcast operand of shape [s] when the result
    is read at [idx]: aligned at the last axis, an axis of extent 1 is
    read at 0. *)
Definition bcast_idx (s idx : list Z) : list Z :=
  zip_with (fun d i => if d =? 1 then 0 else i) s
           (drop (length idx - length s) idx).

Fixpoint index_of (j : nat) (ds : list nat) : nat :=
  match ds with
  | [] => O
  | d :: ds' => if Nat.eqb d j then O else Datatypes.S (index_of j ds')
  end.

(** *** Framework operators *)

Definition tmap (f : S -> S) (t : tensor) : tensor :=
  mkTensor (shape t) (fun idx => f (get t idx)).

(** [t * c] for a Python number [c] *)
Definition mul_scalar (t : tensor) (c : S) : tensor :=
  tmap (fun a => smul a c) t.

Definition reshape (t : tensor) (tgt : list Z) : res tensor :=
  s ← Shape.reshape (shape t) tgt;
  Ok (mkTensor s (fun idx => get t (unravel (shape t) (ravel s idx)))).

Definition permute (t : tensor) (dims : list Z) : res tensor :=
  s ← Shape.permute (shape t) dims;
  ds ← mapM (Shape.norm_dim (length (shape t))) dims;
  Ok (mkTensor s (fun idx =>
        get t (map (fun j => nth (index_of j ds) idx 0)
                   (seq 0 (length (shape t)))))).

Definition transpose (t : tensor) (d0 d1 : Z) : res tensor :=
  s ← Shape.transpose (shape t) d0 d1;
  i ← Shape.norm_dim (length (shape t)) d0;
  j ← Shape.norm_dim (length (shape t)) d1;
  Ok (mkTensor s (fun idx =>
        get t (<[i := nth j idx 0]> (<[j := nth i idx 0]> idx)))).

Definition select0 (t : tensor) (k : Z) : tensor :=
  mkTensor (tail (shape t)) (fun idx => get t (k :: idx)).

Definition unbind0_3 (t : tensor) : res (tensor * tensor * tensor) :=
  _ ← Shape.unbind0_3 (shape t);
  Ok (select0 t 0, select0 t 1, select0 t 2).

Definition batch_dims (s : list Z) : list Z := take (length s - 2) s.

Definition matmul (a b : tensor) : res tensor :=
  s ← Shape.matmul (shape a) (shape b);
  Ok (mkTensor s (fun idx =>
        let r := length idx in
        let batch := take (r - 2) idx in
        let i := nth (r - 2) idx 0 in
        let j := nth (r - 1) idx 0 in
        sum_range (List.last (shape a) 0) (fun k =>
          smul (get a (bcast_idx (batch_dims (shape a)) batch ++ [i; k]))
               (get b (bcast_idx (batch_dims (shape b)) batch ++ [k; j]))))).

(** [a + b] with broadcasting *)
Definition tadd (a b : tensor) : res tensor :=
  s ← Shape.broadcast (shape a) (shape b);
  Ok (mkTensor s (fun idx =>
        sadd (get a (bcast_idx (shape a) idx)) (get b (bcast_idx (shape b) idx)))).

Definition softmax (t : tensor) (d : Z) : res tensor :=
  s ← Shape.softmax (shape t) d;
  i ← Shape.norm_dim (length (shape t)) d;
  Ok (mkTensor s (fun idx =>
        sdiv (sexp (get t idx))
             (sum_range (nth i (shape t) 0) (fun j => sexp (get t (<[i := j]> idx)))))).

(** A linear layer with its parameters: [weight] of shape
    (out_features, in_features) and, if the layer has one, [bias] of
    shape (out_features). *)
Record Linear := mkLinear {
  lin : Shape.Linear;
  weight : tensor;
  bias : tensor }.

Definition Linear_wf (l : Linear) : Prop :=
  shape (weight l) = [Shape.out_features (lin l); Shape.in_features (lin l)] /\
  shape (bias l) = [Shape.out_features (lin l)].

(** [nn.Linear]: y = x A^T + b on the last axis, the terms of an entry
    added in the order of [matmul] followed by [tadd];
    [Linear_forward_with] below leaves the order to the kernel. *)
Definition Linear_forward (l : Linear) (x : tensor) : res tensor :=
  s ← Shape.Linear_forward (lin l) (shape x);
  Ok (mkTensor s (fun idx =>
        let pre := removelast idx in
        let j := List.last idx 0 in
        let y := sum_range (Shape.in_features (lin l)) (fun k =>
                   smul (get x (pre ++ [k])) (get (weight l) [j; k])) in
        if Shape.has_bias (lin l) then sadd y (get (bias l) [j]) else y)).

(** *** The order of a kernel's additions

    One entry of [x A^T + b] is the sum of the products x_k * a_jk,
    k < in_features, and of the bias b_j.  [Linear_forward] above adds
    them in the order of [matmul] followed by [tadd]: the products
    first, then the bias.  The kernel behind [nn.Linear] (addmm) gets
    the bias together with the two matrices and adds the same terms in
    an order of its own.  A [schedule] is such an order: a tree of
    additions over the terms. *)
Inductive term := Product (k : Z) | Bias_term.

Inductive schedule :=
  | Term (t : term)
  | Nothing
  | Plus (l r : schedule).

Definition term_value (prod : Z -> S) (b : S) (t : term) : S :=
  match t with
  | Product k => prod k
  | Bias_term => b
  end.

Fixpoint eval_schedule (prod : Z -> S) (b : S) (s : schedule) : S :=
  match s with
  | Term t => term_value prod b t
  | Nothing => szero
  | Plus l r => sadd (eval_schedule prod b l) (eval_schedule prod b r)
  end.

Fixpoint terms_of (s : schedule) : list term :=
  match s with
  | Term t => [t]
  | Nothing => []
  | Plus l r => terms_of l ++ terms_of r
  end.

(** The terms of an entry over [n] input features. *)
Definition all_terms (n : Z) : list term :=
  map (fun k => Product (Z.of_nat k)) (seq 0 (Z.to_nat n)) ++ [Bias_term].

(** A kernel gives a schedule for every number of input features; it
    is valid when each schedule adds every term once. *)
Definition kernel := Z -> schedule.

Definition kernel_valid (ker : kernel) : Prop :=
  forall n, Permutation (terms_of (ker n)) (all_terms n).

(** The order of [matmul] followed by [tadd]:
    (p_0 + (p_1 + ... (p_(n-1) + 0))) + b *)
Definition matmul_then_add : kernel := fun n =>
  Plus (fold_right (fun k acc => Plus (Term (Product (Z.of_nat k))) acc)
                   Nothing (seq 0 (Z.to_nat n)))
       (Term Bias_term).

(** Accumulation onto the bias: ((b + p_0) + p_1) + ... + p_(n-1) *)
Definition bias_first : kernel := fun n =>
  fold_left (fun acc k => Plus acc (Term (Product (Z.of_nat k))))
            (seq 0 (Z.to_nat n)) (Term Bias_term).

(** [nn.Linear] computed by the kernel [ker]. *)
Definition Linear_forward_with (ker : kernel) (l : Linear) (x : tensor)
  : res tensor :=
  s ← Shape.Linear_forward (lin l) (shape x);
  Ok (mkTensor s (fun idx =>
        let pre := removelast idx in
        let j := List.last idx 0 in
        let prod k := smul (get x (pre ++ [k])) (get (weight l) [j; k]) in
        if Shape.has_bias (lin l)
        then eval_schedule prod (get (bias l) [j])
                           (ker (Shape.in_features (lin l)))
        else sum_range (Shape.in_features (lin l)) prod)).

(** einops [rearrange(x, 'b c h w -> b (c h w)')] *)
Definition rearrange_flatten (x : tensor) : res tensor :=
  s ← Shape.rearrange_flatten (shape x);
  Ok (mkTensor s (fun idx =>
        match shape x, idx with
        | [_; _; h; w], [b; f] => get x [b; f / (h * w); (f / w) mod h; f mod w]
        | _, _ => szero
        end)).

(** einops [rearrange(y, 'b (c h w) -> b c h w', b=B, h=h, w=w)] *)
Definition rearrange_unflatten (y : tensor) (B h w : Z) : res tensor :=
  s ← Shape.rearrange_unflatten (shape y) B h w;
  Ok (mkTensor s (fun idx =>
        match idx with
        | [b; c; i; j] => get y [b; (c * h + i) * w + j]
        | _ => szero
        end)).

(** *** transformer_demo.ipynb: Attention *)

Definition scale_value (c : Shape.scale_const) : S :=
  match c with Shape.PowNegHalf b => spow_neg_half b end.

Record Attention := mkAttention {
  num_heads : Z;
  scale : S;
  qkv : Linear;
  proj : Linear }.

(** The constructor, given the initial parameter tensors of its two
    linear layers. *)
Definition Attention_init (dim num_heads : Z) (qkv_bias : bool)
    (qkv_weight qkv_b proj_weight proj_b : tensor) : res Attention :=
  a ← Shape.Attention_init dim num_heads qkv_bias;
  Ok (mkAttention (Shape.num_heads a) (scale_value (Shape.scale a))
        (mkLinear (Shape.qkv a) qkv_weight qkv_b)
        (mkLinear (Shape.proj a) proj_weight proj_b)).

Definition Attention_forward (self : Attention) (x : tensor) : res tensor :=
  match shape x with
  | [B; N; C] =>
      y ← Linear_forward (qkv self) x;
      if num_heads self =? 0 then Raise ZeroDivisionError else
      y ← reshape y [B; N; 3; num_heads self; C / num_heads self];
      y ← permute y [2; 0; 3; 1; 4];
      '(q, k, v) ← unbind0_3 y;
      kT ← transpose k (-2) (-1);
      attn ← matmul q kT;
      let attn := mul_scalar attn (scale self) in
      attn ← softmax attn (-1);
      x ← matmul attn v;
      x ← transpose x 1 2;
      x ← reshape x [B; N; C];
      Linear_forward (proj self) x
  | _ => Raise ValueError
  end.

(** Multi-head scaled dot-product attention as the textbook has it,
    following the words of the specification: the output of the qkv
    layer, of width 3C, is cut into query, key and value thirds and each
    third into [num_heads] heads of width [head_dim] = C / num_heads;
    per head, the attention matrix is the row-wise softmax of
    q k^T * head_dim^(-1/2) and the head's output is that matrix times
    v; the heads are laid side by side again and projected. *)
Section Textbook.
Variables (heads C : Z) (QKV : tensor).

Definition head_dim : Z := C / heads.

(** third [s] (0 query, 1 key, 2 value) of head [h], row [n] of batch
    element [b] *)
Definition head_slice (s h b n d : Z) : S :=
  get QKV [b; n; s * C + h * head_dim + d].

Definition score (h b i j : Z) : S :=
  smul (sum_range head_dim (fun d =>
          smul (head_slice 0 h b i d) (head_slice 1 h b j d)))
       (spow_neg_half head_dim).

Definition attention_matrix (N : Z) (h b i j : Z) : S :=
  sdiv (sexp (score h b i j))
       (sum_range N (fun j' => sexp (score h b i j'))).

Definition head_output (N : Z) (h b n d : Z) : S :=
  sum_range N (fun j => smul (attention_matrix N h b n j) (head_slice 2 h b j d)).

Definition heads_merged (B N : Z) : tensor :=
  mkTensor [B; N; C] (fun idx =>
    match idx with
    | [b; n; c] => head_output N (c / head_dim) b n (c mod head_dim)
    | _ => szero
    end).

End Textbook.

Definition textbook_attention (self : Attention) (x : tensor) : res tensor :=
  match shape x with
  | [B; N; C] =>
      QKV ← Linear_forward (qkv self) x;
      Linear_forward (proj self) (heads_merged (num_heads self) C QKV B N)
  | _ => Raise ValueError
  end.

(** *** transformer_demo.ipynb: the two MLPs *)

Section MLPs.
Variable gelu : S -> S.

Record SimpleMLP := mkSimpleMLP { fc1 : Linear; fc2 : Linear; fc3 : Linear }.

Definition SimpleMLP_forward (self : SimpleMLP) (x : tensor) : res tensor :=
  y ← rearrange_flatten x;
  y ← Linear_forward (fc1 self) y;
  let y := tmap gelu y in
  y ← Linear_forward (fc2 self) y;
  let y := tmap gelu y in
  y ← Linear_forward (fc3 self) y;
  Ok y.

(** [SimpleMLP.forward] with [nn.Linear] computed by the kernel [ker]. *)
Definition SimpleMLP_forward_with (ker : kernel) (self : SimpleMLP) (x : tensor)
  : res tensor :=
  y ← rearrange_flatten x;
  y ← Linear_forward_with ker (fc1 self) y;
  let y := tmap gelu y in
  y ← Linear_forward_with ker (fc2 self) y;
  let y := tmap gelu y in
  y ← Linear_forward_with ker (fc3 self) y;
  Ok y.

Record TensorMLP := mkTensorMLP {
  w1 : tensor; b1 : tensor;
  w2 : tensor; b2 : tensor;
  w3 : tensor; b3 : tensor }.

(** [w.T]: the axes in reverse order. *)
Definition tensor_T (w : tensor) : res tensor :=
  permute w (map Z.of_nat (rev (seq 0 (length (shape w))))).

Definition TensorMLP_forward (self : TensorMLP) (x : tensor) : res tensor :=
  y ← rearrange_flatten x;
  w1T ← tensor_T (w1 self);
  y ← matmul y w1T;
  y ← tadd y (b1 self);
  let y := tmap gelu y in
  w2T ← tensor_T (w2 self);
  y ← matmul y w2T;
  y ← tadd y (b2 self);
  let y := tmap gelu y in
  w3T ← tensor_T (w3 self);
  y ← matmul y w3T;
  y ← tadd y (b3 self);
  Ok y.

(** The parameter tensors [TensorMLP(n_features, n_hidden, num_classes)]
    allocates. *)
Definition TensorMLP_wf (n_features n_hidden num_classes : Z) (t : TensorMLP) : Prop :=
  shape (w1 t) = [n_hidden; n_features] /\ shape (b1 t) = [n_hidden] /\
  shape (w2 t) = [n_hidden; n_hidden] /\ shape (b2 t) = [n_hidden] /\
  shape (w3 t) = [num_classes; n_hidden] /\ shape (b3 t) = [num_classes].

(** [SimpleMLP(n_features, n_hidden, num_classes)] holding the same
    parameters as the TensorMLP [t]. *)
Definition SimpleMLP_of (n_features n_hidden num_classes : Z) (t : TensorMLP)
  : SimpleMLP :=
  mkSimpleMLP
    (mkLinear (Shape.mkLinear n_features n_hidden true) (w1 t) (b1 t))
    (mkLinear (Shape.mkLinear n_hidden n_hidden true) (w2 t) (b2 t))
    (mkLinear (Shape.mkLinear n_hidden num_classes true) (w3 t) (b3 t)).

End MLPs.

(** *** colorize_pytorch_demo.ipynb: Decoder *)

Section Decoder.
Variables relu sigmoid : S -> S.

(** A transposed convolution with its parameters: [ct_weight] of shape
    (in, out, k, k) and [ct_bias] of shape (out). *)
Record ConvTranspose2d := mkConvT {
  ct : Shape.Conv2d;
  ct_weight : tensor;
  ct_bias : tensor }.

Definition within (i n : Z) : bool := (0 <=? i) && (i <? n).

(** [nn.ConvTranspose2d]: output pixel (i, j) collects every input
    pixel (i', j') and kernel tap (u, v) with i = i' * stride - padding
    + u, and the same for j. *)
Definition ConvTranspose2d_forward (c : ConvTranspose2d) (x : tensor) : res tensor :=
  s ← Shape.ConvTranspose2d_forward (ct c) (shape x);
  Ok (mkTensor s (fun idx =>
        match shape x, idx with
        | [_; _; h; w], [b; o; i; j] =>
            let k := Shape.c_kernel (ct c) in
            let st := Shape.c_stride (ct c) in
            let p := Shape.c_padding (ct c) in
            sadd
              (sum_range (Shape.c_in (ct c)) (fun ci =>
                 sum_range k (fun u =>
                   sum_range k (fun v =>
                     let ni := i + p - u in
                     let nj := j + p - v in
                     if (ni mod st =? 0) && (nj mod st =? 0)
                        && within (ni / st) h && within (nj / st) w
                     then smul (get x [b; ci; ni / st; nj / st])
                               (get (ct_weight c) [ci; o; u; v])
                     else szero))))
              (get (ct_bias c) [o])
        | _, _ => szero
        end)).

Record Decoder := mkDecoder {
  init_size : Z;
  d_fc1 : Linear;
  conv1 : ConvTranspose2d; conv2 : ConvTranspose2d;
  conv3 : ConvTranspose2d; conv4 : ConvTranspose2d }.

Definition Decoder_forward (self : Decoder) (x : tensor) : res tensor :=
  match shape x with
  | [B; _] =>
      y ← Linear_forward (d_fc1 self) x;
      y ← rearrange_unflatten y B (init_size self) (init_size self);
      y ← ConvTranspose2d_forward (conv1 self) y;
      let y := tmap relu y in
      y ← ConvTranspose2d_forward (conv2 self) y;
      let y := tmap relu y in
      y ← ConvTranspose2d_forward (conv3 self) y;
      let y := tmap relu y in
      y ← ConvTranspose2d_forward (conv4 self) y;
      let y := tmap sigmoid y in
      Ok y
  | _ => Raise ValueError
  end.

(** The layers of the value-level decoder are those the constructor
    builds. *)
Definition Decoder_of (d : Shape.Decoder) (self : Decoder) : Prop :=
  init_size self = Shape.init_size d /\
  lin (d_fc1 self) = Shape.d_fc1 d /\
  ct (conv1 self) = Shape.d_conv1 d /\ ct (conv2 self) = Shape.d_conv2 d /\
  ct (conv3 self) = Shape.d_conv3 d /\ ct (conv4 self) = Shape.d_conv4 d.

End Decoder.

(** *** The collate functions *)

(** [torch.stack(xs, dim=0)] *)
Definition stack (xs : list tensor) : res tensor :=
  match xs with
  | [] => Raise TorchError
  | x0 :: _ =>
      if forallb (fun x => bool_decide (shape x = shape x0)) xs
      then Ok (mkTensor (Z.of_nat (length xs) :: shape x0) (fun idx =>
                 match idx with
                 | i :: rest => get (nth (Z.to_nat i) xs x0) rest
                 | [] => szero
                 end))
      else Raise TorchError
  end.

(** einops [reduce(x, "b c h w -> b 1 h w", 'mean')] *)
Definition reduce_mean_channels (x : tensor) : res tensor :=
  match shape x with
  | [b; c; h; w] =>
      Ok (mkTensor [b; 1; h; w] (fun idx =>
            match idx with
            | [bi; _; i; j] =>
                sdiv (sum_range c (fun ci => get x [bi; ci; i; j])) (sofZ c)
            | _ => szero
            end))
  | _ => Raise EinopsError
  end.

(** einops [rearrange(x, 'b c (p1 h) (p2 w) -> b (p1 p2) (c h w)',
    p1=p, p2=p)].  einops first compares the rank of [x] with the
    pattern, then, axis by axis, evaluates [length % p] (a
    ZeroDivisionError of Python when p is 0, which einops does not
    catch) and raises its own error when the remainder is not 0; the
    inferred lengths [length // p] then go to the framework's reshape,
    which refuses the negative extents a negative [p] gives. *)
Definition rearrange_patches (x : tensor) (p : Z) : res tensor :=
  match shape x with
  | [b; c; hh; ww] =>
      if p =? 0 then Raise ZeroDivisionError
      else if negb ((hh mod p =? 0) && (ww mod p =? 0)) then Raise EinopsError
      else if p <? 0 then Raise TorchError
      else
        let h := hh / p in
        let w := ww / p in
        Ok (mkTensor [b; p * p; c * h * w] (fun idx =>
              match idx with
              | [bi; q; f] =>
                  get x [bi; f / (h * w);
                         (q / p) * h + (f / w) mod h;
                         (q mod p) * w + f mod w]
              | _ => szero
              end))
  | _ => Raise EinopsError
  end.

(** Unzipping the batch, a list of (image, label) samples, into the two
    names [x, y]: an empty batch gives nothing to unpack. *)
Definition unzip_batch (batch : list (tensor * Z)) : res (list tensor * list Z) :=
  match batch with
  | [] => Raise ValueError
  | _ => Ok (map fst batch, map snd batch)
  end.

Definition gray_collate_fn (batch : list (tensor * Z)) : res (tensor * tensor) :=
  '(x, _) ← unzip_batch batch;
  x ← stack x;
  xn ← reduce_mean_channels x;
  Ok (xn, x).

(** [LitCifar10.collate_fn]; the label tensor is given by its entries. *)
Definition collate_fn (patch_num : Z) (batch : list (tensor * Z))
  : res (tensor * list Z) :=
  '(x, y) ← unzip_batch batch;
  x ← stack x;
  let y := y in
  x ← rearrange_patches x patch_num;
  Ok (x, y).

End WithScalar.
Arguments sum_range : simpl never.
Arguments tensor S : clear implicits.
Arguments Linear S : clear implicits.
Arguments Attention S : clear implicits.
Arguments SimpleMLP S : clear implicits.
Arguments TensorMLP S : clear implicits.
Arguments ConvTranspose2d S : clear implicits.
Arguments Decoder S : clear implicits.
End Value.

(** *** Scalar instances *)

(** Exact real arithmetic. *)
#[global] Instance R_Scalar : Scalar R := {|
  szero := 0%R;
  sadd := Rplus;
  smul := Rmult;
  sdiv := Rdiv;
  sexp := exp;
  sofZ := IZR;
  spow_neg_half b := (/ sqrt (IZR b))%R |}.

(** [nn.ReLU] and [nn.Sigmoid] on a real. *)
Definition R_relu (x : R) : R := Rmax 0 x.
Definition R_sigmoid (x : R) : R := (1 / (1 + exp (- x)))%R.

(** Rational arithmetic, to run the definitions on small inputs.  The
    two transcendental operations have rational stand-ins: the
    second-order Taylor polynomial for [exp], and [1 / b] for
    [b ** -0.5]. *)
#[global] Instance Q_Scalar : Scalar Q := {|
  szero := 0%Q;
  sadd := Qplus;
  smul := Qmult;
  sdiv := Qdiv;
  sexp x := (1 + x + x * x / 2)%Q;
  sofZ := inject_Z;
  spow_neg_half b := (1 / inject_Z b)%Q |}.

(** The tensor of shape [s] with every entry [c]. *)
Definition full {S} (s : list Z) (c : S) : Value.tensor S :=
  Value.mkTensor s (fun _ => c).

(** The tensor of shape [s] whose entry at a multi-index is [f] of its
    row-major position. *)
Definition from_flat {S} (s : list Z) (f : Z -> S) : Value.tensor S :=
  Value.mkTensor s (fun idx => f (Value.ravel s idx)).

(** The entry at [idx] of a result, if there is one. *)
Definition entry {S} (r : res (Value.tensor S)) (idx : list Z) : option S :=
  match r with
  | Ok t => Some (Value.get t idx)
  | Raise _ => None
  end.

(** ** The Lightning modules and callbacks *)

(** *** Python values of the glue code *)

(** A hyperparameter value: an int, a float (as a rational) or any
    other object, named (a class such as [SimpleMLP], a string). *)
Inductive hval : Type :=
  | HInt (z : Z)
  | HFloat (q : Q)
  | HObj (name : string).

(** Keyword arguments of a call, and the attribute dictionary
    [self.hparams]. *)
Abbreviation kwargs := (gmap string hval).

(** [self.save_hyperparameters()] in a constructor that takes [**kwargs]:
    every named parameter with the value it is bound to (the caller's,
    or else the default), together with the extra keywords. *)
Definition save_hyperparameters (args defaults : kwargs) : kwargs :=
  args ∪ defaults.

(** The value a named parameter is bound to. *)
Definition py_arg (args defaults : kwargs) (name : string) : res hval :=
  match (args ∪ defaults) !! name with
  | Some v => Ok v
  | None => Raise (AttributeError name)
  end.

(** [self.hparams.name] *)
Definition getattr (h : kwargs) (name : string) : res hval :=
  match h !! name with
  | Some v => Ok v
  | None => Raise (AttributeError name)
  end.

(** A value used where the framework wants an integer size. *)
Definition as_size (v : hval) : res Z :=
  match v with HInt z => Ok z | _ => Raise TorchError end.

(** Python's [v // 4] followed by a use as a slice bound. *)
Definition floordiv_index (v : hval) (d : Z) : res Z :=
  match v with
  | HInt z => if d =? 0 then Raise ZeroDivisionError else Ok (z / d)
  | _ => Raise TypeError
  end.

(** Python's [l[:n]]. *)
Definition py_slice_to {A} (l : list A) (n : Z) : list A :=
  if n <? 0 then take (Z.to_nat (Z.of_nat (length l) + n)) l
  else take (Z.to_nat n) l.

(** Python's [l[i]] on a list. *)
Definition py_getitem {A} (l : list A) (i : Z) : res A :=
  let j := if i <? 0 then i + Z.of_nat (length l) else i in
  if j <? 0 then Raise IndexError
  else match l !! Z.to_nat j with
       | Some a => Ok a
       | None => Raise IndexError
       end.

(** [outputs["key"]] *)
Definition py_dict_get {A} (d : gmap string A) (key : string) : res A :=
  match d !! key with
  | Some a => Ok a
  | None => Raise (KeyError key)
  end.

(** [zip(a, b, c)] as a list of triples. *)
Fixpoint zip3 {A B C} (a : list A) (b : list B) (c : list C) : list (A * B * C) :=
  match a, b, c with
  | x :: a', y :: b', z :: c' => (x, y, z) :: zip3 a' b' c'
  | _, _, _ => []
  end.

(** A list comprehension whose body may raise. *)
Fixpoint traverse {A B} (f : A -> res B) (l : list A) : res (list B) :=
  match l with
  | [] => Ok []
  | a :: l' => b ← f a; bs ← traverse f l'; Ok (b :: bs)
  end.

(** The model classes [LitCIFAR10Model] is instantiated with. *)
Record MlpModel := mkMlpModel { class_name : string; model_num_classes : hval }.

(** The parameter-owning children of a module, in registration order;
    [self.parameters()] is the parameters of these. *)
Inductive submodule : Type :=
  | SubLinear (l : Shape.Linear)
  | SubTransformer (t : Shape.Transformer)
  | SubEncoder (e : Shape.Encoder)
  | SubDecoder (d : Shape.Decoder)
  | SubModel (m : MlpModel).

(** The numerics the notebooks take from the framework, on a tensor
    type [T]: applying a module with its current parameters, the loss
    criteria and metrics, and the accessors used by the callbacks. *)
Class Framework (T : Type) := {
  apply_Linear : Shape.Linear -> T -> T;
  apply_Transformer : Shape.Transformer -> T -> T;
  apply_Encoder : Shape.Encoder -> T -> T;
  apply_Decoder : Shape.Decoder -> T -> T;
  apply_model : MlpModel -> T -> T;
  flatten_from_1 : T -> T;
  MSELoss : T -> T -> T;
  CrossEntropyLoss : T -> T -> T;
  accuracy : T -> T -> T;
  mul_float : T -> Q -> T;
  argmax_dim1 : T -> T;
  (** iterating a tensor along its first axis *)
  unbind : T -> res (list T);
  (** the entries of a rank-1 integer tensor *)
  to_ints : T -> res (list Z) }.

(** What a step hook returns: a tensor, or a dict of tensors. *)
Inductive step_output (T : Type) : Type :=
  | RetTensor (t : T)
  | RetDict (d : gmap string T).
Arguments RetTensor {T} t.
Arguments RetDict {T} d.

(** [torch.optim.Adam(params, lr=lr)] *)
Record Optimizer := Adam { opt_params : list submodule; opt_lr : hval }.

(** [CosineAnnealingLR(optimizer, T_max=t)] *)
Record Scheduler := CosineAnnealingLR { sched_optimizer : Optimizer; T_max : hval }.

(** A learning rate Adam accepts: a number that is not negative. *)
Definition valid_lr (v : hval) : bool :=
  match v with
  | HInt z => 0 <=? z
  | HFloat q => Qle_bool 0 q
  | HObj _ => false
  end.

(** Adam's constructor rejects any other learning rate. *)
Definition new_Adam (params : list submodule) (lr : hval) : res Optimizer :=
  if valid_lr lr then Ok (Adam params lr) else Raise TorchError.

(** The hooks of a Lightning module that the trainer calls. *)
Class LightningModule (T : Type) (M : Type) := {
  training_step : M -> T * T -> Z -> res (step_output T);
  validation_step : M -> T * T -> Z -> res (step_output T);
  configure_optimizers : M -> res (list Optimizer * list Scheduler) }.

(** A cell of a logged table: [wandb.Image(t)] or a string. *)
Inductive cell (T : Type) : Type :=
  | Image (t : T)
  | Str (s : string).
Arguments Image {T} t.
Arguments Str {T} s.

(** One call of [wandb_logger.log_table(key, columns, data)]. *)
Record table (T : Type) := mkTable {
  t_key : string; t_columns : list string; t_data : list (list (cell T)) }.
Arguments mkTable {T}.
Arguments t_key {T}.
Arguments t_columns {T}.
Arguments t_data {T}.

(** The state of the tracking service: the tables logged so far. *)
Definition wandb_state (T : Type) := list (table T).

Definition log_table {T} (key : string) (columns : list string)
    (data : list (list (cell T))) (st : wandb_state T) : wandb_state T :=
  st ++ [mkTable key columns data].

(** The trainer's validation loop over the batches of one dataloader:
    for each batch, [validation_step] and then the callback. *)
Fixpoint validation_loop {T M} `{LightningModule T M}
    (on_batch_end : M -> step_output T -> T * T -> Z -> wandb_state T
                    -> res (wandb_state T))
    (pl_module : M) (batches : list (T * T)) (batch_idx : Z)
    (st : wandb_state T) : res (wandb_state T) :=
  match batches with
  | [] => Ok st
  | batch :: rest =>
      outputs ← validation_step pl_module batch batch_idx;
      st ← on_batch_end pl_module outputs batch batch_idx st;
      validation_loop on_batch_end pl_module rest (batch_idx + 1) st
  end.

(** [outputs["key"]] on what a step hook returned. *)
Definition output_get {T} (outputs : step_output T) (key : string) : res T :=
  match outputs with
  | RetDict d => py_dict_get d key
  | RetTensor _ => Raise TorchError
  end.

(** *** colorize_pytorch_demo.ipynb *)

Module Colorize.
Section WithFramework.
Context {T : Type} `{Framework T}.

Definition defaults : kwargs :=
  {[ "feature_dim" := HInt 256; "lr" := HFloat (1 # 1000);
     "batch_size" := HInt 64; "num_workers" := HInt 4;
     "max_epochs" := HInt 30 ]}.

Record LitColorizeCIFAR10Model := mkLit {
  hparams : kwargs;
  encoder : Shape.Encoder;
  decoder : Shape.Decoder }.

Definition LitColorizeCIFAR10Model_init (args : kwargs)
  : res LitColorizeCIFAR10Model :=
  let hparams := save_hyperparameters args defaults in
  feature_dim ← py_arg args defaults "feature_dim";
  feature_dim ← as_size feature_dim;
  encoder ← Shape.Encoder_init 1 3 64 feature_dim;
  decoder ← Shape.Decoder_init 3 256 feature_dim 32 3;
  Ok (mkLit hparams encoder decoder).

(** [self.loss = nn.MSELoss()] *)
Definition loss (self : LitColorizeCIFAR10Model) : T -> T -> T := MSELoss.

Definition forward (self : LitColorizeCIFAR10Model) (x : T) : T :=
  let h := apply_Encoder (encoder self) x in
  let x_tilde := apply_Decoder (decoder self) h in
  x_tilde.

Definition Lit_training_step (self : LitColorizeCIFAR10Model)
    (batch : T * T) (batch_idx : Z) : res (step_output T) :=
  let '(x_in, x) := batch in
  let x_tilde := forward self x_in in
  let loss := loss self x_tilde x in
  Ok (RetDict {[ "loss" := loss ]}).

Definition test_step (self : LitColorizeCIFAR10Model)
    (batch : T * T) (batch_idx : Z) : res (step_output T) :=
  let '(x_in, x) := batch in
  let x_tilde := forward self x_in in
  let loss := loss self x_tilde x in
  Ok (RetDict {[ "x_in" := x_in; "x" := x; "x_tilde" := x_tilde;
                 "test_loss" := loss ]}).

Definition Lit_validation_step (self : LitColorizeCIFAR10Model)
    (batch : T * T) (batch_idx : Z) : res (step_output T) :=
  test_step self batch batch_idx.

Definition parameters (self : LitColorizeCIFAR10Model) : list submodule :=
  [SubEncoder (encoder self); SubDecoder (decoder self)].

Definition Lit_configure_optimizers (self : LitColorizeCIFAR10Model)
  : res (list Optimizer * list Scheduler) :=
  lr ← getattr (hparams self) "lr";
  optimizer ← new_Adam (parameters self) lr;
  max_epochs ← getattr (hparams self) "max_epochs";
  let scheduler := CosineAnnealingLR optimizer max_epochs in
  Ok ([optimizer], [scheduler]).

#[global] Instance Lit_hooks : LightningModule T LitColorizeCIFAR10Model := {
  training_step := Lit_training_step;
  validation_step := Lit_validation_step;
  configure_optimizers := Lit_configure_optimizers }.

(** [WandbCallback.on_validation_batch_end]; the [trainer] and
    [dataloader_idx] arguments are not used. *)
Definition WandbCallback_on_validation_batch_end (pl_module : LitColorizeCIFAR10Model)
    (outputs : step_output T) (batch : T * T) (batch_idx : Z)
    (wandb_logger : wandb_state T) : res (wandb_state T) :=
  if batch_idx =? 0 then
    let '(x, c) := batch in
    batch_size ← getattr (hparams pl_module) "batch_size";
    n ← floordiv_index batch_size 4;
    outputs ← output_get outputs "x_tilde";
    let columns := ["gt color"; "gray"; "colorized"] in
    cs ← unbind c;
    xs ← unbind x;
    os ← unbind outputs;
    let data :=
      map (fun '(c_i, x_i, x_tilde_i) => [Image c_i; Image x_i; Image x_tilde_i])
          (zip3 (py_slice_to cs n) (py_slice_to xs n) (py_slice_to os n)) in
    Ok (log_table "cifar10-colorize-ae" columns data wandb_logger)
  else Ok wandb_logger.

End WithFramework.

End Colorize.

(** *** transformer_demo.ipynb: the transformer classifier *)

Module TransformerDemo.
Section WithFramework.
Context {T : Type} `{Framework T}.

Definition defaults : kwargs :=
  {[ "num_classes" := HInt 10; "lr" := HFloat (1 # 1000);
     "max_epochs" := HInt 30; "depth" := HInt 12; "embed_dim" := HInt 64;
     "head" := HInt 4; "patch_dim" := HInt 192; "seqlen" := HInt 16 ]}.

Record LitTransformer := mkLit {
  hparams : kwargs;
  encoder : Shape.Transformer;
  embed : Shape.Linear;
  fc : Shape.Linear }.

Definition LitTransformer_init (args : kwargs) : res LitTransformer :=
  let hparams := save_hyperparameters args defaults in
  embed_dim ← py_arg args defaults "embed_dim"; embed_dim ← as_size embed_dim;
  head ← py_arg args defaults "head"; head ← as_size head;
  depth ← py_arg args defaults "depth"; depth ← as_size depth;
  encoder ← Shape.Transformer_init embed_dim head depth (4 # 1) false;
  patch_dim ← py_arg args defaults "patch_dim"; patch_dim ← as_size patch_dim;
  embed ← Shape.nn_Linear patch_dim embed_dim true;
  seqlen ← py_arg args defaults "seqlen"; seqlen ← as_size seqlen;
  num_classes ← py_arg args defaults "num_classes";
  num_classes ← as_size num_classes;
  fc ← Shape.nn_Linear (seqlen * embed_dim) num_classes true;
  Ok (mkLit hparams encoder embed fc).

(** [self.loss = torch.nn.CrossEntropyLoss()] *)
Definition loss (self : LitTransformer) : T -> T -> T := CrossEntropyLoss.

Definition forward (self : LitTransformer) (x : T) : T :=
  let x := apply_Linear (embed self) x in
  let x := apply_Transformer (encoder self) x in
  let x := flatten_from_1 x in
  let x := apply_Linear (fc self) x in
  x.

Definition Lit_training_step (self : LitTransformer)
    (batch : T * T) (batch_idx : Z) : res (step_output T) :=
  let '(x, y) := batch in
  let y_hat := forward self x in
  let loss := loss self y_hat y in
  Ok (RetTensor loss).

Definition test_step (self : LitTransformer)
    (batch : T * T) (batch_idx : Z) : res (step_output T) :=
  let '(x, y) := batch in
  let y_hat := forward self x in
  let loss := loss self y_hat y in
  let acc := accuracy y_hat y in
  Ok (RetDict {[ "y_hat" := y_hat; "test_loss" := loss; "test_acc" := acc ]}).

Definition Lit_validation_step (self : LitTransformer)
    (batch : T * T) (batch_idx : Z) : res (step_output T) :=
  test_step self batch batch_idx.

Definition parameters (self : LitTransformer) : list submodule :=
  [SubTransformer (encoder self); SubLinear (embed self); SubLinear (fc self)].

Definition Lit_configure_optimizers (self : LitTransformer)
  : res (list Optimizer * list Scheduler) :=
  lr ← getattr (hparams self) "lr";
  optimizer ← new_Adam (parameters self) lr;
  max_epochs ← getattr (hparams self) "max_epochs";
  let scheduler := CosineAnnealingLR optimizer max_epochs in
  Ok ([optimizer], [scheduler]).

#[global] Instance Lit_hooks : LightningModule T LitTransformer := {
  training_step := Lit_training_step;
  validation_step := Lit_validation_step;
  configure_optimizers := Lit_configure_optimizers }.

End WithFramework.

End TransformerDemo.

(** *** transformer_demo.ipynb: the MLP classifier *)

Module MlpDemo.
Section WithFramework.
Context {T : Type} `{Framework T}.

Definition defaults : kwargs :=
  {[ "num_classes" := HInt 10; "lr" := HFloat (1 # 1000);
     "batch_size" := HInt 64; "num_workers" := HInt 4;
     "max_epochs" := HInt 30; "model" := HObj "SimpleMLP" ]}.

Record LitCIFAR10Model := mkLit {
  hparams : kwargs;
  model : MlpModel }.

(** This constructor takes no [**kwargs]: an unknown keyword is a
    TypeError of the call. *)
Definition LitCIFAR10Model_init (args : kwargs) : res LitCIFAR10Model :=
  if decide (dom args ⊆ dom defaults) then
    let hparams := save_hyperparameters args defaults in
    num_classes ← py_arg args defaults "num_classes";
    model ← py_arg args defaults "model";
    match model with
    | HObj name => Ok (mkLit hparams (mkMlpModel name num_classes))
    | _ => Raise TypeError
    end
  else Raise TypeError.

(** [self.loss = nn.CrossEntropyLoss()] *)
Definition loss (self : LitCIFAR10Model) : T -> T -> T := CrossEntropyLoss.

Definition forward (self : LitCIFAR10Model) (x : T) : T :=
  apply_model (model self) x.

Definition Lit_training_step (self : LitCIFAR10Model)
    (batch : T * T) (batch_idx : Z) : res (step_output T) :=
  let '(x, y) := batch in
  let y_hat := forward self x in
  let loss := loss self y_hat y in
  Ok (RetDict {[ "loss" := loss ]}).

Definition test_step (self : LitCIFAR10Model)
    (batch : T * T) (batch_idx : Z) : res (step_output T) :=
  let '(x, y) := batch in
  let y_hat := forward self x in
  let loss := loss self y_hat y in
  let acc := mul_float (accuracy y_hat y) (100 # 1) in
  Ok (RetDict {[ "y_hat" := y_hat; "test_loss" := loss; "test_acc" := acc ]}).

Definition Lit_validation_step (self : LitCIFAR10Model)
    (batch : T * T) (batch_idx : Z) : res (step_output T) :=
  test_step self batch batch_idx.

Definition parameters (self : LitCIFAR10Model) : list submodule :=
  [SubModel (model self)].

Definition Lit_configure_optimizers (self : LitCIFAR10Model)
  : res (list Optimizer * list Scheduler) :=
  lr ← getattr (hparams self) "lr";
  optimizer ← new_Adam (parameters self) lr;
  max_epochs ← getattr (hparams self) "max_epochs";
  let scheduler := CosineAnnealingLR optimizer max_epochs in
  Ok ([optimizer], [scheduler]).

#[global] Instance Lit_hooks : LightningModule T LitCIFAR10Model := {
  training_step := Lit_training_step;
  validation_step := Lit_validation_step;
  configure_optimizers := Lit_configure_optimizers }.

Definition label_human : list string :=
  ["airplane"; "automobile"; "bird"; "cat";
   "deer"; "dog"; "frog"; "horse"; "ship"; "truck"].

(** [WandbCallback.on_validation_batch_end]; the [trainer] and
    [dataloader_idx] arguments are not used. *)
Definition WandbCallback_on_validation_batch_end (pl_module : LitCIFAR10Model)
    (outputs : step_output T) (batch : T * T) (batch_idx : Z)
    (wandb_logger : wandb_state T) : res (wandb_state T) :=
  if batch_idx =? 0 then
    let n := 10 in
    let '(x, y) := batch in
    outputs ← output_get outputs "y_hat";
    let outputs := argmax_dim1 outputs in
    let columns := ["image"; "ground truth"; "prediction"] in
    xs ← unbind x;
    ys ← to_ints y;
    preds ← to_ints outputs;
    data ← traverse
      (fun '(x_i, y_i, y_pred) =>
         gt ← py_getitem label_human y_i;
         pred ← py_getitem label_human y_pred;
         Ok [Image x_i; Str gt; Str pred])
      (zip3 (py_slice_to xs n) (py_slice_to ys n) (py_slice_to preds n));
    Ok (log_table (class_name (model pl_module)) columns data wandb_logger)
  else Ok wandb_logger.

End WithFramework.

End MlpDemo.

(** *** A symbolic tensor type

    Tensors as terms: inputs by name, framework operators left
    uninterpreted, a batch given by its slices along the first axis, and
    integer label vectors.  It instantiates [Framework] for the concrete
    examples; the modules act slice by slice on a batch, and [predict]
    says which class a classifier output stands for. *)
#[local] Unset Elimination Schemes.
Inductive sym : Type :=
  | SVar (name : string)
  | SApp (op : string) (args : list sym)
  | SBatch (rows : list sym)
  | SLabels (l : list Z).
#[local] Set Elimination Schemes.

Definition per_sample (op : string) (t : sym) : sym :=
  match t with
  | SBatch rows => SBatch (map (fun r => SApp op [r]) rows)
  | _ => SApp op [t]
  end.

Definition sym_Framework (predict : sym -> Z) : Framework sym := {|
  apply_Linear _ := per_sample "Linear";
  apply_Transformer _ := per_sample "Transformer";
  apply_Encoder _ := per_sample "Encoder";
  apply_Decoder _ := per_sample "Decoder";
  apply_model m := per_sample (class_name m);
  flatten_from_1 := per_sample "flatten";
  MSELoss a b := SApp "MSELoss" [a; b];
  CrossEntropyLoss a b := SApp "CrossEntropyLoss" [a; b];
  accuracy a b := SApp "accuracy" [a; b];
  mul_float a q := SApp "mul" [a];
  argmax_dim1 t :=
    match t with
    | SBatch rows => SLabels (map predict rows)
    | _ => SApp "argmax" [t]
    end;
  unbind t :=
    match t with
    | SBatch rows => Ok rows
    | _ => Raise TypeError
    end;
  to_ints t :=
    match t with
    | SLabels l => Ok l
    | _ => Raise TypeError
    end |}.

(** ** Small concrete inputs *)

Module Examples.
Import Value.

(** An attention layer with dim = 4 and two heads, and an input of
    shape (1, 2, 4), over the rationals. *)
Definition x_124 : tensor Q := from_flat [1; 2; 4] (fun k => inject_Z (k + 1)).
Definition qkv_weight : tensor Q := from_flat [12; 4] (fun k => inject_Z (k mod 3 - 1)).
Definition qkv_bias : tensor Q := full [12] 0%Q.
Definition proj_weight : tensor Q := from_flat [4; 4] (fun k => inject_Z (k mod 2)).
Definition proj_bias : tensor Q := from_flat [4] inject_Z.

Definition attention_4_2 : res (Attention Q) :=
  Attention_init (SC:=Q_Scalar) 4 2 false qkv_weight qkv_bias proj_weight proj_bias.

(** A TensorMLP with 4 input features, 2 hidden units and 3 classes,
    and an input batch of shape (2, 1, 2, 2). *)
Definition mlp_4_2_3 : TensorMLP Q :=
  mkTensorMLP
    (from_flat [2; 4] (fun k => inject_Z (k - 3))) (from_flat [2] inject_Z)
    (from_flat [2; 2] (fun k => inject_Z (1 - k))) (full [2] 1%Q)
    (from_flat [3; 2] (fun k => inject_Z (k mod 2))) (from_flat [3] inject_Z).

Definition x_2122 : tensor Q := from_flat [2; 1; 2; 2] (fun k => inject_Z (k * k)).

(** The same TensorMLP and input batch over the reals. *)
Definition mlp_4_2_3_R : TensorMLP R :=
  mkTensorMLP
    (from_flat [2; 4] (fun k => IZR (k - 3))) (from_flat [2] IZR)
    (from_flat [2; 2] (fun k => IZR (1 - k))) (full [2] 1%R)
    (from_flat [3; 2] (fun k => IZR (k mod 2))) (from_flat [3] IZR).

Definition x_2122_R : tensor R := from_flat [2; 1; 2; 2] (fun k => IZR (k * k)).

(** A stand-in for GELU on rationals. *)
Definition Q_act (x : Q) : Q := (x * x / 4)%Q.

(** Two samples with images of shape (1, 2, 2). *)
Definition samples : list (tensor Q * Z) :=
  [(from_flat [1; 2; 2] inject_Z, 3);
   (from_flat [1; 2; 2] (fun k => inject_Z (10 + k)), 7)].

(** The default decoder with every parameter equal to [c]. *)
Definition Decoder_const {S} (c : S) : Decoder S :=
  let d := Shape.Decoder_default in
  mkDecoder (Shape.init_size d)
    (mkLinear (Shape.d_fc1 d) (full [16384; 256] c) (full [16384] c))
    (mkConvT (Shape.d_conv1 d) (full [256; 128; 3; 3] c) (full [128] c))
    (mkConvT (Shape.d_conv2 d) (full [128; 64; 3; 3] c) (full [64] c))
    (mkConvT (Shape.d_conv3 d) (full [64; 64; 3; 3] c) (full [64] c))
    (mkConvT (Shape.d_conv4 d) (full [64; 3; 4; 4] c) (full [3] c)).

End Examples.

(** ** The whole models, by shape *)

Module Models.
Import Shape.

(** [x.flatten(start_dim=1)] *)
Definition flatten_from_1 (s : shape) : res shape :=
  match s with
  | b :: d :: rest => Ok [b; numel (d :: rest)]
  | _ => Raise TorchError
  end.

(** [LitTransformer.forward] *)
Definition LitTransformer_forward (self : TransformerDemo.LitTransformer)
    (x : shape) : res shape :=
  x ← Linear_forward (TransformerDemo.embed self) x;
  x ← Transformer_forward (TransformerDemo.encoder self) x;
  x ← flatten_from_1 x;
  x ← Linear_forward (TransformerDemo.fc self) x;
  Ok x.

(** [LitColorizeCIFAR10Model.forward] *)
Definition LitColorize_forward (self : Colorize.LitColorizeCIFAR10Model)
    (x : shape) : res shape :=
  h ← Encoder_forward (Colorize.encoder self) x;
  x_tilde ← Decoder_forward (Colorize.decoder self) h;
  Ok x_tilde.

(** *** Parameter counts

    The number of scalars in the parameter tensors a module registers:
    a linear layer owns a weight (out, in) and, with bias, a vector
    (out); a layer norm a weight and a bias (dim); a convolution a
    kernel (out, in, k, k) and a bias (out), a transposed one a kernel
    (in, out, k, k) and a bias (out). *)
Definition Linear_params (l : Linear) : Z :=
  out_features l * in_features l + (if has_bias l then out_features l else 0).

Definition LayerNorm_params (l : LayerNorm) : Z := 2 * normalized_shape l.

Definition Conv2d_params (c : Conv2d) : Z :=
  c_out c * c_in c * c_kernel c * c_kernel c + c_out c.

Definition Attention_params (a : Attention) : Z :=
  Linear_params (qkv a) + Linear_params (proj a).

Definition Mlp_params (m : Mlp) : Z :=
  Linear_params (fc1 m) + Linear_params (fc2 m).

Definition Block_params (b : Block) : Z :=
  LayerNorm_params (norm1 b) + Attention_params (attn b)
  + LayerNorm_params (norm2 b) + Mlp_params (mlp b).

Definition Transformer_params (t : Transformer) : Z :=
  fold_right Z.add 0 (map Block_params (blocks t)).

Definition LitTransformer_params (m : TransformerDemo.LitTransformer) : Z :=
  Transformer_params (TransformerDemo.encoder m)
  + Linear_params (TransformerDemo.embed m)
  + Linear_params (TransformerDemo.fc m).

Definition Encoder_params (e : Encoder) : Z :=
  Conv2d_params (e_conv1 e) + Conv2d_params (e_conv2 e)
  + Conv2d_params (e_conv3 e) + Linear_params (e_fc1 e).

Definition Decoder_params (d : Decoder) : Z :=
  Linear_params (d_fc1 d) + Conv2d_params (d_conv1 d) + Conv2d_params (d_conv2 d)
  + Conv2d_params (d_conv3 d) + Conv2d_params (d_conv4 d).

Definition LitColorize_params (m : Colorize.LitColorizeCIFAR10Model) : Z :=
  Encoder_params (Colorize.encoder m) + Decoder_params (Colorize.decoder m).

(** *** The main cell of the transformer notebook *)

(** The namespace [get_args()] returns; it parses the empty string, so
    every field has its default. *)
Record Args := mkArgs {
  a_depth : Z; a_embed_dim : Z; a_num_heads : Z; a_patch_num : Z;
  a_kernel_size : Z; a_batch_size : Z; a_max_epochs : Z; a_lr : Q;
  a_accelerator : string; a_devices : Z; a_dataset : string;
  a_num_workers : Z }.

Definition get_args : Args :=
  mkArgs 12 64 4 8 3 64 30 (1 # 1000) "gpu" 1 "cifar10" 4.

Record LitCifar10 := mkLitCifar10 {
  dm_batch_size : Z; dm_patch_num : Z; dm_num_workers : Z }.

(** [Trainer(accelerator, devices, max_epochs, precision)] *)
Record Trainer := mkTrainer {
  tr_accelerator : string; tr_devices : Z; tr_max_epochs : Z; tr_precision : Z }.

(** The keywords of the call [LitTransformer(num_classes=10, lr=args.lr,
    epochs=args.max_epochs, depth=args.depth, embed_dim=args.embed_dim,
    head=args.num_heads, patch_dim=patch_dim, seqlen=seqlen)]. *)
Definition main_kwargs (args : Args) (patch_dim seqlen : Z) : kwargs :=
  {[ "num_classes" := HInt 10; "lr" := HFloat (a_lr args);
     "epochs" := HInt (a_max_epochs args);
     "depth" := HInt (a_depth args);
     "embed_dim" := HInt (a_embed_dim args);
     "head" := HInt (a_num_heads args);
     "patch_dim" := HInt patch_dim; "seqlen" := HInt seqlen ]}.

(** The main cell up to [trainer.fit]: the data module, the model sized
    from the first training batch [data[0]], given by its shape, and the
    trainer. *)
Definition main (args : Args) (data0 : shape)
  : res (LitCifar10 * TransformerDemo.LitTransformer * Trainer) :=
  let datamodule :=
    mkLitCifar10 (a_batch_size args) (a_patch_num args)
                 (a_num_workers args * a_devices args) in
  match rev data0 with
  | patch_dim :: seqlen :: _ =>
      model ← TransformerDemo.LitTransformer_init (main_kwargs args patch_dim seqlen);
      let trainer :=
        mkTrainer (a_accelerator args) (a_devices args) (a_max_epochs args)
                  (if String.eqb (a_accelerator args) "gpu" then 16 else 32) in
      Ok (datamodule, model, trainer)
  | _ => Raise IndexError
  end.

(** *** The main cells of the MLP classifier *)

Module MlpMain.

Record Args := mkArgs {
  a_max_epochs : Z; a_batch_size : Z; a_lr : Q; a_num_classes : Z;
  a_devices : Z; a_accelerator : string; a_num_workers : Z; a_model : string }.

Definition get_args : Args := mkArgs 30 64 (1 # 1000) 10 1 "gpu" 4 "SimpleMLP".

(** The model of the first cell and the trainer of the second; the
    trainer takes the framework's default precision, 32. *)
Definition main (args : Args) : res (MlpDemo.LitCIFAR10Model * Trainer) :=
  model ← MlpDemo.LitCIFAR10Model_init
    {[ "num_classes" := HInt (a_num_classes args); "lr" := HFloat (a_lr args);
       "batch_size" := HInt (a_batch_size args);
       "num_workers" := HInt (a_num_workers args);
       "model" := HObj (a_model args) ]};
  let trainer :=
    mkTrainer (a_accelerator args) (a_devices args) (a_max_epochs args) 32 in
  Ok (model, trainer).

End MlpMain.

(** *** The main cells of the colorization autoencoder *)

Module ColorizeMain.

Record Args := mkArgs {
  a_max_epochs : Z; a_batch_size : Z; a_lr : Q; a_feature_dim : Z;
  a_devices : Z; a_accelerator : string; a_num_workers : Z }.

Definition get_args : Args := mkArgs 30 64 (1 # 1000) 256 1 "gpu" 4.

Definition main (args : Args)
  : res (Colorize.LitColorizeCIFAR10Model * Trainer) :=
  ae ← Colorize.LitColorizeCIFAR10Model_init
    {[ "feature_dim" := HInt (a_feature_dim args); "lr" := HFloat (a_lr args);
       "batch_size" := HInt (a_batch_size args);
       "num_workers" := HInt (a_num_workers args);
       "max_epochs" := HInt (a_max_epochs args) ]};
  let trainer :=
    mkTrainer (a_accelerator args) (a_devices args) (a_max_epochs args) 32 in
  Ok (ae, trainer).

End ColorizeMain.

End Models.
(** ** The epoch-end hooks, on scalar metrics *)

Module Metrics.

Local Open Scope Q_scope.

(** The scalar entries of what a step hook returned, by key; 0-dim
    tensors are given by their value. *)
Abbreviation outputs := (gmap string Q).

(** What [self.log(name, value, ...)] has recorded, oldest first. *)
Definition log_state := list (string * Q).

Definition log (name : string) (value : Q) (st : log_state) : log_state :=
  st ++ [(name, value)].

Definition sum (xs : list Q) : Q := fold_right Qplus 0 xs.

(** [torch.stack(xs).mean()] on 0-dim tensors; an empty list cannot be
    stacked. *)
Definition stack_mean (xs : list Q) : res Q :=
  match xs with
  | [] => Raise TorchError
  | _ => Ok (sum xs / inject_Z (Z.of_nat (length xs)))
  end.

(** [[x[key] for x in outputs]] *)
Definition column (key : string) (outs : list outputs) : res (list Q) :=
  traverse (fun x => py_dict_get x key) outs.

(** torchmetrics' [accuracy(y_hat, y)] on class predictions
    [argmax(y_hat)]: the fraction of the samples whose prediction is
    the label. *)
Definition correct (preds labels : list Z) : Z :=
  Z.of_nat (length (filter (fun pl => Z.eqb (fst pl) (snd pl)) (combine preds labels))).

Definition accuracy (preds labels : list Z) : Q :=
  inject_Z (correct preds labels) / inject_Z (Z.of_nat (length labels)).

(** [LitTransformer.test_step], its scalar outputs: [loss] is the value
    of the criterion on the batch. *)
Definition LitTransformer_test_step (loss : Q) (preds labels : list Z) : outputs :=
  {[ "test_loss" := loss; "test_acc" := accuracy preds labels ]}.

Definition LitTransformer_test_epoch_end (outs : list outputs) (st : log_state)
  : res log_state :=
  losses ← column "test_loss" outs;
  avg_loss ← stack_mean losses;
  accs ← column "test_acc" outs;
  avg_acc ← stack_mean accs;
  let st := log "test_loss" avg_loss st in
  let st := log "test_acc" (avg_acc * 100) st in
  Ok st.

(** [LitCIFAR10Model.training_step], [test_step] and the epoch-end
    hooks. *)
Definition LitCIFAR10Model_training_step (loss : Q) : outputs :=
  {[ "loss" := loss ]}.

Definition LitCIFAR10Model_training_epoch_end (outs : list outputs) (st : log_state)
  : res log_state :=
  losses ← column "loss" outs;
  avg_loss ← stack_mean losses;
  Ok (log "train_loss" avg_loss st).

Definition LitCIFAR10Model_test_step (loss : Q) (preds labels : list Z) : outputs :=
  {[ "test_loss" := loss; "test_acc" := accuracy preds labels * 100 ]}.

Definition LitCIFAR10Model_test_epoch_end (outs : list outputs) (st : log_state)
  : res log_state :=
  losses ← column "test_loss" outs;
  avg_loss ← stack_mean losses;
  accs ← column "test_acc" outs;
  avg_acc ← stack_mean accs;
  let st := log "test_loss" avg_loss st in
  let st := log "test_acc" avg_acc st in
  Ok st.

(** [LitColorizeCIFAR10Model.training_step], [test_step] and the
    epoch-end hooks. *)
Definition LitColorize_training_step (loss : Q) : outputs :=
  {[ "loss" := loss ]}.

Definition LitColorize_training_epoch_end (outs : list outputs) (st : log_state)
  : res log_state :=
  losses ← column "loss" outs;
  avg_loss ← stack_mean losses;
  Ok (log "train_loss" avg_loss st).

Definition LitColorize_test_step (loss : Q) : outputs :=
  {[ "test_loss" := loss ]}.

Definition LitColorize_test_epoch_end (outs : list outputs) (st : log_state)
  : res log_state :=
  losses ← column "test_loss" outs;
  avg_loss ← stack_mean losses;
  Ok (log "test_loss" avg_loss st).

End Metrics.
(** ** float32 arithmetic

    The notebooks run in the framework's default dtype, float32.  Sums,
    products, quotients and square roots are those of IEEE 754 binary32
    with rounding to nearest even, as the standard library specifies
    them ([SpecFloat], precision 24, exponent bound 128).  [exp] and
    [erf] are library routines, accurate to about one unit in the last
    place; they are modelled by the float32 nearest to the exact value,
    computed from a series in 200-bit fixed-point arithmetic. *)

Module Float32.
Import SpecFloat.

Definition prec : Z := 24.
Definition emax : Z := 128.

Definition add : spec_float -> spec_float -> spec_float := SFadd prec emax.
Definition mul : spec_float -> spec_float -> spec_float := SFmul prec emax.
Definition div : spec_float -> spec_float -> spec_float := SFdiv prec emax.
Definition sqrt : spec_float -> spec_float := SFsqrt prec emax.
Definition neg : spec_float -> spec_float := SFopp.

(** The float32 nearest to [m * 2^e]. *)
Definition round (m e : Z) : spec_float := binary_normalize prec emax m e false.

Definition of_Z (z : Z) : spec_float := round z 0.
Definition zero : spec_float := S754_zero false.
Definition one : spec_float := of_Z 1.
Definition half : spec_float := round 1 (-1).

(** [n / d] for two integers, rounded once. *)
Definition ratio (n d : Z) : spec_float := div (of_Z n) (of_Z d).

Definition is_zero (x : spec_float) : bool :=
  match x with S754_zero _ => true | _ => false end.

(** Neither infinite nor NaN. *)
Definition is_finite (x : spec_float) : bool :=
  match x with S754_zero _ | S754_finite _ _ _ => true | _ => false end.

(** *** Fixed-point series *)

(** A number [v] is held as the integer [floor (v * 2^200)]. *)
Definition P : Z := 200.

(** ln 2 and 2 / sqrt(pi) *)
Definition LN2 : Z :=
  1113844574712631719546256151097547306333272293549090750737802.
Definition TWO_OVER_SQRT_PI : Z :=
  1813235411955051368075975534027907639852476658415964181376627.

(** The magnitude of a finite float in fixed point; exact, since
    no float32 has an exponent below -149. *)
Definition fixed_abs (m : positive) (e : Z) : Z :=
  if 0 <=? e + P then Z.pos m * 2 ^ (e + P) else Z.pos m / 2 ^ (- (e + P)).

(** [acc + term * r / n + term * r^2 / (n (n+1)) + ...] *)
Fixpoint exp_series (fuel : nat) (n term r acc : Z) : Z :=
  match fuel with
  | O => acc
  | Datatypes.S fuel' =>
      let term' := term * r / (n * 2 ^ P) in
      exp_series fuel' (n + 1) term' r (acc + term')
  end.

(** exp r for 0 <= r < ln 2 *)
Definition exp_fixed (r : Z) : Z := exp_series 70 1 (2 ^ P) r (2 ^ P).

(** [expf]: beyond magnitude 256 the result is out of range on either
    side; otherwise x = k ln 2 + r and exp x = 2^k exp r. *)
Definition exp (x : spec_float) : spec_float :=
  match x with
  | S754_nan => S754_nan
  | S754_infinity s => if s then zero else S754_infinity false
  | S754_zero _ => one
  | S754_finite s m e =>
      let a := fixed_abs m e in
      if 256 * 2 ^ P <=? a then (if s then zero else S754_infinity false)
      else
        let v := if s then - a else a in
        let k := v / LN2 in
        let r := v mod LN2 in
        round (2 * exp_fixed r + 1) (k - P - 1)
  end.

(** [sign * term / (2 n + 1)] summed over the terms
    z, z^3 / 1!, z^5 / 2!, ..., with alternating signs *)
Fixpoint erf_series (fuel : nat) (n term z2 acc : Z) (plus : bool) : Z :=
  match fuel with
  | O => acc
  | Datatypes.S fuel' =>
      let term' := term * z2 / (n * 2 ^ P) in
      let q := term' / (2 * n + 1) in
      erf_series fuel' (n + 1) term' z2 (if plus then acc + q else acc - q)
                 (negb plus)
  end.

(** erf z for 0 < z < 4 *)
Definition erf_fixed (z : Z) : Z :=
  let z2 := z * z / 2 ^ P in
  TWO_OVER_SQRT_PI * erf_series 160 1 z z2 z false / 2 ^ P.

(** [erff]: from magnitude 4 on, 1 - erf z is below half the spacing
    of the floats under 1 and the result is 1 or -1. *)
Definition erf (x : spec_float) : spec_float :=
  match x with
  | S754_nan => S754_nan
  | S754_infinity s => if s then neg one else one
  | S754_zero _ => x
  | S754_finite s m e =>
      let a := fixed_abs m e in
      let y := if 4 * 2 ^ P <=? a then one
               else round (2 * erf_fixed a + 1) (- P - 1) in
      if s then neg y else y
  end.

(** *** The activations *)

(** [nn.ReLU]: the larger of 0 and x; a NaN stays. *)
Definition relu (x : spec_float) : spec_float :=
  if SFltb x zero then zero else x.

(** [nn.Sigmoid]: 1 / (1 + exp (0 - x)) *)
Definition sigmoid (x : spec_float) : spec_float :=
  div one (add one (exp (SFsub prec emax zero x))).

(** float32 of 1 / sqrt 2 *)
Definition SQRT1_2 : spec_float := S754_finite false 11863283 (-24).

(** [nn.GELU]: x * 0.5 * (1 + erf (x / sqrt 2)) *)
Definition gelu (x : spec_float) : spec_float :=
  mul (mul x half) (add one (erf (mul x SQRT1_2))).

(** [b ** -0.5] is computed by Python on its own floats, binary64
    (taken here as 1 / sqrt b, each step rounded to binary64), and cast
    to float32 when a tensor is multiplied by it. *)
Definition pow_neg_half (b : Z) : spec_float :=
  let b64 := binary_normalize 53 1024 b 0 false in
  let one64 := binary_normalize 53 1024 1 0 false in
  match SFdiv 53 1024 one64 (SFsqrt 53 1024 b64) with
  | S754_finite s m e => round (if s then Z.neg m else Z.pos m) e
  | y => y
  end.

End Float32.

(** float32 as the scalars of the value semantics. *)
#[global] Instance F32_Scalar : Scalar SpecFloat.spec_float := {|
  szero := Float32.zero;
  sadd := Float32.add;
  smul := Float32.mul;
  sdiv := Float32.div;
  sexp := Float32.exp;
  sofZ := Float32.of_Z;
  spow_neg_half := Float32.pow_neg_half |}.

(** ** Inputs in float32 *)

Module Float32Examples.
Import Value.

(** The default decoder with every weight and bias 0, except the bias
    of the last layer: 17 for the first output channel, -104 for the
    second, 0 for the third. *)
Definition conv4_bias : tensor SpecFloat.spec_float :=
  mkTensor [3] (fun idx =>
    match idx with
    | [0] => Float32.of_Z 17
    | [1] => Float32.of_Z (-104)
    | _ => Float32.zero
    end).

Definition Decoder_saturated : Decoder SpecFloat.spec_float :=
  let d := Shape.Decoder_default in
  let z := Float32.zero in
  mkDecoder (Shape.init_size d)
    (mkLinear (Shape.d_fc1 d) (full [16384; 256] z) (full [16384] z))
    (mkConvT (Shape.d_conv1 d) (full [256; 128; 3; 3] z) (full [128] z))
    (mkConvT (Shape.d_conv2 d) (full [128; 64; 3; 3] z) (full [64] z))
    (mkConvT (Shape.d_conv3 d) (full [64; 64; 3; 3] z) (full [64] z))
    (mkConvT (Shape.d_conv4 d) (full [64; 3; 4; 4] z) conv4_bias).

(** A latent batch of shape (1, 256): the entry at position k is
    (k mod 7 - 3) / 4. *)
Definition latent : tensor SpecFloat.spec_float :=
  mkTensor [1; 256] (fun idx =>
    match idx with
    | [_; k] => Float32.ratio (k mod 7 - 3) 4
    | _ => Float32.zero
    end).

(** A batch of 64 images of shape (3, 32, 32) with pixel values
    n / 255. *)
Definition pixels : tensor SpecFloat.spec_float :=
  from_flat [64; 3; 32; 32] (fun k => Float32.ratio ((k * 89 + 41) mod 251) 255).

(** A TensorMLP of the default sizes (3072 features, 512 hidden units,
    10 classes) whose hidden units all hold the same weights. *)
Definition mlp_f32 : TensorMLP SpecFloat.spec_float :=
  mkTensorMLP
    (mkTensor [512; 3072] (fun idx =>
       match idx with
       | [_; k] => Float32.ratio ((k * 31 + 17) mod 257 - 128) 8192
       | _ => Float32.zero
       end))
    (full [512] (Float32.of_Z 100))
    (mkTensor [512; 512] (fun idx =>
       match idx with
       | [_; k] => Float32.ratio ((k * 13 + 5) mod 129) 16384
       | _ => Float32.zero
       end))
    (full [512] (Float32.ratio 1 8))
    (from_flat [10; 512] (fun k => Float32.ratio ((k * 7 + 3) mod 65 - 20) 4096))
    (from_flat [10] (fun k => Float32.ratio k 16)).

End Float32Examples.
(** * Facts about the shape semantics *)

Module ShapeFacts.
Import Shape.

Example Attention_init_64_4 :
  Attention_init 64 4 false
  = Ok (mkAttention 4 (PowNegHalf 16) (mkLinear 64 192 false) (mkLinear 64 64 true)).
Proof. reflexivity. Qed.

Example Attention_forward_64_4 :
  (a ← Attention_init 64 4 false; Attention_forward a [2; 16; 64]) = Ok [2; 16; 64].
Proof. vm_compute. reflexivity. Qed.

Example Transformer_forward_64_4 :
  (t ← Transformer_init 64 4 12 (4 # 1) false; Transformer_forward t [2; 16; 64])
  = Ok [2; 16; 64].
Proof. vm_compute. reflexivity. Qed.

Example Encoder_forward_batch5 :
  (e ← Encoder_init 1 3 64 256; Encoder_forward e [5; 1; 32; 32]) = Ok [5; 256].
Proof. vm_compute. reflexivity. Qed.

Example Decoder_forward_batch5 :
  (d ← Decoder_init 3 256 256 32 3; Decoder_forward d [5; 256]) = Ok [5; 3; 32; 32].
Proof. vm_compute. reflexivity. Qed.


(** *** Constructors *)

Lemma nn_Linear_Ok i o b :
  0 <= i -> 0 <= o -> nn_Linear i o b = Ok (mkLinear i o b).
Proof.
  intros Hi Ho. unfold nn_Linear.
  destruct (Z.leb_spec 0 i), (Z.leb_spec 0 o); simpl; try lia; reflexivity.
Qed.


Lemma nn_Linear_inv i o b l :
  nn_Linear i o b = Ok l -> l = mkLinear i o b /\ 0 <= i /\ 0 <= o.
Proof.
  unfold nn_Linear.
  destruct (Z.leb_spec 0 i), (Z.leb_spec 0 o); simpl; intros E;
    inversion E; subst; repeat split; lia.
Qed.


Lemma nn_LayerNorm_inv d l : nn_LayerNorm d = Ok l -> l = mkLayerNorm d /\ 0 <= d.
Proof.
  unfold nn_LayerNorm. destruct (Z.leb_spec 0 d); intros E; inversion E; auto.
Qed.


Lemma Attention_init_inv dim nh b a :
  Attention_init dim nh b = Ok a ->
  nh <> 0 /\ dim mod nh = 0 /\ dim / nh <> 0 /\ 0 <= dim /\
  a = mkAttention nh (PowNegHalf (dim / nh))
        (mkLinear dim (dim * 3) b) (mkLinear dim dim true).
Proof.
  unfold Attention_init, py_pow_neg_half.
  destruct (Z.eqb_spec nh 0) as [|Hnh]; [discriminate|].
  destruct (Z.eqb_spec (dim mod nh) 0) as [Hm|]; [|discriminate]. simpl.
  destruct (Z.eqb_spec (dim / nh) 0) as [|Hd]; [discriminate|]. simpl.
  destruct (nn_Linear dim (dim * 3) b) as [l1|] eqn:E1; [|discriminate]. simpl.
  destruct (nn_Linear dim dim true) as [l2|] eqn:E2; [|discriminate]. simpl.
  apply nn_Linear_inv in E1 as (-> & ? & ?).
  apply nn_Linear_inv in E2 as (-> & ? & ?).
  intros E; inversion E; subst. repeat split; auto.
Qed.

Lemma Attention_init_Ok dim nh b :
  0 < dim -> 0 < nh -> dim mod nh = 0 ->
  Attention_init dim nh b
  = Ok (mkAttention nh (PowNegHalf (dim / nh))
          (mkLinear dim (dim * 3) b) (mkLinear dim dim true)).
Proof.
  intros Hd Hn Hm. unfold Attention_init, py_pow_neg_half.
  destruct (Z.eqb_spec nh 0); [lia|]. rewrite Hm. simpl.
  assert (dim / nh <> 0).
  { intros E. pose proof (Z.div_mod dim nh ltac:(lia)). nia. }
  destruct (Z.eqb_spec (dim / nh) 0); [contradiction|]. simpl.
  rewrite !nn_Linear_Ok by lia. reflexivity.
Qed.

(** *** Forward passes *)

Lemma reshape_Ok s tgt : nonneg tgt = true -> numel tgt = numel s -> reshape s tgt = Ok tgt.
Proof. intros H1 H2. unfold reshape. rewrite H1, H2, Z.eqb_refl. reflexivity. Qed.

Lemma broadcast_rev_refl a : broadcast_rev a a = Ok a.
Proof.
  induction a as [|x a IH]; [reflexivity|].
  cbn [broadcast_rev]. rewrite IH. cbn [mbind res_bind]. rewrite Z.eqb_refl. reflexivity.
Qed.

Lemma broadcast_refl a : broadcast a a = Ok a.
Proof. unfold broadcast. rewrite broadcast_rev_refl. cbn. rewrite rev_involutive. reflexivity. Qed.

Lemma matmul_batched B H n m p : matmul [B; H; n; m] [B; H; m; p] = Ok [B; H; n; p].
Proof.
  unfold matmul. cbn [rev app]. rewrite Z.eqb_refl, broadcast_rev_refl. reflexivity.
Qed.

Lemma Attention_forward_shape dim nh b a B N :
  Attention_init dim nh b = Ok a -> 0 < nh -> 0 <= B -> 0 <= N ->
  Attention_forward a [B; N; dim] = Ok [B; N; dim].
Proof.
  intros Hi Hnh HB HN.
  apply Attention_init_inv in Hi as (_ & Hm & Hd & Hdim & ->).
  assert (HD : nh * (dim / nh) = dim).
  { pose proof (Z.div_mod dim nh ltac:(lia)). lia. }
  assert (0 <= dim / nh) by (apply Z.div_pos; lia).
  unfold Attention_forward. cbn [qkv proj num_heads Linear_forward rev app in_features out_features].
  rewrite Z.eqb_refl. cbn [mbind res_bind rev app].
  destruct (Z.eqb_spec nh 0); [lia|].
  rewrite reshape_Ok.
  2:{ unfold nonneg; cbn [forallb]. repeat (rewrite (proj2 (Z.leb_le 0 _)) by lia). reflexivity. }
  2:{ unfold numel; cbn [fold_right]. rewrite <- HD at 2. ring. }
  cbn [mbind res_bind].
  change (permute [B; N; 3; nh; dim / nh] [2; 0; 3; 1; 4])
    with (Ok (A:=shape) [3; B; nh; N; dim / nh]).
  cbn [mbind res_bind unbind0_3 Z.eqb Pos.eqb].
  change (transpose [B; nh; N; dim / nh] (-2) (-1))
    with (Ok (A:=shape) [B; nh; dim / nh; N]).
  cbn [mbind res_bind]. rewrite matmul_batched. cbn [mbind res_bind].
  change (softmax [B; nh; N; N] (-1)) with (Ok (A:=shape) [B; nh; N; N]).
  cbn [mbind res_bind]. rewrite matmul_batched. cbn [mbind res_bind].
  change (transpose [B; nh; N; dim / nh] 1 2)
    with (Ok (A:=shape) [B; N; nh; dim / nh]).
  cbn [mbind res_bind].
  rewrite reshape_Ok.
  2:{ unfold nonneg; cbn [forallb]. repeat (rewrite (proj2 (Z.leb_le 0 _)) by lia). reflexivity. }
  2:{ unfold numel; cbn [fold_right]. rewrite <- HD at 1. ring. }
  cbn [mbind res_bind Linear_forward rev app in_features out_features].
  rewrite Z.eqb_refl. reflexivity.
Qed.


Lemma Linear_forward_3 l B N C :
  C = in_features l -> Linear_forward l [B; N; C] = Ok [B; N; out_features l].
Proof.
  intros ->. unfold Linear_forward. cbn [rev app]. rewrite Z.eqb_refl. reflexivity.
Qed.

Lemma Mlp_forward_shape i h o m B N :
  Mlp_init i h o = Ok m ->
  Mlp_forward m [B; N; i] = Ok [B; N; py_or o i].
Proof.
  unfold Mlp_init.
  destruct (nn_Linear i (py_or h i) true) as [l1|] eqn:E1; [|discriminate].
  destruct (nn_Linear (py_or h i) (py_or o i) true) as [l2|] eqn:E2; [|discriminate].
  cbn [mbind res_bind]. intros E; inversion E; subst m; clear E.
  apply nn_Linear_inv in E1 as (-> & _ & _).
  apply nn_Linear_inv in E2 as (-> & _ & _).
  unfold Mlp_forward, activation. cbn [fc1 fc2].
  rewrite Linear_forward_3 by reflexivity. cbn [mbind res_bind out_features].
  rewrite Linear_forward_3 by reflexivity. reflexivity.
Qed.

Lemma LayerNorm_forward_3 l B N C :
  C = normalized_shape l -> LayerNorm_forward l [B; N; C] = Ok [B; N; C].
Proof.
  intros ->. unfold LayerNorm_forward. cbn [rev app]. rewrite Z.eqb_refl. reflexivity.
Qed.

Lemma Block_init_inv dim nh r b blk :
  Block_init dim nh r b = Ok blk ->
  exists a m,
    Attention_init dim nh b = Ok a /\
    Mlp_init dim (Some (py_int (inject_Z dim * r))) None = Ok m /\
    blk = mkBlock (mkLayerNorm dim) a (mkLayerNorm dim) m.
Proof.
  unfold Block_init.
  destruct (nn_LayerNorm dim) as [n1|] eqn:E1; [|discriminate]. cbn [mbind res_bind].
  destruct (Attention_init dim nh b) as [a|] eqn:E2; [|discriminate]. cbn [mbind res_bind].
  destruct (Mlp_init _ _ _) as [m|] eqn:E4; [|discriminate]. cbn [mbind res_bind].
  apply nn_LayerNorm_inv in E1 as (-> & _).
  intros E; inversion E; subst. eauto.
Qed.

Lemma Block_forward_shape dim nh r b blk B N :
  Block_init dim nh r b = Ok blk -> 0 < nh -> 0 <= B -> 0 <= N ->
  Block_forward blk [B; N; dim] = Ok [B; N; dim].
Proof.
  intros Hi Hnh HB HN.
  apply Block_init_inv in Hi as (a & m & Ha & Hm & ->).
  unfold Block_forward. cbn [norm1 norm2 attn mlp].
  rewrite LayerNorm_forward_3 by reflexivity. cbn [mbind res_bind].
  rewrite (Attention_forward_shape _ _ _ _ _ _ Ha) by assumption. cbn [mbind res_bind].
  rewrite broadcast_refl. cbn [mbind res_bind].
  rewrite LayerNorm_forward_3 by reflexivity. cbn [mbind res_bind].
  rewrite (Mlp_forward_shape _ _ _ _ _ _ Hm). cbn [mbind res_bind py_or].
  apply broadcast_refl.
Qed.

Lemma replicateM_Forall {A} n (m : res A) l :
  replicateM n m = Ok l -> Forall (fun a => m = Ok a) l /\ length l = n.
Proof.
  revert l. induction n as [|n IH]; intros l; cbn [replicateM].
  - intros E; inversion E; subst. split; [constructor | reflexivity].
  - destruct m as [a|] eqn:Em; [|discriminate]. cbn [mbind res_bind].
    destruct (replicateM n (Ok a)) as [l'|] eqn:El; [|discriminate].
    cbn [mbind res_bind]. intros E; inversion E; subst.
    destruct (IH l' eq_refl) as [HF HL]. split; [constructor; auto | simpl; congruence].
Qed.

Lemma run_blocks_shape dim nh r b bs B N :
  Forall (fun blk => Block_init dim nh r b = Ok blk) bs ->
  0 < nh -> 0 <= B -> 0 <= N ->
  run_blocks bs [B; N; dim] = Ok [B; N; dim].
Proof.
  intros HF Hnh HB HN. induction HF as [|blk bs Hblk _ IH]; [reflexivity|].
  cbn [run_blocks]. rewrite (Block_forward_shape _ _ _ _ _ _ _ Hblk) by assumption.
  exact IH.
Qed.

Lemma Transformer_forward_shape dim nh nb r b t B N :
  Transformer_init dim nh nb r b = Ok t -> 0 < nh -> 0 <= B -> 0 <= N ->
  Transformer_forward t [B; N; dim] = Ok [B; N; dim].
Proof.
  unfold Transformer_init. intros Hi Hnh HB HN.
  destruct (replicateM _ _) as [bs|] eqn:E; [|discriminate].
  cbn [mbind res_bind] in Hi. inversion Hi; subst t.
  apply replicateM_Forall in E as [HF _].
  unfold Transformer_forward. cbn [blocks]. eapply run_blocks_shape; eauto.
Qed.

Lemma replicateM_Ok {A} n (a : A) : replicateM n (Ok a) = Ok (replicate n a).
Proof.
  induction n as [|n IH]; [reflexivity|].
  cbn [replicateM mbind res_bind]. rewrite IH. reflexivity.
Qed.

Lemma py_int_nonneg d (r : Q) : 0 <= d -> (0 <= r)%Q -> 0 <= py_int (inject_Z d * r).
Proof.
  intros Hd Hr. destruct r as [p q]. unfold py_int, Qle in *.
  cbn [Qnum Qden inject_Z Qmult] in *.
  apply Z.quot_pos; [apply Z.mul_nonneg_nonneg; lia | apply Pos2Z.is_pos].
Qed.

Lemma Mlp_init_Ok i h :
  0 <= i -> 0 <= h ->
  exists m, Mlp_init i (Some h) None = Ok m.
Proof.
  intros Hi Hh. unfold Mlp_init.
  assert (0 <= py_or (Some h) i) by (cbn; destruct (Z.eqb_spec h 0); lia).
  set (hidden := py_or (Some h) i) in *. cbn [py_or].
  rewrite !nn_Linear_Ok by lia. cbn [mbind res_bind]. eauto.
Qed.

Lemma Block_init_Ok dim nh r b :
  0 < dim -> 0 < nh -> dim mod nh = 0 -> (0 <= r)%Q ->
  exists blk, Block_init dim nh r b = Ok blk.
Proof.
  intros Hd Hn Hm Hr. unfold Block_init, nn_LayerNorm.
  destruct (Z.leb_spec 0 dim); [|lia]. cbn [mbind res_bind].
  rewrite Attention_init_Ok by assumption. cbn [mbind res_bind].
  destruct (Mlp_init_Ok dim (py_int (inject_Z dim * r))) as [m ->];
    [lia | apply py_int_nonneg; [lia | assumption] |].
  cbn [mbind res_bind]. eauto.
Qed.

(** C9. Shape preservation through the transformer encoder: for a
    configured [dim] divisible by a positive [num_heads], the modules
    can be built, and on an input of shape (B, N, dim) the forward
    passes of Attention, of Block and of a Transformer of any number of
    blocks return shape (B, N, dim); in particular the two residual
    additions inside Block are between equal shapes and do not raise. *)
Theorem transformer_shape_invariant
    (dim nh nb : Z) (mlp_ratio : Q) (qkv_bias : bool) (B N : Z) :
  0 < dim -> 0 < nh -> dim mod nh = 0 -> (0 <= mlp_ratio)%Q ->
  0 <= B -> 0 <= N ->
  exists a blk t,
    Attention_init dim nh qkv_bias = Ok a /\
    Block_init dim nh mlp_ratio qkv_bias = Ok blk /\
    Transformer_init dim nh nb mlp_ratio qkv_bias = Ok t /\
    length (blocks t) = Z.to_nat nb /\
    Attention_forward a [B; N; dim] = Ok [B; N; dim] /\
    Block_forward blk [B; N; dim] = Ok [B; N; dim] /\
    Transformer_forward t [B; N; dim] = Ok [B; N; dim].
Proof.
  intros Hd Hn Hm Hr HB HN.
  pose proof (Attention_init_Ok dim nh qkv_bias Hd Hn Hm) as Ha.
  destruct (Block_init_Ok dim nh mlp_ratio qkv_bias Hd Hn Hm Hr) as [blk Hblk].
  assert (Ht : Transformer_init dim nh nb mlp_ratio qkv_bias
               = Ok (mkTransformer (replicate (Z.to_nat nb) blk))).
  { unfold Transformer_init. rewrite Hblk, replicateM_Ok. reflexivity. }
  eexists _, blk, _. split; [exact Ha|]. split; [exact Hblk|]. split; [exact Ht|].
  split; [apply length_replicate|].
  split; [eapply Attention_forward_shape; eauto|].
  split; [eapply Block_forward_shape; eauto|].
  eapply Transformer_forward_shape; eauto.
Qed.

Lemma transformer_shape_invariant_witness :
  exists a blk t,
    Attention_init 64 4 false = Ok a /\
    Block_init 64 4 (4 # 1) false = Ok blk /\
    Transformer_init 64 4 12 (4 # 1) false = Ok t /\
    length (blocks t) = Z.to_nat 12 /\
    Attention_forward a [64; 16; 64] = Ok [64; 16; 64] /\
    Block_forward blk [64; 16; 64] = Ok [64; 16; 64] /\
    Transformer_forward t [64; 16; 64] = Ok [64; 16; 64].
Proof.
  apply (transformer_shape_invariant 64 4 12 (4 # 1) false 64 16);
    try lia; try reflexivity. unfold Qle; simpl; lia.
Defined.


(** *** Errors of the notebooks' own *)






















(** *** Encoder and Decoder *)

(** The feature maps of the default encoder: 32 -> 15 -> 7 -> 3, and
    256 * 3 * 3 = 2304 is the input width of its linear layer. *)
Lemma Encoder_feature_maps B :
  Conv2d_forward (e_conv1 Encoder_default) [B; 1; 32; 32] = Ok [B; 64; 15; 15] /\
  Conv2d_forward (e_conv2 Encoder_default) [B; 64; 15; 15] = Ok [B; 128; 7; 7] /\
  Conv2d_forward (e_conv3 Encoder_default) [B; 128; 7; 7] = Ok [B; 256; 3; 3] /\
  rearrange_flatten [B; 256; 3; 3] = Ok [B; 2304].
Proof. repeat split. Qed.

(** The feature maps of the default decoder: 8 -> 15 -> 29 -> 29 -> 32. *)
Lemma Decoder_feature_maps B :
  rearrange_unflatten [B; 16384] B 8 8 = Ok [B; 256; 8; 8] /\
  ConvTranspose2d_forward (d_conv1 Decoder_default) [B; 256; 8; 8] = Ok [B; 128; 15; 15] /\
  ConvTranspose2d_forward (d_conv2 Decoder_default) [B; 128; 15; 15] = Ok [B; 64; 29; 29] /\
  ConvTranspose2d_forward (d_conv3 Decoder_default) [B; 64; 29; 29] = Ok [B; 64; 29; 29] /\
  ConvTranspose2d_forward (d_conv4 Decoder_default) [B; 64; 29; 29] = Ok [B; 3; 32; 32].
Proof.
  repeat split. unfold rearrange_unflatten. rewrite Z.eqb_refl. reflexivity.
Qed.

Lemma Decoder_forward_default B :
  Decoder_forward Decoder_default [B; 256] = Ok [B; 3; 32; 32].
Proof.
  unfold Decoder_forward.
  cbn [d_fc1 Decoder_default Linear_forward rev app in_features out_features
       Z.eqb Pos.eqb mbind res_bind init_size].
  destruct (Decoder_feature_maps B) as (-> & H1 & H2 & H3 & H4).
  cbn [mbind res_bind activation]. rewrite H1. cbn [mbind res_bind].
  rewrite H2. cbn [mbind res_bind]. rewrite H3. cbn [mbind res_bind].
  rewrite H4. reflexivity.
Qed.

(** C3. With the default constructor arguments the Encoder is three
    stride-2 convolutions (each followed by ReLU), a flattening and a
    linear layer, and maps a grayscale batch of shape (B, 1, 32, 32) to a
    latent batch of shape (B, 256); the Decoder is a linear layer and
    four transposed convolutions, and maps a latent batch of shape
    (B, 256) to an image batch of shape (B, 3, 32, 32); this for every
    batch size B. *)
Theorem Encoder_Decoder_shapes :
  Encoder_init 1 3 64 256 = Ok Encoder_default /\
  Decoder_init 3 256 256 32 3 = Ok Decoder_default /\
  c_stride (e_conv1 Encoder_default) = 2 /\
  c_stride (e_conv2 Encoder_default) = 2 /\
  c_stride (e_conv3 Encoder_default) = 2 /\
  forall B,
    Encoder_forward Encoder_default [B; 1; 32; 32] = Ok [B; 256] /\
    Decoder_forward Decoder_default [B; 256] = Ok [B; 3; 32; 32].
Proof.
  repeat split. apply Decoder_forward_default.
Qed.

End ShapeFacts.

(** * Facts about the value semantics *)

Module ValueFacts.
Import Value.

Section WithScalar.
Context {S : Type} {SC : Scalar S}.

Abbreviation tensor := (Value.tensor S).

(** *** Sums, indices *)

Lemma sum_range_ext n (f g : Z -> S) :
  (forall k, 0 <= k < n -> f k = g k) -> sum_range n f = sum_range n g.
Proof.
  intros Hfg. unfold sum_range. f_equal. apply map_ext_in.
  intros k Hk. apply in_seq in Hk. apply Hfg. lia.
Qed.

Lemma teq_refl (a : tensor) : teq a a.
Proof. split; auto. Qed.

Lemma teq_tmap f (a b : tensor) : teq a b -> teq (tmap f a) (tmap f b).
Proof.
  intros [Hs Hg]. split; [exact Hs|]. intros idx Hidx. cbn. f_equal. auto.
Qed.

Lemma in_range_2 d0 d1 idx :
  in_range [d0; d1] idx ->
  exists i j, idx = [i; j] /\ 0 <= i < d0 /\ 0 <= j < d1.
Proof.
  intros Hr. inversion Hr as [|? i ? l0 Hi Hr1]; subst.
  inversion Hr1 as [|? j ? l1 Hj Hr2]; subst. inversion Hr2; subst. eauto.
Qed.

Lemma in_range_3 d0 d1 d2 idx :
  in_range [d0; d1; d2] idx ->
  exists i j k, idx = [i; j; k] /\ 0 <= i < d0 /\ 0 <= j < d1 /\ 0 <= k < d2.
Proof.
  intros Hr. inversion Hr as [|? i ? l0 Hi Hr1]; subst.
  apply in_range_2 in Hr1 as (j & k & -> & ? & ?). eauto 10.
Qed.

Lemma in_range_4 d0 d1 d2 d3 idx :
  in_range [d0; d1; d2; d3] idx ->
  exists i j k l, idx = [i; j; k; l] /\
    0 <= i < d0 /\ 0 <= j < d1 /\ 0 <= k < d2 /\ 0 <= l < d3.
Proof.
  intros Hr. inversion Hr as [|? i ? l0 Hi Hr1]; subst.
  apply in_range_3 in Hr1 as (j & k & l & -> & ? & ? & ?). eauto 10.
Qed.

(** An operand that is not stretched is read where the result is. *)
Lemma bcast_idx_same s idx : in_range s idx -> bcast_idx s idx = idx.
Proof.
  intros Hr. unfold bcast_idx.
  rewrite (Forall2_length _ _ _ Hr), Nat.sub_diag. cbn [drop].
  induction Hr as [|d i s idx Hi _ IH]; [reflexivity|].
  cbn [zip_with]. f_equal; [|exact IH].
  destruct (Z.eqb_spec d 1); lia.
Qed.

(** *** Row-major positions *)

Lemma ravel_acc_shift acc s idx :
  length s = length idx ->
  ravel_acc acc s idx = acc * Shape.numel s + ravel_acc 0 s idx.
Proof.
  revert acc idx. induction s as [|d s IH]; intros acc [|i idx] Hl;
    try discriminate; cbn [ravel_acc Shape.numel fold_right].
  - lia.
  - injection Hl as Hl. rewrite (IH (acc * d + i)), (IH (0 * d + i)) by assumption.
    fold (Shape.numel s). ring.
Qed.

Lemma ravel_bound s idx :
  in_range s idx -> 0 <= ravel s idx < Shape.numel s.
Proof.
  unfold ravel. induction 1 as [|d i s idx Hi Hr IH];
    cbn [ravel_acc Shape.numel fold_right]; [lia|].
  rewrite ravel_acc_shift by (eapply Forall2_length; eassumption).
  fold (Shape.numel s). nia.
Qed.

Lemma unravel_ravel s idx : in_range s idx -> unravel s (ravel s idx) = idx.
Proof.
  unfold ravel. induction 1 as [|d i s idx Hi Hr IH]; [reflexivity|].
  cbn [ravel_acc unravel].
  rewrite ravel_acc_shift by (eapply Forall2_length; eassumption).
  pose proof (ravel_bound s idx Hr) as Hb. unfold ravel in Hb.
  replace (0 * d + i) with i by ring.
  assert (Hq : (i * Shape.numel s + ravel_acc 0 s idx) / Shape.numel s = i).
  { symmetry. apply (Z.div_unique_pos _ _ i (ravel_acc 0 s idx)); lia. }
  assert (Hm : (i * Shape.numel s + ravel_acc 0 s idx) mod Shape.numel s
               = ravel_acc 0 s idx).
  { symmetry. apply (Z.mod_unique_pos _ _ i); lia. }
  rewrite Hq, Hm, IH. reflexivity.
Qed.

(** *** The two MLPs *)

Lemma rearrange_flatten_Ok (x : tensor) B c h w :
  shape x = [B; c; h; w] ->
  exists y, rearrange_flatten x = Ok y /\ shape y = [B; c * h * w].
Proof.
  intros Hx. unfold rearrange_flatten. rewrite Hx. cbn [Shape.rearrange_flatten mbind res_bind].
  eexists. split; reflexivity.
Qed.

Lemma tensor_T_2 (w : tensor) o i :
  shape w = [o; i] ->
  exists wT, tensor_T w = Ok wT /\ shape wT = [i; o] /\
             forall k j, get wT [k; j] = get w [j; k].
Proof.
  intros Hw. unfold tensor_T, permute. rewrite Hw.
  eexists. split; [reflexivity|]. split; reflexivity.
Qed.

Lemma matmul_2d (a b : tensor) B n p :
  shape a = [B; n] -> shape b = [n; p] ->
  exists mm, matmul a b = Ok mm /\ shape mm = [B; p] /\
    forall i j, get mm [i; j]
                = sum_range n (fun k => smul (get a [i; k]) (get b [k; j])).
Proof.
  intros Ha Hb. unfold matmul. rewrite Ha, Hb.
  assert (Hmm : Shape.matmul [B; n] [n; p] = Ok [B; p]).
  { unfold Shape.matmul. cbn [rev app]. rewrite Z.eqb_refl. reflexivity. }
  rewrite Hmm. cbn [mbind res_bind]. eexists. split; [reflexivity|].
  split; reflexivity.
Qed.

Lemma tadd_row (a b : tensor) B p :
  shape a = [B; p] -> shape b = [p] ->
  exists z, tadd a b = Ok z /\ shape z = [B; p] /\
    forall i j, 0 <= i < B -> 0 <= j < p ->
                get z [i; j] = sadd (get a [i; j]) (get b [j]).
Proof.
  intros Ha Hb. unfold tadd. rewrite Ha, Hb.
  assert (Hbc : Shape.broadcast [B; p] [p] = Ok [B; p]).
  { unfold Shape.broadcast. cbn [rev app Shape.broadcast_rev mbind res_bind].
    rewrite Z.eqb_refl. reflexivity. }
  rewrite Hbc. cbn [mbind res_bind]. eexists. split; [reflexivity|].
  split; [reflexivity|]. intros i j Hi Hj. cbn [get].
  rewrite bcast_idx_same by (repeat constructor; lia). f_equal. f_equal.
  cbn. destruct (Z.eqb_spec p 1); [|reflexivity]. f_equal. lia.
Qed.

Lemma Linear_forward_2d (w b y : tensor) nin nout B :
  shape y = [B; nin] ->
  exists z, Linear_forward (mkLinear (Shape.mkLinear nin nout true) w b) y = Ok z /\
    shape z = [B; nout] /\
    forall i j, get z [i; j]
                = sadd (sum_range nin (fun k => smul (get y [i; k]) (get w [j; k])))
                       (get b [j]).
Proof.
  intros Hy. unfold Linear_forward, Shape.Linear_forward. cbn [lin]. rewrite Hy.
  cbn [rev app Shape.in_features Shape.out_features]. rewrite Z.eqb_refl.
  cbn [mbind res_bind]. eexists. split; [reflexivity|]. split; reflexivity.
Qed.

Lemma layer_equiv (y1 y2 w b : tensor) nin nout B :
  teq y1 y2 -> shape y1 = [B; nin] -> shape w = [nout; nin] -> shape b = [nout] ->
  exists wT mm z1 z2,
    tensor_T w = Ok wT /\ matmul y1 wT = Ok mm /\ tadd mm b = Ok z1 /\
    Linear_forward (mkLinear (Shape.mkLinear nin nout true) w b) y2 = Ok z2 /\
    shape z1 = [B; nout] /\ teq z1 z2.
Proof.
  intros [Hs Hy] Hy1 Hw Hb.
  destruct (tensor_T_2 w nout nin Hw) as (wT & HT & HwT & HgetT).
  destruct (matmul_2d y1 wT B nin nout Hy1 HwT) as (mm & Hmm & Hsm & Hgm).
  destruct (tadd_row mm b B nout Hsm Hb) as (z1 & Hz1 & Hsz1 & Hgz1).
  assert (Hy2 : shape y2 = [B; nin]) by congruence.
  destruct (Linear_forward_2d w b y2 nin nout B Hy2) as (z2 & Hz2 & Hsz2 & Hgz2).
  exists wT, mm, z1, z2. repeat (split; [assumption|]).
  split; [congruence|]. intros idx Hidx. rewrite Hsz1 in Hidx.
  apply in_range_2 in Hidx as (i & j & -> & Hi & Hj).
  rewrite Hgz1, Hgz2, Hgm by assumption. f_equal.
  apply sum_range_ext. intros k Hk. rewrite HgetT. f_equal.
  apply Hy. rewrite Hy1. repeat constructor; lia.
Qed.

(** When [nn.Linear] adds the terms of an entry in the order of
    [matmul] followed by [tadd], as [Linear_forward] does, the two MLPs
    agree in any arithmetic, however it rounds: on every input batch of
    shape (B, c, h, w) with c * h * w = n_features both forward passes
    return tensors of the same shape (B, num_classes) with the same
    entries. *)
Lemma mlp_same_order (gelu : S -> S) (n_features n_hidden num_classes : Z)
    (t : TensorMLP S) (x : tensor) (B c h w : Z) :
  TensorMLP_wf n_features n_hidden num_classes t ->
  shape x = [B; c; h; w] -> c * h * w = n_features ->
  exists y1 y2,
    TensorMLP_forward gelu t x = Ok y1 /\
    SimpleMLP_forward gelu (SimpleMLP_of n_features n_hidden num_classes t) x = Ok y2 /\
    shape y1 = [B; num_classes] /\
    teq y1 y2.
Proof.
  intros (Hw1 & Hb1 & Hw2 & Hb2 & Hw3 & Hb3) Hx Hf.
  destruct (rearrange_flatten_Ok x B c h w Hx) as (y0 & Hy0 & Hs0).
  rewrite Hf in Hs0.
  destruct (layer_equiv y0 y0 _ _ _ _ _ (teq_refl y0) Hs0 Hw1 Hb1)
    as (w1T & m1 & z1 & z1' & HT1 & Hm1 & Ha1 & Hl1 & Hz1 & Heq1).
  destruct (layer_equiv (tmap gelu z1) (tmap gelu z1') _ _ _ _ _
              (teq_tmap gelu _ _ Heq1) Hz1 Hw2 Hb2)
    as (w2T & m2 & z2 & z2' & HT2 & Hm2 & Ha2 & Hl2 & Hz2 & Heq2).
  destruct (layer_equiv (tmap gelu z2) (tmap gelu z2') _ _ _ _ _
              (teq_tmap gelu _ _ Heq2) Hz2 Hw3 Hb3)
    as (w3T & m3 & z3 & z3' & HT3 & Hm3 & Ha3 & Hl3 & Hz3 & Heq3).
  exists z3, z3'. unfold TensorMLP_forward, SimpleMLP_forward, SimpleMLP_of.
  cbn [fc1 fc2 fc3]. rewrite Hy0. cbn [mbind res_bind].
  rewrite HT1. cbn [mbind res_bind]. rewrite Hm1. cbn [mbind res_bind].
  rewrite Ha1. cbn [mbind res_bind]. rewrite HT2. cbn [mbind res_bind].
  rewrite Hm2. cbn [mbind res_bind]. rewrite Ha2. cbn [mbind res_bind].
  rewrite HT3. cbn [mbind res_bind]. rewrite Hm3. cbn [mbind res_bind].
  rewrite Ha3. cbn [mbind res_bind]. rewrite Hl1. cbn [mbind res_bind].
  rewrite Hl2. cbn [mbind res_bind]. rewrite Hl3. cbn [mbind res_bind].
  auto.
Qed.

(** *** The kernel of [nn.Linear] *)

Lemma terms_of_bias_first_acc (l : list nat) (acc : schedule) :
  terms_of (fold_left (fun a k => Plus a (Term (Product (Z.of_nat k)))) l acc)
  = terms_of acc ++ map (fun k => Product (Z.of_nat k)) l.
Proof.
  revert acc. induction l as [|k l IH]; intros acc; cbn [fold_left map].
  - symmetry. apply app_nil_r.
  - rewrite IH. cbn [terms_of]. rewrite <- app_assoc. reflexivity.
Qed.

Lemma bias_first_valid : kernel_valid bias_first.
Proof.
  intros n. unfold bias_first, all_terms. rewrite terms_of_bias_first_acc.
  cbn [terms_of]. apply Permutation_app_comm.
Qed.

Lemma matmul_then_add_valid : kernel_valid matmul_then_add.
Proof.
  intros n. unfold matmul_then_add, all_terms. cbn [terms_of].
  apply Permutation_app_tail.
  induction (seq 0 (Z.to_nat n)) as [|k l IH]; cbn [fold_right terms_of map app].
  - constructor.
  - constructor. exact IH.
Qed.

(** With the schedule of [matmul] followed by [tadd], the kernel model
    is [Linear_forward] itself, in any arithmetic. *)
Lemma eval_matmul_then_add (prod : Z -> S) (b : S) n :
  eval_schedule prod b (matmul_then_add n) = sadd (sum_range n prod) b.
Proof.
  unfold matmul_then_add, sum_range. cbn [eval_schedule]. f_equal.
  induction (seq 0 (Z.to_nat n)) as [|k l IH]; cbn [fold_right map eval_schedule].
  - reflexivity.
  - rewrite IH. reflexivity.
Qed.

Lemma eval_schedule_ext (f g : Z -> S) (b : S) (s : schedule) :
  (forall k, f k = g k) -> eval_schedule f b s = eval_schedule g b s.
Proof.
  intros H. induction s as [[k|]| |l IHl r IHr]; cbn [eval_schedule term_value];
    [apply H | reflexivity | reflexivity | rewrite IHl, IHr; reflexivity].
Qed.

Lemma Linear_forward_with_2d (ker : kernel) (w b y : tensor) nin nout B :
  shape y = [B; nin] ->
  exists z, Linear_forward_with ker (mkLinear (Shape.mkLinear nin nout true) w b) y = Ok z /\
    shape z = [B; nout] /\
    forall i j, get z [i; j]
                = eval_schedule (fun k => smul (get y [i; k]) (get w [j; k]))
                                (get b [j]) (ker nin).
Proof.
  intros Hy. unfold Linear_forward_with, Shape.Linear_forward. cbn [lin]. rewrite Hy.
  cbn [rev app Shape.in_features Shape.out_features]. rewrite Z.eqb_refl.
  cbn [mbind res_bind]. eexists. split; [reflexivity|]. split; reflexivity.
Qed.

Lemma rearrange_flatten_entries (x : tensor) B c h w :
  shape x = [B; c; h; w] ->
  exists y, rearrange_flatten x = Ok y /\ shape y = [B; c * h * w] /\
    forall i k, get y [i; k] = get x [i; k / (h * w); (k / w) mod h; k mod w].
Proof.
  intros Hx. unfold rearrange_flatten. rewrite Hx.
  cbn [Shape.rearrange_flatten mbind res_bind].
  eexists. split; [reflexivity|]. split; reflexivity.
Qed.

Lemma TensorMLP_layer_entries (y w b : tensor) nin nout B :
  shape y = [B; nin] -> shape w = [nout; nin] -> shape b = [nout] ->
  exists wT mm z,
    tensor_T w = Ok wT /\ matmul y wT = Ok mm /\ tadd mm b = Ok z /\
    shape z = [B; nout] /\
    forall i j, 0 <= i < B -> 0 <= j < nout ->
      get z [i; j]
      = sadd (sum_range nin (fun k => smul (get y [i; k]) (get w [j; k])))
             (get b [j]).
Proof.
  intros Hy Hw Hb.
  destruct (tensor_T_2 w nout nin Hw) as (wT & HT & HwT & HgetT).
  destruct (matmul_2d y wT B nin nout Hy HwT) as (mm & Hmm & Hsm & Hgm).
  destruct (tadd_row mm b B nout Hsm Hb) as (z & Hz & Hsz & Hgz).
  exists wT, mm, z. repeat (split; [assumption|]).
  intros i j Hi Hj. rewrite Hgz, Hgm by assumption. f_equal.
  apply sum_range_ext. intros k _. rewrite HgetT. reflexivity.
Qed.

(** The entries of the three layers of [TensorMLP.forward]. *)
Lemma TensorMLP_forward_entries (gelu : S -> S) nf nh nc (t : TensorMLP S)
    (x : tensor) B c h w :
  TensorMLP_wf nf nh nc t -> shape x = [B; c; h; w] -> c * h * w = nf ->
  exists z1 z2 z3 : tensor,
    TensorMLP_forward gelu t x = Ok z3 /\ shape z3 = [B; nc] /\
    (forall i j, 0 <= i < B -> 0 <= j < nh ->
       get z1 [i; j]
       = sadd (sum_range nf (fun k =>
                 smul (get x [i; k / (h * w); (k / w) mod h; k mod w])
                      (get (w1 t) [j; k])))
              (get (b1 t) [j])) /\
    (forall i j, 0 <= i < B -> 0 <= j < nh ->
       get z2 [i; j]
       = sadd (sum_range nh (fun k =>
                 smul (gelu (get z1 [i; k])) (get (w2 t) [j; k])))
              (get (b2 t) [j])) /\
    (forall i j, 0 <= i < B -> 0 <= j < nc ->
       get z3 [i; j]
       = sadd (sum_range nh (fun k =>
                 smul (gelu (get z2 [i; k])) (get (w3 t) [j; k])))
              (get (b3 t) [j])).
Proof.
  intros (Hw1 & Hb1 & Hw2 & Hb2 & Hw3 & Hb3) Hx Hf.
  destruct (rearrange_flatten_entries x B c h w Hx) as (y0 & Hy0 & Hs0 & Hg0).
  rewrite Hf in Hs0.
  destruct (TensorMLP_layer_entries y0 _ _ _ _ _ Hs0 Hw1 Hb1)
    as (w1T & m1 & z1 & HT1 & Hm1 & Ha1 & Hz1 & Hg1).
  destruct (TensorMLP_layer_entries (tmap gelu z1) _ _ _ _ _ Hz1 Hw2 Hb2)
    as (w2T & m2 & z2 & HT2 & Hm2 & Ha2 & Hz2 & Hg2).
  destruct (TensorMLP_layer_entries (tmap gelu z2) _ _ _ _ _ Hz2 Hw3 Hb3)
    as (w3T & m3 & z3 & HT3 & Hm3 & Ha3 & Hz3 & Hg3).
  exists z1, z2, z3. split.
  { unfold TensorMLP_forward. rewrite Hy0. cbn [mbind res_bind].
    rewrite HT1. cbn [mbind res_bind]. rewrite Hm1. cbn [mbind res_bind].
    rewrite Ha1. cbn [mbind res_bind]. rewrite HT2. cbn [mbind res_bind].
    rewrite Hm2. cbn [mbind res_bind]. rewrite Ha2. cbn [mbind res_bind].
    rewrite HT3. cbn [mbind res_bind]. rewrite Hm3. cbn [mbind res_bind].
    rewrite Ha3. reflexivity. }
  split; [exact Hz3|]. split; [|split].
  - intros i j Hi Hj. rewrite Hg1 by assumption. f_equal.
    apply sum_range_ext. intros k _. rewrite Hg0. reflexivity.
  - exact Hg2.
  - exact Hg3.
Qed.

(** The entries of the three layers of [SimpleMLP.forward] when
    [nn.Linear] adds in the order of the kernel [ker]. *)
Lemma SimpleMLP_forward_with_entries (ker : kernel) (gelu : S -> S) nf nh nc
    (t : TensorMLP S) (x : tensor) B c h w :
  shape x = [B; c; h; w] -> c * h * w = nf ->
  exists z1 z2 z3 : tensor,
    SimpleMLP_forward_with gelu ker (SimpleMLP_of nf nh nc t) x = Ok z3 /\
    shape z3 = [B; nc] /\
    (forall i j,
       get z1 [i; j]
       = eval_schedule (fun k =>
           smul (get x [i; k / (h * w); (k / w) mod h; k mod w])
                (get (w1 t) [j; k]))
           (get (b1 t) [j]) (ker nf)) /\
    (forall i j,
       get z2 [i; j]
       = eval_schedule (fun k => smul (gelu (get z1 [i; k])) (get (w2 t) [j; k]))
           (get (b2 t) [j]) (ker nh)) /\
    (forall i j,
       get z3 [i; j]
       = eval_schedule (fun k => smul (gelu (get z2 [i; k])) (get (w3 t) [j; k]))
           (get (b3 t) [j]) (ker nh)).
Proof.
  intros Hx Hf.
  destruct (rearrange_flatten_entries x B c h w Hx) as (y0 & Hy0 & Hs0 & Hg0).
  rewrite Hf in Hs0.
  destruct (Linear_forward_with_2d ker (w1 t) (b1 t) y0 nf nh B Hs0)
    as (z1 & Hl1 & Hz1 & Hg1).
  destruct (Linear_forward_with_2d ker (w2 t) (b2 t) (tmap gelu z1) nh nh B Hz1)
    as (z2 & Hl2 & Hz2 & Hg2).
  destruct (Linear_forward_with_2d ker (w3 t) (b3 t) (tmap gelu z2) nh nc B Hz2)
    as (z3 & Hl3 & Hz3 & Hg3).
  exists z1, z2, z3. split.
  { unfold SimpleMLP_forward_with, SimpleMLP_of. cbn [fc1 fc2 fc3].
    rewrite Hy0. cbn [mbind res_bind]. rewrite Hl1. cbn [mbind res_bind].
    rewrite Hl2. cbn [mbind res_bind]. rewrite Hl3. reflexivity. }
  split; [exact Hz3|]. split; [|split].
  - intros i j. rewrite Hg1. apply eval_schedule_ext. intros k.
    rewrite Hg0. reflexivity.
  - exact Hg2.
  - exact Hg3.
Qed.

(** [Linear_forward] is the kernel model with the schedule of [matmul]
    followed by [tadd]. *)
Lemma Linear_forward_with_same (l : Linear S) (x x' : tensor) :
  shape x = shape x' -> (forall idx, get x idx = get x' idx) ->
  match Linear_forward_with matmul_then_add l x, Linear_forward l x' with
  | Ok a, Ok b => shape a = shape b /\ forall idx, get a idx = get b idx
  | Raise e, Raise e' => e = e'
  | _, _ => False
  end.
Proof.
  intros Hs Hg. unfold Linear_forward_with, Linear_forward. rewrite Hs.
  destruct (Shape.Linear_forward (lin l) (shape x')) as [s|e]; cbn [mbind res_bind];
    [|reflexivity].
  split; [reflexivity|]. intros idx. cbn [get].
  assert (Hsum : sum_range (Shape.in_features (lin l)) (fun k =>
                   smul (get x (removelast idx ++ [k]))
                        (get (weight l) [List.last idx 0; k]))
                 = sum_range (Shape.in_features (lin l)) (fun k =>
                   smul (get x' (removelast idx ++ [k]))
                        (get (weight l) [List.last idx 0; k]))).
  { apply sum_range_ext. intros k _. rewrite Hg. reflexivity. }
  destruct (Shape.has_bias (lin l)).
  - rewrite eval_matmul_then_add, Hsum. reflexivity.
  - exact Hsum.
Qed.

(** [SimpleMLP_forward] is the kernel model with the schedule of
    [matmul] followed by [tadd]. *)
Lemma SimpleMLP_forward_matmul_then_add (gelu : S -> S) (m : SimpleMLP S) (x : tensor) :
  match SimpleMLP_forward_with gelu matmul_then_add m x, SimpleMLP_forward gelu m x with
  | Ok a, Ok b => shape a = shape b /\ forall idx, get a idx = get b idx
  | Raise e, Raise e' => e = e'
  | _, _ => False
  end.
Proof.
  unfold SimpleMLP_forward_with, SimpleMLP_forward.
  destruct (rearrange_flatten x) as [y|e]; cbn [mbind res_bind]; [|reflexivity].
  pose proof (Linear_forward_with_same (fc1 m) y y eq_refl (fun _ => eq_refl)) as H1.
  destruct (Linear_forward_with _ (fc1 m) y) as [a1|], (Linear_forward (fc1 m) y) as [b1|];
    cbn [mbind res_bind]; try contradiction; [|exact H1].
  destruct H1 as [Hs1 Hg1].
  pose proof (Linear_forward_with_same (fc2 m) (tmap gelu a1) (tmap gelu b1) Hs1
                (fun idx => f_equal gelu (Hg1 idx))) as H2.
  destruct (Linear_forward_with _ (fc2 m) _) as [a2|], (Linear_forward (fc2 m) _) as [b2|];
    cbn [mbind res_bind]; try contradiction; [|exact H2].
  destruct H2 as [Hs2 Hg2].
  pose proof (Linear_forward_with_same (fc3 m) (tmap gelu a2) (tmap gelu b2) Hs2
                (fun idx => f_equal gelu (Hg2 idx))) as H3.
  destruct (Linear_forward_with _ (fc3 m) _) as [a3|], (Linear_forward (fc3 m) _) as [b3|];
    cbn [mbind res_bind]; try contradiction; exact H3.
Qed.
(** *** Attention *)

Lemma unravel_split_last B N F H D b n s h d :
  F = 3 * (H * D) ->
  0 <= b < B -> 0 <= n < N -> 0 <= s < 3 -> 0 <= h < H -> 0 <= d < D ->
  unravel [B; N; F] (ravel [B; N; 3; H; D] [b; n; s; h; d])
  = [b; n; (s * H + h) * D + d].
Proof.
  intros HF Hb Hn Hs Hh Hd.
  replace (ravel [B; N; 3; H; D] [b; n; s; h; d])
    with (ravel [B; N; F] [b; n; (s * H + h) * D + d])
    by (unfold ravel; cbn [ravel_acc]; subst F; ring).
  assert (0 <= s * H + h <= 3 * H - 1) by nia.
  assert (0 <= (s * H + h) * D + d < F) by (subst F; nia).
  apply unravel_ravel. repeat constructor; lia.
Qed.

Lemma unravel_merge_last B N H D b n c :
  0 < D -> 0 <= b < B -> 0 <= n < N -> 0 <= c < H * D ->
  unravel [B; N; H; D] (ravel [B; N; H * D] [b; n; c])
  = [b; n; c / D; c mod D].
Proof.
  intros HD Hb Hn Hc.
  pose proof (Z.div_mod c D ltac:(lia)) as Hdm.
  pose proof (Z.mod_pos_bound c D HD) as Hm.
  assert (0 <= c / D < H).
  { split; [apply Z.div_pos; lia | apply Z.div_lt_upper_bound; lia]. }
  replace (ravel [B; N; H * D] [b; n; c])
    with (ravel [B; N; H; D] [b; n; c / D; c mod D])
    by (unfold ravel; cbn [ravel_acc]; rewrite Hdm at 3; ring).
  apply unravel_ravel. repeat constructor; lia.
Qed.

Lemma Shape_reshape_Ok s tgt :
  Shape.nonneg tgt = true -> Shape.numel tgt = Shape.numel s ->
  Shape.reshape s tgt = Ok tgt.
Proof. intros H1 H2. unfold Shape.reshape. rewrite H1, H2, Z.eqb_refl. reflexivity. Qed.

Lemma nonneg_intro (s : list Z) : Forall (fun d => 0 <= d) s -> Shape.nonneg s = true.
Proof.
  unfold Shape.nonneg. induction 1 as [|d s Hd _ IH]; [reflexivity|].
  cbn [forallb]. rewrite IH. destruct (Z.leb_spec 0 d); [reflexivity | lia].
Qed.

(** Cutting the output of the qkv layer into heads. *)
Lemma split_heads (QKV : tensor) B N nh D :
  shape QKV = [B; N; nh * D * 3] -> 0 <= B -> 0 <= N -> 0 < nh -> 0 < D ->
  exists r p q k v,
    reshape QKV [B; N; 3; nh; D] = Ok r /\
    permute r [2; 0; 3; 1; 4] = Ok p /\
    unbind0_3 p = Ok (q, k, v) /\
    shape q = [B; nh; N; D] /\ shape k = [B; nh; N; D] /\ shape v = [B; nh; N; D] /\
    forall b h n d, 0 <= b < B -> 0 <= h < nh -> 0 <= n < N -> 0 <= d < D ->
      get q [b; h; n; d] = head_slice nh (nh * D) QKV 0 h b n d /\
      get k [b; h; n; d] = head_slice nh (nh * D) QKV 1 h b n d /\
      get v [b; h; n; d] = head_slice nh (nh * D) QKV 2 h b n d.
Proof.
  intros Hs HB HN Hnh HD. unfold reshape. rewrite Hs.
  rewrite Shape_reshape_Ok.
  2:{ apply nonneg_intro. repeat constructor; lia. }
  2:{ unfold Shape.numel; cbn [fold_right]. ring. }
  cbn [mbind res_bind]. eexists _, _, _, _, _. split; [reflexivity|].
  unfold permute. cbn [shape].
  change (Shape.permute [B; N; 3; nh; D] [2; 0; 3; 1; 4])
    with (Ok (A:=Shape.shape) [3; B; nh; N; D]).
  cbn [mbind res_bind].
  change (mapM (Shape.norm_dim (length [B; N; 3; nh; D])) [2; 0; 3; 1; 4])
    with (Ok (A:=list nat) [2; 0; 3; 1; 4]%nat).
  cbn [mbind res_bind]. split; [reflexivity|].
  unfold unbind0_3. cbn [shape Shape.unbind0_3 Z.eqb Pos.eqb mbind res_bind].
  split; [reflexivity|].
  split; [reflexivity|]. split; [reflexivity|]. split; [reflexivity|].
  intros b h n d Hb Hh Hn Hd.
  unfold head_slice, head_dim, select0. cbn [get length seq map index_of Nat.eqb nth].
  rewrite !(unravel_split_last B N (nh * D * 3) nh D) by lia.
  replace (nh * D / nh) with D by (rewrite Z.mul_comm, Z.div_mul; lia).
  repeat split; do 4 f_equal; ring.
Qed.

(** q k^T over the last two axes. *)
Lemma scores (q k : tensor) B nh N D :
  shape q = [B; nh; N; D] -> shape k = [B; nh; N; D] ->
  exists kT a,
    transpose k (-2) (-1) = Ok kT /\ matmul q kT = Ok a /\
    shape a = [B; nh; N; N] /\
    forall b h i j, 0 <= b < B -> 0 <= h < nh ->
      get a [b; h; i; j]
      = sum_range D (fun d => smul (get q [b; h; i; d]) (get k [b; h; j; d])).
Proof.
  intros Hq Hk. eexists _, _. unfold transpose. rewrite Hk.
  change (Shape.transpose [B; nh; N; D] (-2) (-1))
    with (Ok (A:=Shape.shape) [B; nh; D; N]).
  cbn [mbind res_bind].
  change (Shape.norm_dim (length [B; nh; N; D]) (-2)) with (Ok (A:=nat) 2%nat).
  change (Shape.norm_dim (length [B; nh; N; D]) (-1)) with (Ok (A:=nat) 3%nat).
  cbn [mbind res_bind]. split; [reflexivity|].
  unfold matmul. cbn [shape]. rewrite Hq, ShapeFacts.matmul_batched.
  cbn [mbind res_bind]. split; [reflexivity|]. split; [reflexivity|].
  intros b h i j Hb Hh. cbn -[bcast_idx sum_range].
  rewrite !bcast_idx_same by (repeat constructor; lia). reflexivity.
Qed.

Lemma softmax_last (a : tensor) B nh N M :
  shape a = [B; nh; N; M] ->
  exists sm,
    softmax a (-1) = Ok sm /\ shape sm = [B; nh; N; M] /\
    forall b h i j,
      get sm [b; h; i; j]
      = sdiv (sexp (get a [b; h; i; j]))
             (sum_range M (fun j' => sexp (get a [b; h; i; j']))).
Proof.
  intros Ha. eexists. unfold softmax. rewrite Ha.
  change (Shape.softmax [B; nh; N; M] (-1)) with (Ok (A:=Shape.shape) [B; nh; N; M]).
  change (Shape.norm_dim (length [B; nh; N; M]) (-1)) with (Ok (A:=nat) 3%nat).
  cbn [mbind res_bind]. split; [reflexivity|]. split; reflexivity.
Qed.

(** attn v, and the heads laid side by side. *)
Lemma merge_heads (a v : tensor) B nh N D :
  shape a = [B; nh; N; N] -> shape v = [B; nh; N; D] ->
  0 <= B -> 0 <= N -> 0 < nh -> 0 < D ->
  exists o t y,
    matmul a v = Ok o /\ transpose o 1 2 = Ok t /\
    reshape t [B; N; nh * D] = Ok y /\
    shape y = [B; N; nh * D] /\
    forall b n c, 0 <= b < B -> 0 <= n < N -> 0 <= c < nh * D ->
      get y [b; n; c]
      = sum_range N (fun j =>
          smul (get a [b; c / D; n; j]) (get v [b; c / D; j; c mod D])).
Proof.
  intros Ha Hv HB HN Hnh HD. eexists _, _, _.
  unfold matmul. rewrite Ha, Hv, ShapeFacts.matmul_batched.
  cbn [mbind res_bind]. split; [reflexivity|].
  unfold transpose. cbn [shape].
  change (Shape.transpose [B; nh; N; D] 1 2)
    with (Ok (A:=Shape.shape) [B; N; nh; D]).
  change (Shape.norm_dim (length [B; nh; N; D]) 1) with (Ok (A:=nat) 1%nat).
  change (Shape.norm_dim (length [B; nh; N; D]) 2) with (Ok (A:=nat) 2%nat).
  cbn [mbind res_bind]. split; [reflexivity|].
  unfold reshape. cbn [shape]. rewrite Shape_reshape_Ok.
  2:{ apply nonneg_intro. repeat constructor; lia. }
  2:{ unfold Shape.numel; cbn [fold_right]. ring. }
  cbn [mbind res_bind]. split; [reflexivity|]. split; [reflexivity|].
  intros b n c Hb Hn Hc. cbn [get].
  rewrite unravel_merge_last by lia.
  pose proof (Z.mod_pos_bound c D HD).
  assert (0 <= c / D < nh).
  { split; [apply Z.div_pos; lia | apply Z.div_lt_upper_bound; lia]. }
  cbn -[bcast_idx sum_range Z.div Z.modulo].
  rewrite !bcast_idx_same by (repeat constructor; lia). reflexivity.
Qed.

Lemma Linear_forward_teq (l : Linear S) (y y' : tensor) B N C :
  teq y y' -> shape y = [B; N; C] -> C = Shape.in_features (lin l) ->
  exists z z',
    Linear_forward l y = Ok z /\ Linear_forward l y' = Ok z' /\
    shape z = [B; N; Shape.out_features (lin l)] /\ teq z z'.
Proof.
  intros [Hs Hg] Hy ->. unfold Linear_forward. rewrite <- Hs, Hy.
  rewrite ShapeFacts.Linear_forward_3 by reflexivity. cbn [mbind res_bind].
  eexists _, _. split; [reflexivity|]. split; [reflexivity|].
  split; [reflexivity|]. split; [reflexivity|]. cbn [shape get].
  intros idx Hidx. apply in_range_3 in Hidx as (b & n & j & -> & Hb & Hn & Hj).
  cbn [removelast List.last app].
  assert (Hsum : sum_range (Shape.in_features (lin l))
                   (fun k => smul (get y [b; n; k]) (get (weight l) [j; k]))
               = sum_range (Shape.in_features (lin l))
                   (fun k => smul (get y' [b; n; k]) (get (weight l) [j; k]))).
  { apply sum_range_ext. intros k Hk. f_equal. apply Hg. rewrite Hy.
    repeat constructor; lia. }
  rewrite Hsum. reflexivity.
Qed.


(** *** The collate functions *)

Lemma stack_Ok (xs : list tensor) (s : Shape.shape) :
  xs <> [] -> Forall (fun x => shape x = s) xs ->
  exists t, stack xs = Ok t /\
    shape t = Z.of_nat (length xs) :: s /\
    forall b im idx, 0 <= b -> xs !! Z.to_nat b = Some im ->
      get t (b :: idx) = get im idx.
Proof.
  intros Hne Hall. destruct xs as [|x0 xs']; [contradiction|].
  unfold stack.
  assert (Hs0 : shape x0 = s) by (inversion Hall; assumption).
  assert (Hck : forallb (fun x => bool_decide (shape x = shape x0)) (x0 :: xs') = true).
  { apply forallb_forall. intros x Hin. apply bool_decide_eq_true.
    rewrite Forall_forall in Hall. rewrite Hs0. apply Hall.
    apply list_elem_of_In. exact Hin. }
  rewrite Hck. eexists. split; [reflexivity|]. split; [cbn [shape]; congruence|].
  intros b im idx Hb Hl. cbn [get]. f_equal. apply nth_lookup_Some. exact Hl.
Qed.

Lemma patch_index p hp wp p1 p2 ci i j :
  0 <= p1 -> 0 <= p2 < p -> 0 <= ci -> 0 <= i < hp -> 0 <= j < wp ->
  let q := p1 * p + p2 in
  let f := (ci * hp + i) * wp + j in
  q / p = p1 /\ q mod p = p2 /\
  f / (hp * wp) = ci /\ (f / wp) mod hp = i /\ f mod wp = j.
Proof.
  intros H1 H2 Hc Hi Hj q f. subst q f.
  assert (Hq : (p1 * p + p2) / p = p1)
    by (symmetry; apply (Z.div_unique_pos _ _ p1 p2); lia).
  assert (Hm : (p1 * p + p2) mod p = p2)
    by (symmetry; apply (Z.mod_unique_pos _ _ p1); lia).
  assert (Hfw : ((ci * hp + i) * wp + j) / wp = ci * hp + i)
    by (symmetry; apply (Z.div_unique_pos _ _ _ j); lia).
  assert (Hfm : ((ci * hp + i) * wp + j) mod wp = j)
    by (symmetry; apply (Z.mod_unique_pos _ _ (ci * hp + i)); lia).
  assert (Hfi : (ci * hp + i) mod hp = i)
    by (symmetry; apply (Z.mod_unique_pos _ _ ci); lia).
  assert (Hfc : ((ci * hp + i) * wp + j) / (hp * wp) = ci).
  { symmetry. apply (Z.div_unique_pos _ _ ci (i * wp + j)); nia. }
  rewrite Hq, Hm, Hfc, Hfw, Hfi, Hfm. auto.
Qed.

(** C4. Both collate functions turn a non-empty list of n samples
    (image, label), the images of one shape (c, h, w), into batch
    tensors with leading dimension n.  [gray_collate_fn] returns
    (xn, x): x is the stack of the images, of shape (n, c, h, w), and xn,
    of shape (n, 1, h, w), is at each pixel the mean of x over the
    channels; the labels are dropped.  [LitCifar10.collate_fn], for a
    positive [patch_num] that divides h and w, returns (x, y): x of
    shape (n, patch_num^2, c * (h/patch_num) * (w/patch_num)) holds
    patch (p1, p2) of each image, flattened, at sequence position
    p1 * patch_num + p2, and y holds the n labels in order. *)
Theorem collate_functions_spec (batch : list (tensor * Z)) (c h w : Z) :
  batch <> [] ->
  Forall (fun sample => shape (fst sample) = [c; h; w]) batch ->
  let n := Z.of_nat (length batch) in
  (exists xn x,
     gray_collate_fn batch = Ok (xn, x) /\
     shape x = [n; c; h; w] /\ shape xn = [n; 1; h; w] /\
     (forall b image label idx, 0 <= b ->
        batch !! Z.to_nat b = Some (image, label) ->
        get x (b :: idx) = get image idx) /\
     (forall b i j,
        get xn [b; 0; i; j]
        = sdiv (sum_range c (fun ci => get x [b; ci; i; j])) (sofZ c))) /\
  (forall patch_num, 0 < patch_num -> h mod patch_num = 0 -> w mod patch_num = 0 ->
     exists x y,
       collate_fn patch_num batch = Ok (x, y) /\
       shape x = [n; patch_num * patch_num; c * (h / patch_num) * (w / patch_num)] /\
       y = map snd batch /\ Z.of_nat (length y) = n /\
       (forall b image label p1 p2 ci i j, 0 <= b ->
          batch !! Z.to_nat b = Some (image, label) ->
          0 <= p1 -> 0 <= p2 < patch_num -> 0 <= ci ->
          0 <= i < h / patch_num -> 0 <= j < w / patch_num ->
          get x [b; p1 * patch_num + p2;
                 (ci * (h / patch_num) + i) * (w / patch_num) + j]
          = get image [ci; p1 * (h / patch_num) + i; p2 * (w / patch_num) + j])).
Proof.
  intros Hne Hall n.
  assert (Hun : unzip_batch batch = Ok (map fst batch, map snd batch)).
  { destruct batch; [contradiction | reflexivity]. }
  assert (Hne' : map fst batch <> []) by (destruct batch; [contradiction | discriminate]).
  assert (Hall' : Forall (fun x : tensor => shape x = [c; h; w]) (map fst batch)).
  { apply Forall_map. exact Hall. }
  destruct (stack_Ok (map fst batch) [c; h; w] Hne' Hall') as (x & Hx & Hsx & Hgx).
  rewrite length_map in Hsx. fold n in Hsx.
  assert (Hget : forall b image label idx, 0 <= b ->
             batch !! Z.to_nat b = Some (image, label) ->
             get x (b :: idx) = get image idx).
  { intros b image label idx Hb Hl. apply Hgx; [assumption|].
    rewrite list_lookup_fmap, Hl. reflexivity. }
  split.
  - unfold gray_collate_fn. rewrite Hun. cbn [mbind res_bind]. rewrite Hx.
    cbn [mbind res_bind]. unfold reduce_mean_channels. rewrite Hsx.
    cbn [mbind res_bind]. eexists _, x. split; [reflexivity|].
    split; [exact Hsx|]. split; [reflexivity|]. split; [exact Hget|].
    intros b i j. reflexivity.
  - intros p Hp Hh Hw. unfold collate_fn. rewrite Hun. cbn [mbind res_bind].
    rewrite Hx. cbn [mbind res_bind]. unfold rearrange_patches. rewrite Hsx.
    destruct (Z.eqb_spec p 0); [lia|]. rewrite Hh, Hw.
    destruct (Z.ltb_spec p 0); [lia|]. cbn [Z.eqb andb negb mbind res_bind].
    eexists _, _. split; [reflexivity|]. split; [reflexivity|].
    split; [reflexivity|]. split; [rewrite length_map; reflexivity|].
    intros b image label p1 p2 ci i j Hb Hl H1 H2 Hci Hi Hj. cbn [get].
    destruct (patch_index p (h / p) (w / p) p1 p2 ci i j H1 H2 Hci Hi Hj)
      as (-> & -> & -> & -> & ->).
    apply (Hget b image label). assumption. assumption.
Qed.

(** *** The value semantics refines the shape semantics *)

Lemma Linear_forward_shape (l : Linear S) (x : tensor) :
  shape <$> Linear_forward l x = Shape.Linear_forward (lin l) (shape x).
Proof.
  unfold Linear_forward. destruct (Shape.Linear_forward _ _); reflexivity.
Qed.

Lemma ConvTranspose2d_forward_shape (c : ConvTranspose2d S) (x : tensor) :
  shape <$> ConvTranspose2d_forward c x
  = Shape.ConvTranspose2d_forward (ct c) (shape x).
Proof.
  unfold ConvTranspose2d_forward.
  destruct (Shape.ConvTranspose2d_forward _ _); reflexivity.
Qed.

Lemma rearrange_unflatten_shape (y : tensor) B h w :
  shape <$> rearrange_unflatten y B h w
  = Shape.rearrange_unflatten (shape y) B h w.
Proof.
  unfold rearrange_unflatten. destruct (Shape.rearrange_unflatten _ _ _ _); reflexivity.
Qed.

Lemma reshape_shape (t : tensor) tgt :
  shape <$> reshape t tgt = Shape.reshape (shape t) tgt.
Proof. unfold reshape. destruct (Shape.reshape _ _); reflexivity. Qed.

Lemma permute_shape (t : tensor) dims :
  shape <$> permute t dims = Shape.permute (shape t) dims.
Proof.
  unfold permute, Shape.permute.
  destruct (mapM _ dims) as [ds|e]; [|reflexivity]. cbn [mbind res_bind].
  destruct (Shape.is_perm _ ds); reflexivity.
Qed.

Lemma transpose_shape (t : tensor) d0 d1 :
  shape <$> transpose t d0 d1 = Shape.transpose (shape t) d0 d1.
Proof.
  unfold transpose, Shape.transpose.
  destruct (Shape.norm_dim _ d0) as [i|e]; [|reflexivity]. cbn [mbind res_bind].
  destruct (Shape.norm_dim _ d1) as [j|e]; reflexivity.
Qed.

Lemma matmul_shape (a b : tensor) :
  shape <$> matmul a b = Shape.matmul (shape a) (shape b).
Proof. unfold matmul. destruct (Shape.matmul _ _); reflexivity. Qed.

Lemma softmax_shape (t : tensor) d :
  shape <$> softmax t d = Shape.softmax (shape t) d.
Proof.
  unfold softmax, Shape.softmax.
  destruct (Shape.norm_dim _ d) as [i|e]; reflexivity.
Qed.

Lemma unbind0_3_shape (t : tensor) :
  (fun '(q, k, v) => (shape q, shape k, shape v)) <$> unbind0_3 t
  = Shape.unbind0_3 (shape t).
Proof.
  unfold unbind0_3, Shape.unbind0_3, select0.
  destruct (shape t) as [|n rest]; [reflexivity|].
  destruct (n =? 3); reflexivity.
Qed.

(** One step of a forward pass on both levels. *)
Lemma bind_shape {A B} (m : res A) (ms : res B) (h : A -> B)
    (f : A -> res tensor) (fs : B -> res Shape.shape) :
  h <$> m = ms ->
  (forall y, m = Ok y -> shape <$> f y = fs (h y)) ->
  shape <$> (m ≫= f) = ms ≫= fs.
Proof.
  intros Hm Hf. destruct m as [y|e]; cbn in *; subst ms; cbn; auto.
Qed.

Lemma Decoder_forward_shape relu sigmoid (self : Decoder S) (d : Shape.Decoder)
    (x : tensor) :
  Decoder_of d self ->
  shape <$> Decoder_forward relu sigmoid self x = Shape.Decoder_forward d (shape x).
Proof.
  intros (Hi & Hfc & H1 & H2 & H3 & H4).
  unfold Decoder_forward, Shape.Decoder_forward, Shape.activation.
  destruct (shape x) as [|B [|F [|? ?]]] eqn:Hx; try reflexivity.
  rewrite <- Hi, <- Hfc, <- H1, <- H2, <- H3, <- H4, <- Hx.
  apply (bind_shape _ _ shape); [apply Linear_forward_shape | intros y0 _].
  apply (bind_shape _ _ shape); [apply rearrange_unflatten_shape | intros y1 _].
  apply (bind_shape _ _ shape); [apply ConvTranspose2d_forward_shape | intros y2 _].
  cbn [mbind res_bind].
  apply (bind_shape _ _ shape _ _ (ConvTranspose2d_forward_shape _ (tmap relu y2))).
  intros y3 _. cbn [mbind res_bind].
  apply (bind_shape _ _ shape _ _ (ConvTranspose2d_forward_shape _ (tmap relu y3))).
  intros y4 _. cbn [mbind res_bind].
  apply (bind_shape _ _ shape _ _ (ConvTranspose2d_forward_shape _ (tmap relu y4))).
  intros y5 _. reflexivity.
Qed.

(** The value-level attention raises exactly when the shape-level one
    does, and otherwise returns a tensor of the shape it computes. *)
Lemma Attention_forward_refines (self : Attention S) (c : Shape.scale_const) (x : tensor) :
  shape <$> Attention_forward self x
  = Shape.Attention_forward
      (Shape.mkAttention (num_heads self) c (lin (qkv self)) (lin (proj self)))
      (shape x).
Proof.
  unfold Attention_forward, Shape.Attention_forward.
  cbn [Shape.qkv Shape.proj Shape.num_heads].
  destruct (shape x) as [|B [|N [|C [|? ?]]]] eqn:Hx; try reflexivity.
  rewrite <- Hx.
  apply (bind_shape _ _ shape); [apply Linear_forward_shape | intros y0 _].
  destruct (num_heads self =? 0); [reflexivity|].
  apply (bind_shape _ _ shape); [apply reshape_shape | intros y1 _].
  apply (bind_shape _ _ shape); [apply permute_shape | intros y2 _].
  apply (bind_shape _ _ (fun '(q, k, v) => (shape q, shape k, shape v)));
    [apply unbind0_3_shape | intros [[q k] v] _].
  apply (bind_shape _ _ shape); [apply transpose_shape | intros kT _].
  apply (bind_shape _ _ shape); [apply matmul_shape | intros a0 _].
  apply (bind_shape _ _ shape _ _ (softmax_shape (mul_scalar a0 (scale self)) (-1))).
  intros a1 _.
  apply (bind_shape _ _ shape); [apply matmul_shape | intros o _].
  apply (bind_shape _ _ shape); [apply transpose_shape | intros t _].
  apply (bind_shape _ _ shape); [apply reshape_shape | intros y3 _].
  apply Linear_forward_shape.
Qed.


(** Whatever the decoder returns is a Sigmoid image, entry by entry. *)
Lemma Decoder_forward_sigmoid relu sigmoid (self : Decoder S) (x y : tensor) :
  Decoder_forward relu sigmoid self x = Ok y ->
  exists pre : tensor, forall idx, get y idx = sigmoid (get pre idx).
Proof.
  unfold Decoder_forward.
  destruct (shape x) as [|B [|F [|? ?]]]; try discriminate.
  repeat (match goal with
          | |- context [mbind _ ?r] =>
              destruct r; [|discriminate]; cbn [mbind res_bind]
          end).
  intros E; inversion E; subst y. eexists. intros idx. reflexivity.
Qed.

End WithScalar.

(** *** The two MLPs in exact arithmetic *)

Lemma fold_Rplus_app (l l' : list R) :
  fold_right Rplus 0%R (l ++ l')
  = (fold_right Rplus 0%R l + fold_right Rplus 0%R l')%R.
Proof. induction l as [|a l IH]; cbn [fold_right app]; [lra | rewrite IH; lra]. Qed.

Lemma fold_Rplus_permutation (l l' : list R) :
  Permutation l l' -> fold_right Rplus 0%R l = fold_right Rplus 0%R l'.
Proof.
  induction 1 as [|a l l' _ IH|a b l|l l' l'' _ IH1 _ IH2]; cbn [fold_right];
    [reflexivity | rewrite IH; reflexivity | lra | congruence].
Qed.

Lemma eval_schedule_terms (prod : Z -> R) (b : R) (s : schedule) :
  eval_schedule (SC:=R_Scalar) prod b s
  = fold_right Rplus 0%R (map (term_value prod b) (terms_of s)).
Proof.
  induction s as [[k|]| |l IHl r IHr];
    cbn [eval_schedule terms_of map fold_right term_value].
  - lra.
  - lra.
  - reflexivity.
  - rewrite map_app, fold_Rplus_app, IHl, IHr. reflexivity.
Qed.

(** In exact arithmetic every valid schedule gives the sum of the
    products plus the bias. *)
Lemma eval_schedule_exact (ker : kernel) (prod : Z -> R) (b : R) n :
  kernel_valid ker ->
  eval_schedule (SC:=R_Scalar) prod b (ker n)
  = (sum_range (SC:=R_Scalar) n prod + b)%R.
Proof.
  intros Hv. rewrite eval_schedule_terms.
  rewrite (fold_Rplus_permutation _ _
             (Permutation_map (term_value prod b) (Hv n))).
  unfold all_terms, sum_range. rewrite map_app, fold_Rplus_app, map_map.
  cbn [map fold_right term_value sadd szero R_Scalar]. lra.
Qed.

(** C8. In exact real arithmetic the two MLPs compute the same
    function, in whatever order the kernel of [nn.Linear] adds the
    products and the bias of an entry: when SimpleMLP's three linear
    layers hold the weights and biases (w1, b1), (w2, b2), (w3, b3) of a
    TensorMLP, then on every input batch of shape (B, c, h, w) with
    c * h * w = n_features (in the notebook, (B, 3, 32, 32)) both
    forward passes return, and return tensors of the same shape
    (B, num_classes) with the same entries. *)
Theorem mlp_equiv_exact (ker : kernel) (gelu : R -> R)
    (n_features n_hidden num_classes : Z)
    (t : TensorMLP R) (x : Value.tensor R) (B c h w : Z) :
  kernel_valid ker ->
  TensorMLP_wf n_features n_hidden num_classes t ->
  shape x = [B; c; h; w] -> c * h * w = n_features ->
  exists y1 y2,
    TensorMLP_forward (SC:=R_Scalar) gelu t x = Ok y1 /\
    SimpleMLP_forward_with (SC:=R_Scalar) gelu ker
      (SimpleMLP_of n_features n_hidden num_classes t) x = Ok y2 /\
    shape y1 = [B; num_classes] /\
    teq y1 y2.
Proof.
  intros Hv Hwf Hx Hf.
  destruct (TensorMLP_forward_entries (SC:=R_Scalar) gelu _ _ _ t x B c h w Hwf Hx Hf)
    as (z1 & z2 & z3 & Ht & Hs & H1 & H2 & H3).
  destruct (SimpleMLP_forward_with_entries (SC:=R_Scalar) ker gelu
              n_features n_hidden num_classes t x B c h w Hx Hf)
    as (u1 & u2 & u3 & Hu & Hsu & G1 & G2 & G3).
  exists z3, u3. repeat (split; [assumption|]).
  assert (E1 : forall i j, 0 <= i < B -> 0 <= j < n_hidden ->
                 get z1 [i; j] = get u1 [i; j]).
  { intros i j Hi Hj. rewrite H1, G1 by assumption.
    rewrite eval_schedule_exact by assumption. reflexivity. }
  assert (E2 : forall i j, 0 <= i < B -> 0 <= j < n_hidden ->
                 get z2 [i; j] = get u2 [i; j]).
  { intros i j Hi Hj. rewrite H2, G2 by assumption.
    rewrite eval_schedule_exact by assumption. cbn [sadd R_Scalar]. f_equal.
    apply sum_range_ext. intros k Hk. rewrite E1 by assumption. reflexivity. }
  split; [congruence|]. intros idx Hidx. rewrite Hs in Hidx.
  apply in_range_2 in Hidx as (i & j & -> & Hi & Hj).
  rewrite H3, G3 by assumption. rewrite eval_schedule_exact by assumption.
  cbn [sadd R_Scalar]. f_equal.
  apply sum_range_ext. intros k Hk. rewrite E2 by assumption. reflexivity.
Qed.

(** *** The decoder over the reals *)

Lemma R_sigmoid_range (z : R) : (0 < R_sigmoid z < 1)%R.
Proof.
  unfold R_sigmoid. pose proof (exp_pos (- z)) as He.
  assert (Hd : (0 < 1 + exp (- z))%R) by lra.
  split.
  - apply Rdiv_lt_0_compat; lra.
  - apply (Rmult_lt_reg_r (1 + exp (- z))); [exact Hd|].
    unfold Rdiv. rewrite Rmult_assoc, Rinv_l by lra. lra.
Qed.

(** C10. In exact real arithmetic, every entry of the tensor that
    [Decoder.forward] returns lies strictly between 0 and 1, whatever
    the latent input and the parameters, because the last layer's
    output goes through Sigmoid; and the decoder built with default
    arguments does return, a tensor of shape (B, 3, 32, 32), on every
    latent batch of shape (B, 256). *)
Theorem Decoder_output_in_unit_interval
    (self : Decoder R) (x : Value.tensor R) :
  (forall y, Decoder_forward (SC:=R_Scalar) R_relu R_sigmoid self x = Ok y ->
     forall idx, (0 < get y idx < 1)%R) /\
  (forall B, Decoder_of Shape.Decoder_default self -> shape x = [B; 256] ->
     exists y, Decoder_forward (SC:=R_Scalar) R_relu R_sigmoid self x = Ok y /\
               shape y = [B; 3; 32; 32]).
Proof.
  split.
  - intros y Hy idx.
    destruct (Decoder_forward_sigmoid (SC:=R_Scalar) _ _ _ _ _ Hy) as [pre Hpre].
    rewrite Hpre. apply R_sigmoid_range.
  - intros B Hof Hx.
    pose proof (Decoder_forward_shape (SC:=R_Scalar) R_relu R_sigmoid self _ x Hof) as Hs.
    rewrite Hx in Hs.
    rewrite ShapeFacts.Decoder_forward_default in Hs.
    destruct (Decoder_forward _ _ self x) as [y|e]; [|discriminate].
    exists y. split; [reflexivity|]. cbn in Hs. congruence.
Qed.

(** *** The definitions at work on small inputs *)

Import Examples.

Example attention_entry :
  (a ← attention_4_2; Ok (entry (Attention_forward (SC:=Q_Scalar) a x_124) [0; 1; 2]))
  = (a ← attention_4_2; Ok (entry (textbook_attention (SC:=Q_Scalar) a x_124) [0; 1; 2])).
Proof. vm_compute. reflexivity. Qed.

Example attention_indivisible :
  is_Ok (Attention_init (SC:=Q_Scalar) 4 3 false
           qkv_weight qkv_bias proj_weight proj_bias) = false.
Proof. reflexivity. Qed.

Example mlp_entry :
  entry (TensorMLP_forward (SC:=Q_Scalar) Q_act mlp_4_2_3 x_2122) [1; 2]
  = entry (SimpleMLP_forward (SC:=Q_Scalar) Q_act (SimpleMLP_of 4 2 3 mlp_4_2_3) x_2122)
      [1; 2].
Proof. vm_compute. reflexivity. Qed.

Example gray_collate_entry :
  (r ← gray_collate_fn (SC:=Q_Scalar) samples; Ok (shape (fst r), get (snd r) [1; 0; 1; 0]))
  = Ok ([2; 1; 2; 2], inject_Z 12).
Proof. vm_compute. reflexivity. Qed.

Example collate_empty :
  is_Ok (gray_collate_fn (SC:=Q_Scalar) []) = false /\
  is_Ok (collate_fn (SC:=Q_Scalar) 2 []) = false.
Proof. split; reflexivity. Qed.

Example collate_entry :
  (r ← collate_fn (SC:=Q_Scalar) 2 samples; Ok (shape (fst r), snd r, get (fst r) [1; 3; 0]))
  = Ok ([2; 4; 1], [3; 7], inject_Z 13).
Proof. vm_compute. reflexivity. Qed.


Example mlp_same_order_example :
  TensorMLP_wf 4 2 3 mlp_4_2_3 /\ shape x_2122 = [2; 1; 2; 2] /\ 1 * 2 * 2 = 4 /\
  exists y1 y2,
    TensorMLP_forward (SC:=Q_Scalar) Q_act mlp_4_2_3 x_2122 = Ok y1 /\
    SimpleMLP_forward (SC:=Q_Scalar) Q_act (SimpleMLP_of 4 2 3 mlp_4_2_3) x_2122 = Ok y2 /\
    shape y1 = [2; 3] /\
    teq y1 y2.
Proof.
  assert (Hwf : TensorMLP_wf 4 2 3 mlp_4_2_3) by (repeat split).
  split; [exact Hwf|]. split; [reflexivity|]. split; [reflexivity|].
  apply (mlp_same_order (SC:=Q_Scalar) Q_act 4 2 3 mlp_4_2_3 x_2122 2 1 2 2 Hwf);
    reflexivity.
Qed.

Lemma mlp_equiv_exact_witness :
  kernel_valid bias_first /\
  TensorMLP_wf 4 2 3 mlp_4_2_3_R /\ shape x_2122_R = [2; 1; 2; 2] /\ 1 * 2 * 2 = 4 /\
  exists y1 y2,
    TensorMLP_forward (SC:=R_Scalar) R_relu mlp_4_2_3_R x_2122_R = Ok y1 /\
    SimpleMLP_forward_with (SC:=R_Scalar) R_relu bias_first
      (SimpleMLP_of 4 2 3 mlp_4_2_3_R) x_2122_R = Ok y2 /\
    shape y1 = [2; 3] /\
    teq y1 y2.
Proof.
  assert (Hwf : TensorMLP_wf 4 2 3 mlp_4_2_3_R) by (repeat split).
  split; [exact bias_first_valid|]. split; [exact Hwf|].
  split; [reflexivity|]. split; [reflexivity|].
  apply (mlp_equiv_exact bias_first R_relu 4 2 3 mlp_4_2_3_R x_2122_R 2 1 2 2
           bias_first_valid Hwf); reflexivity.
Defined.

Lemma collate_functions_spec_witness :
  samples <> [] /\
  Forall (fun sample => shape (fst sample) = [1; 2; 2]) samples /\
  0 < 2 /\ 2 mod 2 = 0 /\
  exists x y,
    collate_fn (SC:=Q_Scalar) 2 samples = Ok (x, y) /\
    shape x = [2; 2 * 2; 1 * (2 / 2) * (2 / 2)] /\
    y = [3; 7].
Proof.
  assert (Hne : samples <> []) by discriminate.
  assert (Hall : Forall (fun sample : tensor Q * Z => shape (fst sample) = [1; 2; 2])
                   samples) by (repeat constructor).
  split; [exact Hne|]. split; [exact Hall|]. split; [lia|]. split; [reflexivity|].
  destruct (collate_functions_spec (SC:=Q_Scalar) samples 1 2 2 Hne Hall) as [_ Hc].
  destruct (Hc 2 ltac:(lia) eq_refl eq_refl) as (x & y & Hxy & Hs & Hy & _).
  exists x, y. split; [exact Hxy|]. split; [exact Hs|]. exact Hy.
Defined.

Lemma Decoder_output_in_unit_interval_witness :
  Decoder_of Shape.Decoder_default (Decoder_const 0%R) /\
  exists y,
    Decoder_forward (SC:=R_Scalar) R_relu R_sigmoid (Decoder_const 0%R)
      (full [1; 256] 1%R) = Ok y /\
    shape y = [1; 3; 32; 32] /\
    (0 < get y [0; 2; 31; 31]%Z < 1)%R.
Proof.
  assert (Hof : Decoder_of Shape.Decoder_default (Decoder_const 0%R))
    by (repeat split).
  split; [exact Hof|].
  destruct (Decoder_output_in_unit_interval (Decoder_const 0%R) (full [1; 256] 1%R))
    as [Hrange Hret].
  destruct (Hret 1 Hof eq_refl) as (y & Hy & Hs).
  exists y. split; [exact Hy|]. split; [exact Hs|]. apply (Hrange y Hy).
Defined.

End ValueFacts.

(** * Facts about the Lightning modules and callbacks *)

Module LightningFacts.

Lemma getattr_union (args defaults : kwargs) (name : string) (d : hval) :
  defaults !! name = Some d ->
  exists v, getattr (save_hyperparameters args defaults) name = Ok v /\
            save_hyperparameters args defaults !! name = Some v /\
            v = default d (args !! name).
Proof.
  intros Hd. unfold getattr, save_hyperparameters.
  destruct (args !! name) as [a|] eqn:Ea.
  - exists a. rewrite (lookup_union_Some_l _ _ _ _ Ea). auto.
  - exists d. rewrite lookup_union_r by assumption. rewrite Hd. auto.
Qed.

Lemma new_Adam_Ok params lr :
  valid_lr lr = true -> new_Adam params lr = Ok (Adam params lr).
Proof. unfold new_Adam. intros E. rewrite E. reflexivity. Qed.

Section WithFramework.
Context {T : Type} `{Framework T}.

Lemma Colorize_init_hparams args (m : Colorize.LitColorizeCIFAR10Model) :
  Colorize.LitColorizeCIFAR10Model_init args = Ok m ->
  Colorize.hparams m = save_hyperparameters args Colorize.defaults.
Proof.
  unfold Colorize.LitColorizeCIFAR10Model_init.
  destruct (py_arg _ _ _) as [v|]; [|discriminate]. cbn [mbind res_bind].
  destruct (as_size v) as [fd|]; [|discriminate]. cbn [mbind res_bind].
  destruct (Shape.Encoder_init _ _ _ _) as [e|]; [|discriminate]. cbn [mbind res_bind].
  destruct (Shape.Decoder_init _ _ _ _ _) as [d|]; [|discriminate]. cbn [mbind res_bind].
  intros E; inversion E; reflexivity.
Qed.

Lemma Transformer_init_hparams args (m : TransformerDemo.LitTransformer) :
  TransformerDemo.LitTransformer_init args = Ok m ->
  TransformerDemo.hparams m = save_hyperparameters args TransformerDemo.defaults.
Proof.
  unfold TransformerDemo.LitTransformer_init.
  repeat (match goal with
          | |- context [mbind _ ?r] =>
              destruct r; [|discriminate]; cbn [mbind res_bind]
          end).
  intros E; inversion E; reflexivity.
Qed.

Lemma Mlp_init_hparams args (m : MlpDemo.LitCIFAR10Model) :
  MlpDemo.LitCIFAR10Model_init args = Ok m ->
  MlpDemo.hparams m = save_hyperparameters args MlpDemo.defaults.
Proof.
  unfold MlpDemo.LitCIFAR10Model_init.
  destruct (decide _); [|discriminate].
  destruct (py_arg _ _ "num_classes") as [nc|]; [|discriminate]. cbn [mbind res_bind].
  destruct (py_arg _ _ "model") as [[| |name]|]; try discriminate. cbn [mbind res_bind].
  intros E; inversion E; reflexivity.
Qed.

(** What [configure_optimizers] computes from the two hyperparameters
    it reads, for any of the three modules. *)
Lemma configure_from_hparams (h : kwargs) (params : list submodule) lr me :
  h !! "lr" = Some lr -> h !! "max_epochs" = Some me -> valid_lr lr = true ->
  (lr ← getattr h "lr";
   optimizer ← new_Adam params lr;
   max_epochs ← getattr h "max_epochs";
   Ok ([optimizer], [CosineAnnealingLR optimizer max_epochs]))
  = Ok ([Adam params lr], [CosineAnnealingLR (Adam params lr) me]).
Proof.
  intros Hlr Hme Hv. unfold getattr. rewrite Hlr, Hme. cbn [mbind res_bind].
  rewrite new_Adam_Ok by assumption. reflexivity.
Qed.

(** C6. In each of the three Lightning modules, however it was
    constructed, [hparams] holds a learning rate [lr] and a [max_epochs]
    (the caller's keyword or else the default), and, for a learning rate
    that Adam accepts, [configure_optimizers] returns one Adam optimizer
    over the module's parameters with that learning rate and one
    cosine-annealing scheduler on that optimizer with [T_max] equal to
    [hparams.max_epochs]. *)
Theorem configure_optimizers_spec :
  (forall args (m : Colorize.LitColorizeCIFAR10Model),
     Colorize.LitColorizeCIFAR10Model_init args = Ok m ->
     exists lr me,
       Colorize.hparams m !! "lr" = Some lr /\
       lr = default (HFloat (1 # 1000)) (args !! "lr") /\
       Colorize.hparams m !! "max_epochs" = Some me /\
       me = default (HInt 30) (args !! "max_epochs") /\
       (valid_lr lr = true ->
        configure_optimizers (T:=T) m
        = Ok ([Adam (Colorize.parameters m) lr],
              [CosineAnnealingLR (Adam (Colorize.parameters m) lr) me]))) /\
  (forall args (m : TransformerDemo.LitTransformer),
     TransformerDemo.LitTransformer_init args = Ok m ->
     exists lr me,
       TransformerDemo.hparams m !! "lr" = Some lr /\
       lr = default (HFloat (1 # 1000)) (args !! "lr") /\
       TransformerDemo.hparams m !! "max_epochs" = Some me /\
       me = default (HInt 30) (args !! "max_epochs") /\
       (valid_lr lr = true ->
        configure_optimizers (T:=T) m
        = Ok ([Adam (TransformerDemo.parameters m) lr],
              [CosineAnnealingLR (Adam (TransformerDemo.parameters m) lr) me]))) /\
  (forall args (m : MlpDemo.LitCIFAR10Model),
     MlpDemo.LitCIFAR10Model_init args = Ok m ->
     exists lr me,
       MlpDemo.hparams m !! "lr" = Some lr /\
       lr = default (HFloat (1 # 1000)) (args !! "lr") /\
       MlpDemo.hparams m !! "max_epochs" = Some me /\
       me = default (HInt 30) (args !! "max_epochs") /\
       (valid_lr lr = true ->
        configure_optimizers (T:=T) m
        = Ok ([Adam (MlpDemo.parameters m) lr],
              [CosineAnnealingLR (Adam (MlpDemo.parameters m) lr) me]))).
Proof.
  split; [|split]; intros args m Hinit.
  - apply Colorize_init_hparams in Hinit.
    destruct (getattr_union args Colorize.defaults "lr" (HFloat (1 # 1000)) eq_refl)
      as (lr & _ & Hlr & Elr).
    destruct (getattr_union args Colorize.defaults "max_epochs" (HInt 30) eq_refl)
      as (me & _ & Hme & Eme).
    rewrite <- Hinit in Hlr, Hme. exists lr, me. repeat (split; [assumption|]).
    intros Hv. apply configure_from_hparams; assumption.
  - apply Transformer_init_hparams in Hinit.
    destruct (getattr_union args TransformerDemo.defaults "lr" (HFloat (1 # 1000)) eq_refl)
      as (lr & _ & Hlr & Elr).
    destruct (getattr_union args TransformerDemo.defaults "max_epochs" (HInt 30) eq_refl)
      as (me & _ & Hme & Eme).
    rewrite <- Hinit in Hlr, Hme. exists lr, me. repeat (split; [assumption|]).
    intros Hv. apply configure_from_hparams; assumption.
  - apply Mlp_init_hparams in Hinit.
    destruct (getattr_union args MlpDemo.defaults "lr" (HFloat (1 # 1000)) eq_refl)
      as (lr & _ & Hlr & Elr).
    destruct (getattr_union args MlpDemo.defaults "max_epochs" (HInt 30) eq_refl)
      as (me & _ & Hme & Eme).
    rewrite <- Hinit in Hlr, Hme. exists lr, me. repeat (split; [assumption|]).
    intros Hv. apply configure_from_hparams; assumption.
Qed.

(** C5, as the code has it. Each of the three Lightning modules gives
    the [training_step], [validation_step] and [configure_optimizers]
    hooks, and on a batch (input, target) [training_step] computes the
    module's loss criterion on the forward output and the target: mean
    squared error for the colorization autoencoder, cross entropy for
    the two classifiers.  LitTransformer returns that loss tensor
    itself; LitColorizeCIFAR10Model and LitCIFAR10Model return it in a
    dict, under the key "loss".  [validation_step] is [test_step]. *)
Theorem training_step_spec :
  (forall (m : Colorize.LitColorizeCIFAR10Model) x_in x batch_idx,
     training_step m (x_in, x) batch_idx
     = Ok (RetDict {[ "loss" :=
             MSELoss (apply_Decoder (Colorize.decoder m)
                        (apply_Encoder (Colorize.encoder m) x_in)) x ]}) /\
     validation_step m (x_in, x) batch_idx = Colorize.test_step m (x_in, x) batch_idx) /\
  (forall (m : TransformerDemo.LitTransformer) x y batch_idx,
     training_step m (x, y) batch_idx
     = Ok (RetTensor
             (CrossEntropyLoss
                (apply_Linear (TransformerDemo.fc m)
                   (flatten_from_1
                      (apply_Transformer (TransformerDemo.encoder m)
                         (apply_Linear (TransformerDemo.embed m) x)))) y)) /\
     validation_step m (x, y) batch_idx = TransformerDemo.test_step m (x, y) batch_idx) /\
  (forall (m : MlpDemo.LitCIFAR10Model) x y batch_idx,
     training_step m (x, y) batch_idx
     = Ok (RetDict {[ "loss" :=
             CrossEntropyLoss (apply_model (MlpDemo.model m) x) y ]}) /\
     validation_step m (x, y) batch_idx = MlpDemo.test_step m (x, y) batch_idx).
Proof. repeat split. Qed.

(** *** The logging callbacks *)

Lemma traverse_Ok {A B} (f : A -> res B) (g : A -> B) (l : list A) :
  Forall (fun a => f a = Ok (g a)) l -> traverse f l = Ok (map g l).
Proof.
  induction 1 as [|a l Ha _ IH]; [reflexivity|].
  cbn [traverse map]. rewrite Ha. cbn [mbind res_bind]. rewrite IH. reflexivity.
Qed.

Lemma Forall_zip3 {A B C} (P : B -> Prop) (Q : C -> Prop)
    (a : list A) (b : list B) (c : list C) :
  Forall P b -> Forall Q c ->
  Forall (fun t => P (snd (fst t)) /\ Q (snd t)) (zip3 a b c).
Proof.
  intros Hb. revert a c. induction Hb as [|y b Hy _ IH]; intros a c Hc.
  - destruct a; constructor.
  - destruct a as [|x a]; [constructor|].
    destruct Hc as [|z c Hz Hc]; [constructor|].
    cbn [zip3]. constructor; [split; assumption | apply IH; assumption].
Qed.

Lemma Forall_py_slice_to {A} (P : A -> Prop) (l : list A) n :
  Forall P l -> Forall P (py_slice_to l n).
Proof. intros Hl. unfold py_slice_to. destruct (n <? 0); apply Forall_take, Hl. Qed.

(** A CIFAR-10 class index names an entry of [label_human]. *)
Lemma label_human_getitem z :
  0 <= z < 10 ->
  py_getitem MlpDemo.label_human z = Ok (nth (Z.to_nat z) MlpDemo.label_human "").
Proof.
  intros Hz.
  assert (Hcases : z = 0 \/ z = 1 \/ z = 2 \/ z = 3 \/ z = 4 \/ z = 5 \/ z = 6
                   \/ z = 7 \/ z = 8 \/ z = 9) by lia.
  repeat (destruct Hcases as [-> | Hcases]; [reflexivity|]). subst z. reflexivity.
Qed.

Lemma Colorize_loop_rest (m : Colorize.LitColorizeCIFAR10Model) batches idx st :
  0 < idx ->
  validation_loop Colorize.WandbCallback_on_validation_batch_end m batches idx st = Ok st.
Proof.
  revert idx. induction batches as [|[x c] rest IH]; intros idx Hidx; [reflexivity|].
  cbn [validation_loop validation_step Colorize.Lit_hooks Colorize.Lit_validation_step
       Colorize.test_step mbind res_bind].
  unfold Colorize.WandbCallback_on_validation_batch_end.
  destruct (Z.eqb_spec idx 0); [lia|]. cbn [mbind res_bind]. apply IH. lia.
Qed.

Lemma Mlp_loop_rest (m : MlpDemo.LitCIFAR10Model) batches idx st :
  0 < idx ->
  validation_loop MlpDemo.WandbCallback_on_validation_batch_end m batches idx st = Ok st.
Proof.
  revert idx. induction batches as [|[x c] rest IH]; intros idx Hidx; [reflexivity|].
  cbn [validation_loop validation_step MlpDemo.Lit_hooks MlpDemo.Lit_validation_step
       MlpDemo.test_step mbind res_bind].
  unfold MlpDemo.WandbCallback_on_validation_batch_end.
  destruct (Z.eqb_spec idx 0); [lia|]. cbn [mbind res_bind]. apply IH. lia.
Qed.

Lemma Colorize_callback_first (m : Colorize.LitColorizeCIFAR10Model)
    outputs x c st bs o cs xs os :
  Colorize.hparams m !! "batch_size" = Some (HInt bs) ->
  output_get outputs "x_tilde" = Ok o ->
  unbind c = Ok cs -> unbind x = Ok xs -> unbind o = Ok os ->
  Colorize.WandbCallback_on_validation_batch_end m outputs (x, c) 0 st
  = Ok (st ++ [mkTable "cifar10-colorize-ae" ["gt color"; "gray"; "colorized"]
                 (map (fun '(c_i, x_i, x_tilde_i) =>
                         [Image c_i; Image x_i; Image x_tilde_i])
                    (zip3 (py_slice_to cs (bs / 4)) (py_slice_to xs (bs / 4))
                          (py_slice_to os (bs / 4))))]).
Proof.
  intros Hbs Ho Hc Hx Hos. unfold Colorize.WandbCallback_on_validation_batch_end, getattr.
  cbn [Z.eqb]. rewrite Hbs. cbn [mbind res_bind floordiv_index Z.eqb].
  rewrite Ho. cbn [mbind res_bind]. rewrite Hc. cbn [mbind res_bind].
  rewrite Hx. cbn [mbind res_bind]. rewrite Hos. cbn [mbind res_bind].
  reflexivity.
Qed.

Lemma Mlp_callback_first (m : MlpDemo.LitCIFAR10Model)
    outputs x y st o xs ys preds :
  output_get outputs "y_hat" = Ok o ->
  unbind x = Ok xs -> to_ints y = Ok ys -> to_ints (argmax_dim1 o) = Ok preds ->
  Forall (fun z => 0 <= z < 10) ys -> Forall (fun z => 0 <= z < 10) preds ->
  MlpDemo.WandbCallback_on_validation_batch_end m outputs (x, y) 0 st
  = Ok (st ++ [mkTable (class_name (MlpDemo.model m))
                 ["image"; "ground truth"; "prediction"]
                 (map (fun '(x_i, y_i, y_pred) =>
                         [Image x_i;
                          Str (nth (Z.to_nat y_i) MlpDemo.label_human "");
                          Str (nth (Z.to_nat y_pred) MlpDemo.label_human "")])
                    (zip3 (py_slice_to xs 10) (py_slice_to ys 10)
                          (py_slice_to preds 10)))]).
Proof.
  intros Ho Hx Hy Hp Hys Hps. unfold MlpDemo.WandbCallback_on_validation_batch_end.
  cbn [Z.eqb]. rewrite Ho. cbn [mbind res_bind]. rewrite Hx. cbn [mbind res_bind].
  rewrite Hy. cbn [mbind res_bind]. rewrite Hp. cbn [mbind res_bind].
  erewrite traverse_Ok; [reflexivity|].
  eapply Forall_impl;
    [apply (Forall_zip3 (fun z => 0 <= z < 10) (fun z => 0 <= z < 10));
     apply Forall_py_slice_to; assumption|].
  intros [[x_i y_i] y_pred] [Hy_i Hy_pred]. cbn [fst snd] in *.
  rewrite !label_human_getitem by assumption. reflexivity.
Qed.

(** C7. Both WandbCallbacks log one table of samples when
    [batch_idx] is 0 (given a batch and outputs of the expected form:
    the needed output key, tensors that can be iterated, an integer
    [batch_size], CIFAR-10 class indices) and, for every other
    [batch_idx], return with the tracking state unchanged.  Hence a
    validation pass over at least one batch adds exactly one table,
    that of its first batch. *)
Theorem wandb_logs_first_batch_only :
  (forall (m : Colorize.LitColorizeCIFAR10Model) outputs batch batch_idx st,
     batch_idx <> 0 ->
     Colorize.WandbCallback_on_validation_batch_end m outputs batch batch_idx st = Ok st) /\
  (forall (m : MlpDemo.LitCIFAR10Model) outputs batch batch_idx st,
     batch_idx <> 0 ->
     MlpDemo.WandbCallback_on_validation_batch_end m outputs batch batch_idx st = Ok st) /\
  (forall (m : Colorize.LitColorizeCIFAR10Model) outputs x c st bs o cs xs os,
     Colorize.hparams m !! "batch_size" = Some (HInt bs) ->
     output_get outputs "x_tilde" = Ok o ->
     unbind c = Ok cs -> unbind x = Ok xs -> unbind o = Ok os ->
     Colorize.WandbCallback_on_validation_batch_end m outputs (x, c) 0 st
     = Ok (st ++ [mkTable "cifar10-colorize-ae" ["gt color"; "gray"; "colorized"]
                    (map (fun '(c_i, x_i, x_tilde_i) =>
                            [Image c_i; Image x_i; Image x_tilde_i])
                       (zip3 (py_slice_to cs (bs / 4)) (py_slice_to xs (bs / 4))
                             (py_slice_to os (bs / 4))))])) /\
  (forall (m : MlpDemo.LitCIFAR10Model) outputs x y st o xs ys preds,
     output_get outputs "y_hat" = Ok o ->
     unbind x = Ok xs -> to_ints y = Ok ys -> to_ints (argmax_dim1 o) = Ok preds ->
     Forall (fun z => 0 <= z < 10) ys -> Forall (fun z => 0 <= z < 10) preds ->
     MlpDemo.WandbCallback_on_validation_batch_end m outputs (x, y) 0 st
     = Ok (st ++ [mkTable (class_name (MlpDemo.model m))
                    ["image"; "ground truth"; "prediction"]
                    (map (fun '(x_i, y_i, y_pred) =>
                            [Image x_i;
                             Str (nth (Z.to_nat y_i) MlpDemo.label_human "");
                             Str (nth (Z.to_nat y_pred) MlpDemo.label_human "")])
                       (zip3 (py_slice_to xs 10) (py_slice_to ys 10)
                             (py_slice_to preds 10)))])) /\
  (forall (m : Colorize.LitColorizeCIFAR10Model) x c rest st bs cs xs os,
     Colorize.hparams m !! "batch_size" = Some (HInt bs) ->
     unbind c = Ok cs -> unbind x = Ok xs ->
     unbind (Colorize.forward m x) = Ok os ->
     exists tbl,
       validation_loop Colorize.WandbCallback_on_validation_batch_end m ((x, c) :: rest) 0 st
       = Ok (st ++ [tbl]) /\
       Colorize.WandbCallback_on_validation_batch_end m
         (RetDict {[ "x_in" := x; "x" := c; "x_tilde" := Colorize.forward m x;
                     "test_loss" := Colorize.loss m (Colorize.forward m x) c ]})
         (x, c) 0 st = Ok (st ++ [tbl])) /\
  (forall (m : MlpDemo.LitCIFAR10Model) x y rest st xs ys preds,
     unbind x = Ok xs -> to_ints y = Ok ys ->
     to_ints (argmax_dim1 (MlpDemo.forward m x)) = Ok preds ->
     Forall (fun z => 0 <= z < 10) ys -> Forall (fun z => 0 <= z < 10) preds ->
     exists tbl,
       validation_loop MlpDemo.WandbCallback_on_validation_batch_end m ((x, y) :: rest) 0 st
       = Ok (st ++ [tbl])).
Proof.
  split; [|split; [|split; [|split; [|split]]]].
  - intros m outputs batch idx st Hidx. unfold Colorize.WandbCallback_on_validation_batch_end.
    destruct (Z.eqb_spec idx 0); [contradiction | reflexivity].
  - intros m outputs batch idx st Hidx. unfold MlpDemo.WandbCallback_on_validation_batch_end.
    destruct (Z.eqb_spec idx 0); [contradiction | reflexivity].
  - exact Colorize_callback_first.
  - exact Mlp_callback_first.
  - intros m x c rest st bs cs xs os Hbs Hc Hx Hos.
    eexists.
    cbn [validation_loop validation_step Colorize.Lit_hooks Colorize.Lit_validation_step
         Colorize.test_step mbind res_bind].
    erewrite (Colorize_callback_first m _ x c st bs _ cs xs os Hbs); try eassumption;
      [|reflexivity].
    cbn [mbind res_bind]. split; [|reflexivity].
    apply Colorize_loop_rest. lia.
  - intros m x y rest st xs ys preds Hx Hy Hp Hys Hps.
    eexists.
    cbn [validation_loop validation_step MlpDemo.Lit_hooks MlpDemo.Lit_validation_step
         MlpDemo.test_step mbind res_bind].
    erewrite (Mlp_callback_first m _ x y st _ xs ys preds); try eassumption;
      [|reflexivity].
    cbn [mbind res_bind]. apply Mlp_loop_rest. lia.
Qed.

End WithFramework.

(** C6 at the call of the transformer notebook's main cell, which
    passes [epochs=] and not [max_epochs=]: the keyword lands in
    [**kwargs] and [T_max] is the default 30. *)
Lemma configure_optimizers_spec_witness :
  let F := sym_Framework (fun _ => 0) in
  let args : kwargs := {[ "lr" := HFloat (1 # 100); "epochs" := HInt 50 ]} in
  exists m : TransformerDemo.LitTransformer,
    TransformerDemo.LitTransformer_init args = Ok m /\
    valid_lr (HFloat (1 # 100)) = true /\
    configure_optimizers (T:=sym) m
    = Ok ([Adam (TransformerDemo.parameters m) (HFloat (1 # 100))],
          [CosineAnnealingLR (Adam (TransformerDemo.parameters m) (HFloat (1 # 100)))
             (HInt 30)]).
Proof.
  intros F args.
  destruct (TransformerDemo.LitTransformer_init args) as [m|e] eqn:Hinit;
    [|vm_compute in Hinit; discriminate].
  exists m. split; [reflexivity|]. split; [reflexivity|].
  destruct (proj1 (proj2 (configure_optimizers_spec (T:=sym))) args m Hinit)
    as (lr & me & _ & Elr & _ & Eme & Hc).
  subst lr me. apply Hc. reflexivity.
Defined.

(** C7 on a symbolic validation pass of two batches of the MLP
    notebook: the pass logs one table, and the callback on batch 1
    leaves the log as it is. *)
Lemma wandb_logs_first_batch_only_witness :
  let F := sym_Framework (fun _ => 3) in
  let x := SBatch [SVar "img0"; SVar "img1"] in
  let y := SLabels [5; 3] in
  let x' := SBatch [SVar "img2"] in
  let y' := SLabels [7] in
  exists m : MlpDemo.LitCIFAR10Model,
    MlpDemo.LitCIFAR10Model_init ∅ = Ok m /\
    unbind x = Ok [SVar "img0"; SVar "img1"] /\
    to_ints y = Ok [5; 3] /\
    to_ints (argmax_dim1 (MlpDemo.forward m x)) = Ok [3; 3] /\
    Forall (fun z => 0 <= z < 10) [5; 3] /\
    Forall (fun z => 0 <= z < 10) [3; 3] /\
    (exists tbl,
       validation_loop MlpDemo.WandbCallback_on_validation_batch_end m [(x, y); (x', y')] 0 []
       = Ok ([] ++ [tbl])) /\
    1 <> 0 /\
    MlpDemo.WandbCallback_on_validation_batch_end m (RetTensor x') (x', y') 1 [] = Ok [].
Proof.
  intros F x y x' y'.
  destruct (MlpDemo.LitCIFAR10Model_init ∅) as [m|e] eqn:Hinit;
    [|vm_compute in Hinit; discriminate].
  exists m.
  assert (Hys : Forall (fun z => 0 <= z < 10) [5; 3]) by (repeat constructor; lia).
  assert (Hps : Forall (fun z => 0 <= z < 10) [3; 3]) by (repeat constructor; lia).
  destruct (wandb_logs_first_batch_only (T:=sym)) as (_ & Hskip & _ & _ & _ & Hloop).
  split; [reflexivity|]. split; [reflexivity|]. split; [reflexivity|].
  split; [reflexivity|]. split; [exact Hys|]. split; [exact Hps|].
  split; [|split; [lia|]].
  - apply (Hloop m x y [(x', y')] [] [SVar "img0"; SVar "img1"] [5; 3] [3; 3]);
      try reflexivity; assumption.
  - apply Hskip. lia.
Defined.

(** C5, as stated, fails for the autoencoder: its [training_step]
    returns a dict holding the loss, not the loss tensor. *)
Lemma training_step_returns_dict :
  let F := sym_Framework (fun _ => 0) in
  exists m : Colorize.LitColorizeCIFAR10Model,
    Colorize.LitColorizeCIFAR10Model_init ∅ = Ok m /\
    training_step m (SVar "x_in", SVar "x") 0
    = Ok (RetDict {[ "loss" :=
            SApp "MSELoss" [SApp "Decoder" [SApp "Encoder" [SVar "x_in"]]; SVar "x"] ]}) /\
    training_step m (SVar "x_in", SVar "x") 0
    <> Ok (RetTensor (Colorize.loss m (Colorize.forward m (SVar "x_in")) (SVar "x"))).
Proof.
  intros F.
  destruct (Colorize.LitColorizeCIFAR10Model_init ∅) as [m|e] eqn:Hinit;
    [|vm_compute in Hinit; discriminate].
  exists m. split; [reflexivity|]. split; [reflexivity|]. discriminate.
Qed.

End LightningFacts.

(** * Further facts: edge cases, errors and composition *)

Module MoreShapeFacts.
Import Shape ShapeFacts.

(** *** Attention on inputs it was not built for *)

Lemma Linear_forward_mismatch l B N C :
  C <> in_features l -> Linear_forward l [B; N; C] = Raise TorchError.
Proof.
  intros Hne. unfold Linear_forward. cbn [rev app].
  destruct (Z.eqb_spec C (in_features l)); [contradiction | reflexivity].
Qed.

(** X1. A constructed Attention with a positive number of heads takes
    exactly the rank-3 inputs whose last axis is [dim]: on (B, N, dim)
    it returns shape (B, N, dim); on (B, N, C) with C <> dim the qkv
    layer rejects the input (a framework error); on an input of any
    other rank the unpacking [B, N, C = x.shape] raises ValueError. *)
Theorem Attention_forward_accepts dim nh qkv_bias a B N C :
  Attention_init dim nh qkv_bias = Ok a -> 0 < nh -> 0 <= B -> 0 <= N ->
  (C = dim -> Attention_forward a [B; N; C] = Ok [B; N; dim]) /\
  (C <> dim -> Attention_forward a [B; N; C] = Raise TorchError) /\
  (forall x, length x <> 3%nat -> Attention_forward a x = Raise ValueError).
Proof.
  intros Hi Hnh HB HN. split; [|split].
  - intros ->. eapply Attention_forward_shape; eauto.
  - intros Hne. apply Attention_init_inv in Hi as (_ & _ & _ & _ & ->).
    unfold Attention_forward. cbn [qkv].
    rewrite Linear_forward_mismatch by (cbn; assumption). reflexivity.
  - intros x Hx. destruct x as [|? [|? [|? [|? ?]]]]; try reflexivity.
    cbn in Hx. lia.
Qed.

Lemma Attention_forward_accepts_witness :
  exists a,
    Attention_init 64 4 false = Ok a /\ 0 < 4 /\ 0 <= 2 /\ 0 <= 16 /\
    Attention_forward a [2; 16; 64] = Ok [2; 16; 64] /\
    Attention_forward a [2; 16; 48] = Raise TorchError /\
    Attention_forward a [16; 64] = Raise ValueError.
Proof.
  eexists. split; [reflexivity|]. repeat (split; [lia|]).
  destruct (Attention_forward_accepts 64 4 false _ 2 16 64 eq_refl
              ltac:(lia) ltac:(lia) ltac:(lia)) as (Hok & _ & Hrank).
  destruct (Attention_forward_accepts 64 4 false _ 2 16 48 eq_refl
              ltac:(lia) ltac:(lia) ltac:(lia)) as (_ & Hbad & _).
  split; [apply Hok; reflexivity|]. split; [apply Hbad; lia|].
  apply Hrank. cbn. lia.
Defined.

Lemma nonneg_neg_head B N nh D : nh < 0 -> nonneg [B; N; 3; nh; D] = false.
Proof.
  intros Hnh. unfold nonneg. cbn [forallb].
  destruct (Z.leb_spec 0 nh); [lia|]. rewrite !andb_false_r. reflexivity.
Qed.

(** X2. The constructor's assertion lets a negative [num_heads] through
    when it divides [dim] (Attention(8, -2) is built), but such a module
    is unusable: its forward pass fails on every input, since the
    reshape to (B, N, 3, num_heads, C // num_heads) asks for a negative
    extent. *)
Theorem Attention_negative_heads dim nh qkv_bias a :
  Attention_init dim nh qkv_bias = Ok a -> nh < 0 ->
  forall x, is_Ok (Attention_forward a x) = false.
Proof.
  intros Hi Hnh x. apply Attention_init_inv in Hi as (Hnz & _ & _ & _ & ->).
  unfold Attention_forward. cbn [qkv num_heads].
  destruct x as [|B [|N [|C [|? ?]]]]; try reflexivity.
  destruct (Linear_forward _ _) as [y|]; [|reflexivity]. cbn [mbind res_bind].
  destruct (Z.eqb_spec nh 0); [reflexivity|].
  unfold reshape. rewrite nonneg_neg_head by assumption. reflexivity.
Qed.

Lemma Attention_negative_heads_witness :
  exists a, Attention_init 8 (-2) false = Ok a /\ -2 < 0 /\
            is_Ok (Attention_forward a [1; 4; 8]) = false.
Proof.
  eexists. split; [reflexivity|]. split; [lia|].
  apply (Attention_negative_heads 8 (-2) false); [reflexivity | lia].
Defined.

(** *** Transformer and Block *)

(** X3. The blocks are built by a comprehension over
    [range(num_blocks)]: with [num_blocks <= 0] no Block is constructed,
    so the Transformer is built whatever [dim] and [num_heads] are (even
    an indivisible pair) and its forward pass returns its input; with
    [num_blocks >= 1] the constructor raises what Block's does. *)
Theorem Transformer_depth_edge dim nh nb mlp_ratio qkv_bias :
  (nb <= 0 ->
     Transformer_init dim nh nb mlp_ratio qkv_bias = Ok (mkTransformer []) /\
     forall x, Transformer_forward (mkTransformer []) x = Ok x) /\
  (forall e, 0 < nb -> Block_init dim nh mlp_ratio qkv_bias = Raise e ->
     Transformer_init dim nh nb mlp_ratio qkv_bias = Raise e).
Proof.
  split.
  - intros Hnb. unfold Transformer_init.
    replace (Z.to_nat nb) with O by lia. split; reflexivity.
  - intros e Hnb He. unfold Transformer_init.
    destruct (Z.to_nat nb) as [|n] eqn:En; [lia|].
    cbn [replicateM]. rewrite He. reflexivity.
Qed.

Lemma Transformer_depth_edge_witness :
  0 <= 0 /\ 0 < 1 /\
  Transformer_init 10 3 0 (4 # 1) false = Ok (mkTransformer []) /\
  Transformer_init 10 3 1 (4 # 1) false
  = Raise (AssertionError "dim should be divisible by num_heads").
Proof.
  split; [lia|]. split; [lia|]. split.
  - apply (proj1 (Transformer_depth_edge 10 3 0 (4 # 1) false)). lia.
  - apply (proj2 (Transformer_depth_edge 10 3 1 (4 # 1) false)); [lia | reflexivity].
Defined.

(** X4. The hidden width of a Block's MLP is [int(dim * mlp_ratio)],
    except that a product truncating to 0 falls back to [dim]
    ([hidden_features or in_features]): the hidden layer of a
    constructed Block is never empty, and the MLP maps width [dim]
    back to width [dim].  [mlp_ratio] is a Python float and the product
    is rounded to binary64 before it is truncated; the statement is for
    the ratios on which that rounding does nothing: a binary fraction
    a / 2^e (e <= 1074) with dim, a and dim * a below 2^53 in
    magnitude, as the default 4.0 is for every usable [dim].  For other
    ratios (0.29, 1/3) the rounded product can truncate to a different
    integer than the exact one. *)
Theorem Block_hidden_width dim nh a e qkv_bias blk :
  0 <= e <= 1074 ->
  Z.abs dim < 2 ^ 53 -> Z.abs a < 2 ^ 53 -> Z.abs (dim * a) < 2 ^ 53 ->
  let mlp_ratio := a # Z.to_pos (2 ^ e) in
  Block_init dim nh mlp_ratio qkv_bias = Ok blk ->
  let h := Z.quot (dim * a) (2 ^ e) in
  py_int (inject_Z dim * mlp_ratio) = h /\
  in_features (fc1 (mlp blk)) = dim /\
  out_features (fc1 (mlp blk)) = (if h =? 0 then dim else h) /\
  in_features (fc2 (mlp blk)) = out_features (fc1 (mlp blk)) /\
  out_features (fc2 (mlp blk)) = dim /\
  0 < out_features (fc1 (mlp blk)).
Proof.
  intros He _ _ _ mlp_ratio Hb h.
  assert (Hh : py_int (inject_Z dim * mlp_ratio) = h).
  { unfold py_int, mlp_ratio, h. cbn [Qnum Qden Qmult inject_Z].
    rewrite Pos.mul_1_l, Z2Pos.id by (apply Z.pow_pos_nonneg; lia).
    reflexivity. }
  split; [exact Hh|].
  apply Block_init_inv in Hb as (at0 & m & Ha & Hm & ->).
  apply Attention_init_inv in Ha as (Hnh & Hmod & Hd & Hdim & _).
  assert (dim <> 0) by (intros ->; apply Hd; apply Z.div_0_l; assumption).
  unfold Mlp_init in Hm. cbn [py_or] in Hm. rewrite Hh in Hm.
  destruct (nn_Linear dim _ true) as [l1|] eqn:E1; [|discriminate].
  cbn [mbind res_bind] in Hm.
  destruct (nn_Linear _ dim true) as [l2|] eqn:E2; [|discriminate].
  cbn [mbind res_bind] in Hm. injection Hm as <-.
  apply nn_Linear_inv in E1 as (-> & _ & Hpos).
  apply nn_Linear_inv in E2 as (-> & _ & _).
  cbn [mlp fc1 fc2 in_features out_features]. repeat split.
  destruct (Z.eqb_spec h 0); lia.
Qed.

Lemma Block_hidden_width_witness :
  exists blk, Block_init 64 4 (1 # 128) false = Ok blk /\
              py_int (inject_Z 64 * (1 # 128)) = 0 /\
              out_features (fc1 (mlp blk)) = 64.
Proof.
  destruct (Block_init 64 4 (1 # 128) false) as [blk|] eqn:Hb;
    [|vm_compute in Hb; discriminate].
  exists blk. split; [reflexivity|].
  assert (He : 0 <= 7 <= 1074) by lia.
  assert (H1 : Z.abs 64 < 2 ^ 53) by reflexivity.
  assert (H2 : Z.abs 1 < 2 ^ 53) by reflexivity.
  assert (H3 : Z.abs (64 * 1) < 2 ^ 53) by reflexivity.
  destruct (Block_hidden_width 64 4 1 7 false blk He H1 H2 H3 Hb)
    as (Hh & _ & Ho & _).
  split; [exact Hh | exact Ho].
Defined.

(** *** Encoder and Decoder beyond the defaults *)

Lemma nn_Conv2d_inv i o k s p c :
  nn_Conv2d i o k s p = Ok c ->
  c = mkConv2d i o k s p /\ 0 <= i /\ 0 <= o /\ 0 <= k /\ 0 < s /\ 0 <= p.
Proof.
  unfold nn_Conv2d.
  destruct (Z.leb_spec 0 i), (Z.leb_spec 0 o), (Z.leb_spec 0 k),
    (Z.ltb_spec 0 s), (Z.leb_spec 0 p); cbn [andb]; intros E; inversion E.
  repeat split; lia.
Qed.

Lemma Encoder_init_inv f k n d e :
  Encoder_init f k n d = Ok e ->
  e = mkEncoder (mkConv2d f n k 2 0) (mkConv2d n (n * 2) k 2 0)
        (mkConv2d (n * 2) (n * 4) k 2 0) (mkLinear 2304 d true)
  /\ 0 <= f /\ 0 <= n /\ 0 <= k /\ 0 <= d.
Proof.
  unfold Encoder_init.
  destruct (nn_Conv2d f n k 2 0) as [c1|] eqn:E1; [|discriminate].
  destruct (nn_Conv2d n (n * 2) k 2 0) as [c2|] eqn:E2; [|discriminate].
  destruct (nn_Conv2d (n * 2) (n * 4) k 2 0) as [c3|] eqn:E3; [|discriminate].
  destruct (nn_Linear 2304 d true) as [l|] eqn:E4; [|discriminate].
  cbn [mbind res_bind]. intros E; inversion E; subst e.
  apply nn_Conv2d_inv in E1 as (-> & ? & ? & ? & _).
  apply nn_Conv2d_inv in E2 as (-> & _).
  apply nn_Conv2d_inv in E3 as (-> & _).
  apply nn_Linear_inv in E4 as (-> & _ & ?). auto.
Qed.

Lemma Encoder_filters_64 n_filters feature_dim e B :
  Encoder_init 1 3 n_filters feature_dim = Ok e ->
  (n_filters = 64 -> Encoder_forward e [B; 1; 32; 32] = Ok [B; feature_dim]) /\
  (n_filters <> 64 -> Encoder_forward e [B; 1; 32; 32] = Raise TorchError).
Proof.
  intros Hi. apply Encoder_init_inv in Hi as (-> & _ & Hn & _ & _).
  unfold Encoder_forward, activation. cbn [e_conv1 e_conv2 e_conv3 e_fc1].
  change (Conv2d_forward (mkConv2d 1 n_filters 3 2 0) [B; 1; 32; 32])
    with (Ok (A:=shape) [B; n_filters; 15; 15]).
  cbn [mbind res_bind].
  assert (H2 : Conv2d_forward (mkConv2d n_filters (n_filters * 2) 3 2 0)
                 [B; n_filters; 15; 15] = Ok [B; n_filters * 2; 7; 7]).
  { unfold Conv2d_forward. cbn [c_in c_kernel c_padding c_out].
    rewrite Z.eqb_refl. reflexivity. }
  rewrite H2. cbn [mbind res_bind].
  assert (H3 : Conv2d_forward (mkConv2d (n_filters * 2) (n_filters * 4) 3 2 0)
                 [B; n_filters * 2; 7; 7] = Ok [B; n_filters * 4; 3; 3]).
  { unfold Conv2d_forward. cbn [c_in c_kernel c_padding c_out].
    rewrite Z.eqb_refl. reflexivity. }
  rewrite H3. cbn [mbind res_bind rearrange_flatten].
  unfold Linear_forward. cbn [rev app in_features out_features].
  split; intros Hf.
  - subst n_filters. reflexivity.
  - destruct (Z.eqb_spec (n_filters * 4 * 3 * 3) 2304); [lia | reflexivity].
Qed.

Lemma Conv2d_forward_k3s2 ci co B h :
  Conv2d_forward (mkConv2d ci co 3 2 0) [B; ci; h; h]
  = if 3 <=? h then Ok [B; co; (h - 3) / 2 + 1; (h - 3) / 2 + 1]
    else Raise TorchError.
Proof.
  unfold Conv2d_forward, conv_out. cbn [c_in c_kernel c_padding c_out c_stride].
  rewrite Z.eqb_refl. replace (h + 2 * 0) with h by ring.
  destruct (3 <=? h); reflexivity.
Qed.

Lemma Encoder_default_forward B H :
  Encoder_forward Encoder_default [B; 1; H; H]
  = if (31 <=? H) && (H <=? 38) then Ok [B; 256] else Raise TorchError.
Proof.
  unfold Encoder_forward, activation, Encoder_default.
  cbn [e_conv1 e_conv2 e_conv3 e_fc1].
  rewrite Conv2d_forward_k3s2.
  destruct (Z.leb_spec 3 H) as [H3|H3]; cbn [mbind res_bind].
  2:{ destruct (Z.leb_spec 31 H); [lia | reflexivity]. }
  set (h1 := (H - 3) / 2 + 1). assert (Hh1 : 2 * h1 <= H - 1 < 2 * h1 + 2).
  { subst h1. pose proof (Z.div_mod (H - 3) 2 ltac:(lia)).
    pose proof (Z.mod_pos_bound (H - 3) 2 ltac:(lia)). lia. }
  clearbody h1. rewrite Conv2d_forward_k3s2.
  destruct (Z.leb_spec 3 h1) as [H31|H31]; cbn [mbind res_bind].
  2:{ destruct (Z.leb_spec 31 H); [lia | reflexivity]. }
  set (h2 := (h1 - 3) / 2 + 1). assert (Hh2 : 2 * h2 <= h1 - 1 < 2 * h2 + 2).
  { subst h2. pose proof (Z.div_mod (h1 - 3) 2 ltac:(lia)).
    pose proof (Z.mod_pos_bound (h1 - 3) 2 ltac:(lia)). lia. }
  clearbody h2. rewrite Conv2d_forward_k3s2.
  destruct (Z.leb_spec 3 h2) as [H32|H32]; cbn [mbind res_bind].
  2:{ destruct (Z.leb_spec 31 H); [lia | reflexivity]. }
  set (h3 := (h2 - 3) / 2 + 1). assert (Hh3 : 2 * h3 <= h2 - 1 < 2 * h3 + 2).
  { subst h3. pose proof (Z.div_mod (h2 - 3) 2 ltac:(lia)).
    pose proof (Z.mod_pos_bound (h2 - 3) 2 ltac:(lia)). lia. }
  clearbody h3.
  cbn [rearrange_flatten mbind res_bind]. unfold Linear_forward.
  cbn [rev app in_features out_features].
  destruct (Z.eqb_spec (256 * h3 * h3) 2304) as [E|E].
  - assert (h3 = 3) by nia.
    destruct (Z.leb_spec 31 H), (Z.leb_spec H 38); try lia. reflexivity.
  - assert (h3 <> 3) by (intros ->; apply E; reflexivity).
    destruct (Z.leb_spec 31 H), (Z.leb_spec H 38); try lia; reflexivity.
Qed.

(** X5. The encoder's linear layer has the hard-coded input width 2304
    = 256 * 3 * 3.  So, with the default kernel size, an encoder built
    with [n_filters] filters takes a 32 x 32 image exactly when
    [n_filters] is 64, and the default encoder takes a square image of
    side H exactly when 31 <= H <= 38; otherwise the linear layer (or a
    convolution, on a too small image) rejects its input. *)
Theorem Encoder_hard_coded_width :
  (forall n_filters feature_dim e B,
     Encoder_init 1 3 n_filters feature_dim = Ok e ->
     (n_filters = 64 -> Encoder_forward e [B; 1; 32; 32] = Ok [B; feature_dim]) /\
     (n_filters <> 64 -> Encoder_forward e [B; 1; 32; 32] = Raise TorchError)) /\
  (forall B H,
     Encoder_forward Encoder_default [B; 1; H; H]
     = if (31 <=? H) && (H <=? 38) then Ok [B; 256] else Raise TorchError).
Proof. split; [exact Encoder_filters_64 | exact Encoder_default_forward]. Qed.

Lemma Encoder_hard_coded_width_witness :
  exists e, Encoder_init 1 3 32 256 = Ok e /\
            Encoder_forward e [5; 1; 32; 32] = Raise TorchError.
Proof.
  eexists. split; [reflexivity|].
  apply (proj1 Encoder_hard_coded_width 32 256 _ 5 eq_refl). lia.
Defined.

Lemma Decoder_init_inv k n fd s c d :
  Decoder_init k n fd s c = Ok d ->
  d = mkDecoder (s / 2 ^ 2)
        (mkLinear fd ((s / 2 ^ 2) ^ 2 * n) true)
        (mkConv2d n (n / 2) k 2 1) (mkConv2d (n / 2) (n / 4) k 2 1)
        (mkConv2d (n / 4) (n / 4) k 1 1) (mkConv2d (n / 4) c (k + 1) 1 0).
Proof.
  unfold Decoder_init.
  destruct (nn_Linear _ _ true) as [l|] eqn:E0; [|discriminate].
  destruct (nn_Conv2d n _ k 2 1) as [c1|] eqn:E1; [|discriminate].
  destruct (nn_Conv2d (n / 2) _ k 2 1) as [c2|] eqn:E2; [|discriminate].
  destruct (nn_Conv2d (n / 4) (n / 4) k 1 1) as [c3|] eqn:E3; [|discriminate].
  destruct (nn_Conv2d (n / 4) c (k + 1) 1 0) as [c4|] eqn:E4; [|discriminate].
  cbn [mbind res_bind]. intros E; inversion E; subst d.
  apply nn_Linear_inv in E0 as (-> & _).
  apply nn_Conv2d_inv in E1 as (-> & _). apply nn_Conv2d_inv in E2 as (-> & _).
  apply nn_Conv2d_inv in E3 as (-> & _). apply nn_Conv2d_inv in E4 as (-> & _).
  reflexivity.
Qed.

Lemma ConvTranspose2d_forward_Ok ci co k st p B h :
  0 < ci -> 0 < co -> 0 < k ->
  0 < (h - 1) * st - 2 * p + (k - 1) + 1 ->
  ConvTranspose2d_forward (mkConv2d ci co k st p) [B; ci; h; h]
  = Ok [B; co; (h - 1) * st - 2 * p + (k - 1) + 1;
        (h - 1) * st - 2 * p + (k - 1) + 1].
Proof.
  intros Hci Hco Hk Hpos. unfold ConvTranspose2d_forward, convT_out.
  cbn [c_in c_out c_kernel c_stride c_padding]. rewrite Z.eqb_refl.
  destruct (Z.ltb_spec 0 ci); [|lia]. destruct (Z.ltb_spec 0 co); [|lia].
  destruct (Z.ltb_spec 0 k); [|lia].
  destruct (Z.ltb_spec 0 ((h - 1) * st - 2 * p + (k - 1) + 1)); [reflexivity | lia].
Qed.

Lemma Decoder_forward_side k n fd s c d B :
  Decoder_init k n fd s c = Ok d -> 4 <= s -> 3 <= k -> 4 <= n -> 0 < c ->
  Decoder_forward d [B; fd]
  = Ok [B; c; 4 * (s / 4) + 5 * k - 15; 4 * (s / 4) + 5 * k - 15].
Proof.
  intros Hi Hs Hk Hn Hc. apply Decoder_init_inv in Hi as ->.
  change (2 ^ 2) with 4.
  assert (Hinit : 1 <= s / 4) by (apply Z.div_le_lower_bound; lia).
  assert (Hn2 : 2 <= n / 2) by (apply Z.div_le_lower_bound; lia).
  assert (Hn4 : 1 <= n / 4) by (apply Z.div_le_lower_bound; lia).
  set (i := s / 4) in *. clearbody i.
  set (n2 := n / 2) in *. clearbody n2. set (n4 := n / 4) in *. clearbody n4.
  unfold Decoder_forward. cbn [d_fc1 init_size d_conv1 d_conv2 d_conv3 d_conv4].
  unfold Linear_forward. cbn [rev app in_features out_features].
  rewrite Z.eqb_refl. cbn [mbind res_bind].
  unfold rearrange_unflatten. rewrite Z.eqb_refl.
  rewrite Z.pow_2_r.
  destruct (Z.ltb_spec 0 (i * i)); [|nia].
  rewrite Z.mul_comm, Z.mod_mul by lia. cbn [Z.eqb andb mbind res_bind].
  rewrite Z.div_mul by lia.
  rewrite ConvTranspose2d_forward_Ok by lia. cbn [mbind res_bind activation].
  rewrite ConvTranspose2d_forward_Ok by lia. cbn [mbind res_bind].
  rewrite ConvTranspose2d_forward_Ok by lia. cbn [mbind res_bind].
  rewrite ConvTranspose2d_forward_Ok by lia. cbn [mbind res_bind].
  do 4 f_equal; [lia | f_equal; lia].
Qed.

(** X6. A decoder built with kernel size k >= 3, output size s >= 4,
    at least 4 filters (so that no layer is left without channels) and
    at least one output channel maps a latent batch (B, feature_dim) to
    an image batch (B, output_channels, side, side) with
    side = 4 * (s // 4) + 5 k - 15.  With the default kernel size 3 the
    side is 4 * (s // 4): the decoder produces the requested
    [output_size] exactly when it is a multiple of 4. *)
Theorem Decoder_output_side k n fd s c d B :
  Decoder_init k n fd s c = Ok d -> 4 <= s -> 3 <= k -> 4 <= n -> 0 < c ->
  let side := 4 * (s / 4) + 5 * k - 15 in
  Decoder_forward d [B; fd] = Ok [B; c; side; side] /\
  (k = 3 -> (side = s <-> s mod 4 = 0)).
Proof.
  intros Hi Hs Hk Hn Hc side. split.
  - eapply Decoder_forward_side; eassumption.
  - intros ->. subst side. pose proof (Z.div_mod s 4 ltac:(lia)). lia.
Qed.

Lemma Decoder_output_side_witness :
  exists d, Decoder_init 3 256 256 30 3 = Ok d /\ 4 <= 30 /\ 3 <= 3 /\
            4 <= 256 /\ 0 < 3 /\
            Decoder_forward d [7; 256] = Ok [7; 3; 28; 28].
Proof.
  eexists. split; [reflexivity|]. split; [lia|]. split; [lia|].
  split; [lia|]. split; [lia|].
  apply (Decoder_output_side 3 256 256 30 3 _ 7 eq_refl); lia.
Defined.

End MoreShapeFacts.

(** * Facts about the whole models and the main cells *)

Module ModelFacts.
Import Shape ShapeFacts MoreShapeFacts Models LightningFacts.

Lemma py_arg_lookup (args defaults : kwargs) k v :
  py_arg args defaults k = Ok v -> save_hyperparameters args defaults !! k = Some v.
Proof.
  unfold py_arg, save_hyperparameters.
  destruct ((args ∪ defaults) !! k); intros E; inversion E; reflexivity.
Qed.

Lemma as_size_inv v z : as_size v = Ok z -> v = HInt z.
Proof. destruct v; cbn; intros E; inversion E; reflexivity. Qed.

Lemma py_arg_size (args defaults : kwargs) k {A} (f : Z -> res A) r :
  (v ← py_arg args defaults k; z ← as_size v; f z) = Ok r ->
  exists z, save_hyperparameters args defaults !! k = Some (HInt z) /\ f z = Ok r.
Proof.
  destruct (py_arg args defaults k) as [v|] eqn:Ev; [|discriminate].
  cbn [mbind res_bind].
  destruct (as_size v) as [z|] eqn:Ez; [|discriminate]. cbn [mbind res_bind].
  intros Hf. exists z. apply as_size_inv in Ez as ->.
  split; [apply py_arg_lookup; exact Ev | exact Hf].
Qed.

Lemma Colorize_init_inv args (m : Colorize.LitColorizeCIFAR10Model) :
  Colorize.LitColorizeCIFAR10Model_init args = Ok m ->
  exists fd e d,
    Colorize.hparams m !! "feature_dim" = Some (HInt fd) /\
    Encoder_init 1 3 64 fd = Ok e /\ Decoder_init 3 256 fd 32 3 = Ok d /\
    m = Colorize.mkLit (save_hyperparameters args Colorize.defaults) e d.
Proof.
  unfold Colorize.LitColorizeCIFAR10Model_init. intros Hi.
  apply py_arg_size in Hi as (fd & Hfd & Hi).
  destruct (Encoder_init _ _ _ _) as [e|] eqn:Ee; [|discriminate].
  cbn [mbind res_bind] in Hi.
  destruct (Decoder_init _ _ _ _ _) as [d|] eqn:Ed; [|discriminate].
  cbn [mbind res_bind] in Hi. inversion Hi; subst m. exists fd, e, d.
  cbn [Colorize.hparams]. auto.
Qed.

(** X7. [LitColorizeCIFAR10Model.forward], for a model built with any
    latent width [feature_dim]: a batch (B, 1, 32, 32) of gray images
    is encoded to (B, feature_dim) and decoded to (B, 3, 32, 32), the
    shape of the colour batch the loss compares it with. *)
Theorem LitColorize_forward_shape args (m : Colorize.LitColorizeCIFAR10Model) B :
  Colorize.LitColorizeCIFAR10Model_init args = Ok m ->
  exists fd,
    Colorize.hparams m !! "feature_dim" = Some (HInt fd) /\
    Encoder_forward (Colorize.encoder m) [B; 1; 32; 32] = Ok [B; fd] /\
    Decoder_forward (Colorize.decoder m) [B; fd] = Ok [B; 3; 32; 32] /\
    LitColorize_forward m [B; 1; 32; 32] = Ok [B; 3; 32; 32].
Proof.
  intros Hi. apply Colorize_init_inv in Hi as (fd & e & d & Hfd & He & Hd & ->).
  exists fd. split; [exact Hfd|].
  assert (Henc : Encoder_forward e [B; 1; 32; 32] = Ok [B; fd]).
  { apply (proj1 (Encoder_filters_64 64 fd e B He)). reflexivity. }
  assert (Hdec : Decoder_forward d [B; fd] = Ok [B; 3; 32; 32]).
  { rewrite (Decoder_forward_side 3 256 fd 32 3 d B Hd) by lia. reflexivity. }
  split; [exact Henc|]. split; [exact Hdec|].
  unfold LitColorize_forward. cbn [Colorize.encoder Colorize.decoder].
  rewrite Henc. cbn [mbind res_bind]. rewrite Hdec. reflexivity.
Qed.

Lemma LitColorize_forward_shape_witness :
  exists (m : Colorize.LitColorizeCIFAR10Model),
    Colorize.LitColorizeCIFAR10Model_init {[ "feature_dim" := HInt 16 ]} = Ok m /\
    LitColorize_forward m [4; 1; 32; 32] = Ok [4; 3; 32; 32].
Proof.
  destruct (Colorize.LitColorizeCIFAR10Model_init {[ "feature_dim" := HInt 16 ]})
    as [m|err] eqn:Hi; [|vm_compute in Hi; discriminate].
  exists m. split; [reflexivity|].
  destruct (LitColorize_forward_shape _ m 4 Hi) as (fd & _ & _ & _ & Hf).
  exact Hf.
Defined.

Lemma LitTransformer_init_inv args (m : TransformerDemo.LitTransformer) :
  TransformerDemo.LitTransformer_init args = Ok m ->
  exists e h depth p s c enc,
    let hp := save_hyperparameters args TransformerDemo.defaults in
    hp !! "embed_dim" = Some (HInt e) /\ hp !! "head" = Some (HInt h) /\
    hp !! "depth" = Some (HInt depth) /\ hp !! "patch_dim" = Some (HInt p) /\
    hp !! "seqlen" = Some (HInt s) /\ hp !! "num_classes" = Some (HInt c) /\
    Transformer_init e h depth (4 # 1) false = Ok enc /\
    0 <= p /\ 0 <= e /\ 0 <= s * e /\ 0 <= c /\
    m = TransformerDemo.mkLit hp enc (mkLinear p e true) (mkLinear (s * e) c true).
Proof.
  unfold TransformerDemo.LitTransformer_init. intros Hi.
  apply py_arg_size in Hi as (e & He & Hi).
  apply py_arg_size in Hi as (h & Hh & Hi).
  apply py_arg_size in Hi as (depth & Hd & Hi).
  destruct (Transformer_init e h depth (4 # 1) false) as [enc|] eqn:Eenc; [|discriminate].
  cbn [mbind res_bind] in Hi.
  apply py_arg_size in Hi as (p & Hp & Hi).
  destruct (nn_Linear p e true) as [em|] eqn:Eem; [|discriminate].
  cbn [mbind res_bind] in Hi.
  apply py_arg_size in Hi as (s & Hs & Hi).
  apply py_arg_size in Hi as (c & Hc & Hi).
  destruct (nn_Linear (s * e) c true) as [fc|] eqn:Efc; [|discriminate].
  cbn [mbind res_bind] in Hi. inversion Hi; subst m.
  apply nn_Linear_inv in Eem as (-> & ? & ?).
  apply nn_Linear_inv in Efc as (-> & ? & ?).
  exists e, h, depth, p, s, c, enc. cbn zeta. repeat (split; [assumption|]). reflexivity.
Qed.


Lemma flatten_from_1_3 B N e : flatten_from_1 [B; N; e] = Ok [B; N * e].
Proof. unfold flatten_from_1, numel. cbn [fold_right]. do 3 f_equal. ring. Qed.

Lemma Linear_forward_2 l B C :
  Linear_forward l [B; C]
  = if C =? in_features l then Ok [B; out_features l] else Raise TorchError.
Proof. reflexivity. Qed.

Lemma LitTransformer_forward_eq args (m : TransformerDemo.LitTransformer) e h s p c B N :
  TransformerDemo.LitTransformer_init args = Ok m ->
  TransformerDemo.hparams m !! "embed_dim" = Some (HInt e) ->
  TransformerDemo.hparams m !! "head" = Some (HInt h) ->
  TransformerDemo.hparams m !! "seqlen" = Some (HInt s) ->
  TransformerDemo.hparams m !! "patch_dim" = Some (HInt p) ->
  TransformerDemo.hparams m !! "num_classes" = Some (HInt c) ->
  0 < h -> 0 <= B -> 0 <= N ->
  LitTransformer_forward m [B; N; p]
  = if N * e =? s * e then Ok [B; c] else Raise TorchError.
Proof.
  intros Hi He Hh Hs Hp Hc Hh0 HB HN.
  apply LitTransformer_init_inv in Hi
    as (e' & h' & depth & p' & s' & c' & enc & He' & Hh' & _ & Hp' & Hs' & Hc'
        & Henc & _ & _ & _ & _ & ->).
  cbn [TransformerDemo.hparams] in *.
  rewrite He in He'. rewrite Hh in Hh'. rewrite Hs in Hs'. rewrite Hp in Hp'.
  rewrite Hc in Hc'.
  injection He' as <-. injection Hh' as <-. injection Hs' as <-.
  injection Hp' as <-. injection Hc' as <-.
  unfold LitTransformer_forward.
  cbn [TransformerDemo.embed TransformerDemo.encoder TransformerDemo.fc].
  rewrite Linear_forward_3 by reflexivity. cbn [mbind res_bind out_features].
  rewrite (Transformer_forward_shape _ _ _ _ _ _ _ _ Henc) by assumption.
  cbn [mbind res_bind]. rewrite flatten_from_1_3. cbn [mbind res_bind].
  rewrite Linear_forward_2. cbn [in_features out_features].
  destruct (N * e =? s * e); reflexivity.
Qed.

(** X8. [LitTransformer.forward] on a model built with a positive
    number of heads: a batch (B, N, patch_dim) of patch sequences gives
    (B, num_classes) logits exactly when N * embed_dim equals
    seqlen * embed_dim, that is, for a positive embedding width, when
    the sequence length is the [seqlen] the classification head was
    sized for; any other length is rejected by [fc] after the encoder
    has run, and any other patch width by [embed]. *)
Theorem LitTransformer_forward_shape args (m : TransformerDemo.LitTransformer)
    e h s p c B N :
  TransformerDemo.LitTransformer_init args = Ok m ->
  TransformerDemo.hparams m !! "embed_dim" = Some (HInt e) ->
  TransformerDemo.hparams m !! "head" = Some (HInt h) ->
  TransformerDemo.hparams m !! "seqlen" = Some (HInt s) ->
  TransformerDemo.hparams m !! "patch_dim" = Some (HInt p) ->
  TransformerDemo.hparams m !! "num_classes" = Some (HInt c) ->
  0 < h -> 0 < e -> 0 <= B -> 0 <= N ->
  (N = s -> LitTransformer_forward m [B; N; p] = Ok [B; c]) /\
  (N <> s -> LitTransformer_forward m [B; N; p] = Raise TorchError) /\
  (forall p', p' <> p -> LitTransformer_forward m [B; N; p'] = Raise TorchError).
Proof.
  intros Hi He Hh Hs Hp Hc Hh0 He0 HB HN.
  rewrite (LitTransformer_forward_eq args m e h s p c B N) by assumption.
  split; [|split].
  - intros ->. rewrite Z.eqb_refl. reflexivity.
  - intros Hne. destruct (Z.eqb_spec (N * e) (s * e)) as [E|]; [|reflexivity].
    exfalso. apply Hne. nia.
  - intros p' Hne.
    apply LitTransformer_init_inv in Hi
      as (e' & h' & depth & p0 & s' & c' & enc & _ & _ & _ & Hp' & _ & _
          & _ & _ & _ & _ & _ & ->).
    cbn [TransformerDemo.hparams] in *. rewrite Hp in Hp'. injection Hp' as <-.
    unfold LitTransformer_forward. cbn [TransformerDemo.embed].
    rewrite Linear_forward_mismatch by exact Hne. reflexivity.
Qed.

Lemma LitTransformer_forward_shape_witness :
  exists m : TransformerDemo.LitTransformer,
    TransformerDemo.LitTransformer_init {[ "depth" := HInt 2 ]} = Ok m /\
    LitTransformer_forward m [5; 16; 192] = Ok [5; 10] /\
    LitTransformer_forward m [5; 64; 192] = Raise TorchError /\
    LitTransformer_forward m [5; 16; 48] = Raise TorchError.
Proof.
  destruct (TransformerDemo.LitTransformer_init {[ "depth" := HInt 2 ]})
    as [m|err] eqn:Hi; [|vm_compute in Hi; discriminate].
  exists m. split; [reflexivity|].
  assert (Hh : forall k v,
             save_hyperparameters ({[ "depth" := HInt 2 ]} : kwargs)
               TransformerDemo.defaults !! k = Some v ->
             TransformerDemo.hparams m !! k = Some v).
  { intros k v Hk. apply LitTransformer_init_inv in Hi
      as (? & ? & ? & ? & ? & ? & ? & _ & _ & _ & _ & _ & _ & _ & _ & _ & _ & _ & ->).
    exact Hk. }
  pose proof (fun N (HN : 0 <= N) =>
    LitTransformer_forward_shape _ m 64 4 16 192 10 5 N Hi
      (Hh "embed_dim" _ eq_refl) (Hh "head" _ eq_refl) (Hh "seqlen" _ eq_refl)
      (Hh "patch_dim" _ eq_refl) (Hh "num_classes" _ eq_refl)
      ltac:(lia) ltac:(lia) ltac:(lia) HN) as W.
  split; [apply (proj1 (W 16 ltac:(lia))); reflexivity|].
  split; [apply (proj1 (proj2 (W 64 ltac:(lia)))); lia|].
  apply (proj2 (proj2 (W 16 ltac:(lia)))); lia.
Defined.


Lemma Transformer_init_Ok dim nh nb r b :
  0 < dim -> 0 < nh -> dim mod nh = 0 -> (0 <= r)%Q ->
  exists t, Transformer_init dim nh nb r b = Ok t.
Proof.
  intros Hd Hn Hm Hr. destruct (Block_init_Ok dim nh r b Hd Hn Hm Hr) as [blk Hb].
  unfold Transformer_init. rewrite Hb, replicateM_Ok. cbn [mbind res_bind]. eauto.
Qed.

Lemma main_kwargs_lookup args p s :
  let hp := save_hyperparameters (main_kwargs args p s) TransformerDemo.defaults in
  hp !! "embed_dim" = Some (HInt (a_embed_dim args)) /\
  hp !! "head" = Some (HInt (a_num_heads args)) /\
  hp !! "depth" = Some (HInt (a_depth args)) /\
  hp !! "patch_dim" = Some (HInt p) /\
  hp !! "seqlen" = Some (HInt s) /\
  hp !! "num_classes" = Some (HInt 10) /\
  hp !! "lr" = Some (HFloat (a_lr args)) /\
  hp !! "epochs" = Some (HInt (a_max_epochs args)) /\
  hp !! "max_epochs" = Some (HInt 30).
Proof. destruct args. repeat split; vm_compute; reflexivity. Qed.


Lemma main_Ok args B N P :
  0 < a_embed_dim args -> 0 < a_num_heads args ->
  a_embed_dim args mod a_num_heads args = 0 -> 0 <= P -> 0 <= N ->
  exists model,
    TransformerDemo.LitTransformer_init (main_kwargs args P N) = Ok model /\
    main args [B; N; P]
    = Ok (mkLitCifar10 (a_batch_size args) (a_patch_num args)
            (a_num_workers args * a_devices args),
          model,
          mkTrainer (a_accelerator args) (a_devices args) (a_max_epochs args)
            (if String.eqb (a_accelerator args) "gpu" then 16 else 32)).
Proof.
  intros He Hh Hm HP HN.
  assert (Hi : exists model,
             TransformerDemo.LitTransformer_init (main_kwargs args P N) = Ok model).
  { destruct (main_kwargs_lookup args P N)
      as (L1 & L2 & L3 & L4 & L5 & L6 & _).
    unfold TransformerDemo.LitTransformer_init, py_arg.
    unfold save_hyperparameters in *.
    rewrite L1, L2, L3, L4, L5, L6. cbn [mbind res_bind as_size].
    destruct (Transformer_init_Ok (a_embed_dim args) (a_num_heads args)
                (a_depth args) (4 # 1) false He Hh Hm ltac:(discriminate)) as [t ->].
    cbn [mbind res_bind].
    rewrite !nn_Linear_Ok by nia. cbn [mbind res_bind]. eauto. }
  destruct Hi as [model Hi]. exists model. split; [exact Hi|].
  unfold main. cbn [rev app]. rewrite Hi. reflexivity.
Qed.


(** *** Parameter counts *)

Lemma Block_params_eq dim nh blk :
  Block_init dim nh (4 # 1) false = Ok blk ->
  Block_params blk = 12 * dim * dim + 10 * dim.
Proof.
  intros Hb. apply Block_init_inv in Hb as (a & m & Ha & Hm & ->).
  apply Attention_init_inv in Ha as (_ & _ & _ & Hdim & ->).
  unfold Mlp_init in Hm. cbn [py_or] in Hm.
  destruct (nn_Linear dim _ true) as [l1|] eqn:E1; [|discriminate].
  cbn [mbind res_bind] in Hm.
  destruct (nn_Linear _ dim true) as [l2|] eqn:E2; [|discriminate].
  cbn [mbind res_bind] in Hm. injection Hm as <-.
  apply nn_Linear_inv in E1 as (-> & _ & _).
  apply nn_Linear_inv in E2 as (-> & _ & _).
  assert (Hh : (if py_int (inject_Z dim * (4 # 1)) =? 0 then dim
                else py_int (inject_Z dim * (4 # 1))) = 4 * dim).
  { unfold py_int. cbn [inject_Z Qmult Qnum Qden Pos.mul].
    rewrite Z.quot_1_r. destruct (Z.eqb_spec (dim * 4) 0); lia. }
  rewrite Hh. unfold Block_params, LayerNorm_params, Attention_params, Mlp_params,
    Linear_params.
  cbn [norm1 norm2 attn mlp qkv proj fc1 fc2 normalized_shape in_features
       out_features has_bias py_or]. ring.
Qed.

Lemma Transformer_params_eq dim nh nb t :
  Transformer_init dim nh nb (4 # 1) false = Ok t ->
  Transformer_params t = Z.max 0 nb * (12 * dim * dim + 10 * dim).
Proof.
  unfold Transformer_init. intros Hi.
  destruct (replicateM _ _) as [bs|] eqn:E; [|discriminate].
  cbn [mbind res_bind] in Hi. injection Hi as <-.
  apply replicateM_Forall in E as [HF HL]. unfold Transformer_params. cbn [blocks].
  replace (Z.max 0 nb) with (Z.of_nat (length bs)) by lia. clear HL.
  induction HF as [|blk bs Hblk _ IH]; [reflexivity|].
  cbn [map fold_right length]. rewrite IH, (Block_params_eq _ _ _ Hblk). lia.
Qed.

(** X9. The number of parameters of a constructed [LitTransformer]:
    each of the max(depth, 0) encoder blocks holds
    12 embed_dim^2 + 10 embed_dim scalars (two layer norms, the qkv
    projection without bias, the output projection, the two-layer MLP
    of hidden width 4 embed_dim), the embedding
    patch_dim * embed_dim + embed_dim and the classification head
    seqlen * embed_dim * num_classes + num_classes.  The number of heads
    does not enter the count. *)
Theorem LitTransformer_param_count args (m : TransformerDemo.LitTransformer)
    e depth s p c :
  TransformerDemo.LitTransformer_init args = Ok m ->
  TransformerDemo.hparams m !! "embed_dim" = Some (HInt e) ->
  TransformerDemo.hparams m !! "depth" = Some (HInt depth) ->
  TransformerDemo.hparams m !! "seqlen" = Some (HInt s) ->
  TransformerDemo.hparams m !! "patch_dim" = Some (HInt p) ->
  TransformerDemo.hparams m !! "num_classes" = Some (HInt c) ->
  Transformer_params (TransformerDemo.encoder m)
  = Z.max 0 depth * (12 * e * e + 10 * e) /\
  Linear_params (TransformerDemo.embed m) = p * e + e /\
  Linear_params (TransformerDemo.fc m) = s * e * c + c /\
  LitTransformer_params m
  = Z.max 0 depth * (12 * e * e + 10 * e) + (p * e + e) + (s * e * c + c).
Proof.
  intros Hi He Hd Hs Hp Hc.
  apply LitTransformer_init_inv in Hi
    as (e' & h' & depth' & p' & s' & c' & enc & He' & _ & Hd' & Hp' & Hs' & Hc'
        & Henc & _ & _ & _ & _ & ->).
  cbn [TransformerDemo.hparams] in *.
  rewrite He in He'. rewrite Hd in Hd'. rewrite Hs in Hs'. rewrite Hp in Hp'.
  rewrite Hc in Hc'.
  injection He' as <-. injection Hd' as <-. injection Hs' as <-.
  injection Hp' as <-. injection Hc' as <-.
  unfold LitTransformer_params.
  cbn [TransformerDemo.encoder TransformerDemo.embed TransformerDemo.fc].
  rewrite (Transformer_params_eq _ _ _ _ Henc). unfold Linear_params.
  cbn [in_features out_features has_bias]. repeat split; ring.
Qed.

(** The model of the main cell with the default arguments on patch
    sequences (B, 64, 48): encoder 597,504, embedding 3,136, head
    40,970, in all 641,610 parameters. *)
Lemma LitTransformer_param_count_witness :
  exists dm model tr,
    main get_args [64; 64; 48] = Ok (dm, model, tr) /\
    Transformer_params (TransformerDemo.encoder model) = 597504 /\
    Linear_params (TransformerDemo.embed model) = 3136 /\
    Linear_params (TransformerDemo.fc model) = 40970 /\
    LitTransformer_params model = 641610.
Proof.
  destruct (main_Ok get_args 64 64 48) as (model & Hi & Hm);
    [reflexivity | reflexivity | reflexivity | lia | lia |].
  eexists _, model, _. split; [exact Hm|].
  assert (Hh : TransformerDemo.hparams model
               = save_hyperparameters (main_kwargs get_args 48 64)
                   TransformerDemo.defaults).
  { apply LitTransformer_init_inv in Hi
      as (? & ? & ? & ? & ? & ? & ? & _ & _ & _ & _ & _ & _ & _ & _ & _ & _ & _ & ->).
    reflexivity. }
  destruct (main_kwargs_lookup get_args 48 64)
    as (L1 & _ & L3 & L4 & L5 & L6 & _).
  cbn zeta in *. rewrite <- Hh in L1, L3, L4, L5, L6.
  exact (LitTransformer_param_count _ model 64 12 64 48 10 Hi L1 L3 L5 L4 L6).
Defined.

(** X10. The number of parameters of a constructed colorization
    autoencoder is affine in the latent width: the encoder holds
    369,664 + 2,305 feature_dim scalars and the decoder
    425,219 + 16,384 feature_dim. *)
Theorem LitColorize_param_count args (m : Colorize.LitColorizeCIFAR10Model) fd :
  Colorize.LitColorizeCIFAR10Model_init args = Ok m ->
  Colorize.hparams m !! "feature_dim" = Some (HInt fd) ->
  Encoder_params (Colorize.encoder m) = 369664 + 2305 * fd /\
  Decoder_params (Colorize.decoder m) = 425219 + 16384 * fd /\
  LitColorize_params m = 794883 + 18689 * fd.
Proof.
  intros Hi Hfd.
  apply Colorize_init_inv in Hi as (fd' & e & d & Hfd' & He & Hd & ->).
  cbn [Colorize.hparams] in *. rewrite Hfd in Hfd'. injection Hfd' as <-.
  apply Encoder_init_inv in He as (-> & _).
  apply Decoder_init_inv in Hd as ->.
  unfold LitColorize_params, Encoder_params, Decoder_params, Conv2d_params,
    Linear_params.
  cbn [Colorize.encoder Colorize.decoder e_conv1 e_conv2 e_conv3 e_fc1
       d_fc1 d_conv1 d_conv2 d_conv3 d_conv4 c_in c_out c_kernel
       in_features out_features has_bias].
  change (32 / 2 ^ 2) with 8. change (256 / 2) with 128. change (256 / 4) with 64.
  change (8 ^ 2) with 64. repeat split; ring.
Qed.

Lemma LitColorize_param_count_witness :
  exists ae tr,
    ColorizeMain.main ColorizeMain.get_args = Ok (ae, tr) /\
    Encoder_params (Colorize.encoder ae) = 959744 /\
    Decoder_params (Colorize.decoder ae) = 4619523 /\
    LitColorize_params ae = 5579267.
Proof.
  destruct (Colorize.LitColorizeCIFAR10Model_init
              {[ "feature_dim" := HInt 256; "lr" := HFloat (1 # 1000);
                 "batch_size" := HInt 64; "num_workers" := HInt 4;
                 "max_epochs" := HInt 30 ]}) as [ae|err] eqn:Hi;
    [|vm_compute in Hi; discriminate].
  exists ae, (mkTrainer "gpu" 1 30 32). split.
  { unfold ColorizeMain.main, ColorizeMain.get_args.
    cbn [ColorizeMain.a_feature_dim ColorizeMain.a_lr ColorizeMain.a_batch_size
         ColorizeMain.a_num_workers ColorizeMain.a_max_epochs
         ColorizeMain.a_accelerator ColorizeMain.a_devices].
    rewrite Hi. reflexivity. }
  assert (Hfd : Colorize.hparams ae !! "feature_dim" = Some (HInt 256)).
  { pose proof Hi as Hi'.
    apply Colorize_init_inv in Hi' as (? & ? & ? & _ & _ & _ & ->). reflexivity. }
  exact (LitColorize_param_count _ ae 256 Hi Hfd).
Defined.


(** *** The main cells *)

Lemma configure_at (h : kwargs) (params : list submodule) (lr : Q) me :
  h !! "lr" = Some (HFloat lr) -> h !! "max_epochs" = Some me ->
  Qle_bool 0 lr = true ->
  (lr ← getattr h "lr";
   optimizer ← new_Adam params lr;
   max_epochs ← getattr h "max_epochs";
   Ok ([optimizer], [CosineAnnealingLR optimizer max_epochs]))
  = Ok ([Adam params (HFloat lr)], [CosineAnnealingLR (Adam params (HFloat lr)) me]).
Proof. intros Hlr Hme Hv. apply configure_from_hparams; assumption. Qed.

(** X11. The period of the cosine schedule against the length of the
    training run, in the three main cells.  The transformer cell passes
    [epochs=args.max_epochs], a keyword the constructor does not name,
    and the MLP cell passes no epochs at all: in both the scheduler's
    [T_max] is the constructor's default 30, whatever [--max-epochs]
    is, while the trainer runs for [args.max_epochs] epochs.  The
    autoencoder cell passes [max_epochs=args.max_epochs], so there the
    two agree. *)
Theorem schedule_period_of_main :
  (forall args data0 dm model tr,
     main args data0 = Ok (dm, model, tr) -> Qle_bool 0 (a_lr args) = true ->
     TransformerDemo.Lit_configure_optimizers model
     = Ok ([Adam (TransformerDemo.parameters model) (HFloat (a_lr args))],
           [CosineAnnealingLR
              (Adam (TransformerDemo.parameters model) (HFloat (a_lr args)))
              (HInt 30)]) /\
     TransformerDemo.hparams model !! "epochs" = Some (HInt (a_max_epochs args)) /\
     tr_max_epochs tr = a_max_epochs args) /\
  (forall args model tr,
     MlpMain.main args = Ok (model, tr) -> Qle_bool 0 (MlpMain.a_lr args) = true ->
     MlpDemo.Lit_configure_optimizers model
     = Ok ([Adam (MlpDemo.parameters model) (HFloat (MlpMain.a_lr args))],
           [CosineAnnealingLR
              (Adam (MlpDemo.parameters model) (HFloat (MlpMain.a_lr args)))
              (HInt 30)]) /\
     tr_max_epochs tr = MlpMain.a_max_epochs args) /\
  (forall args ae tr,
     ColorizeMain.main args = Ok (ae, tr) ->
     Qle_bool 0 (ColorizeMain.a_lr args) = true ->
     Colorize.Lit_configure_optimizers ae
     = Ok ([Adam (Colorize.parameters ae) (HFloat (ColorizeMain.a_lr args))],
           [CosineAnnealingLR
              (Adam (Colorize.parameters ae) (HFloat (ColorizeMain.a_lr args)))
              (HInt (ColorizeMain.a_max_epochs args))]) /\
     tr_max_epochs tr = ColorizeMain.a_max_epochs args).
Proof.
  split; [|split].
  - intros args data0 dm model tr Hm Hlr. unfold main in Hm.
    destruct (rev data0) as [|p [|s rest]]; try discriminate.
    destruct (TransformerDemo.LitTransformer_init _) as [m|] eqn:Hi; [|discriminate].
    cbn [mbind res_bind] in Hm. injection Hm as _ <- <-.
    apply Transformer_init_hparams in Hi.
    destruct (main_kwargs_lookup args p s) as (_ & _ & _ & _ & _ & _ & L7 & L8 & L9).
    cbn zeta in *. rewrite <- Hi in L7, L8, L9.
    split; [|split; [exact L8 | reflexivity]].
    unfold TransformerDemo.Lit_configure_optimizers.
    apply configure_at; assumption.
  - intros args model tr Hm Hlr. unfold MlpMain.main in Hm.
    destruct (MlpDemo.LitCIFAR10Model_init _) as [m|] eqn:Hi; [|discriminate].
    cbn [mbind res_bind] in Hm. injection Hm as <- <-.
    apply Mlp_init_hparams in Hi.
    split; [|reflexivity].
    unfold MlpDemo.Lit_configure_optimizers.
    apply configure_at; [| |assumption]; rewrite Hi; destruct args;
      vm_compute; reflexivity.
  - intros args ae tr Hm Hlr. unfold ColorizeMain.main in Hm.
    destruct (Colorize.LitColorizeCIFAR10Model_init _) as [m|] eqn:Hi; [|discriminate].
    cbn [mbind res_bind] in Hm. injection Hm as <- <-.
    apply Colorize_init_hparams in Hi.
    split; [|reflexivity].
    unfold Colorize.Lit_configure_optimizers.
    apply configure_at; [| |assumption]; rewrite Hi; destruct args;
      vm_compute; reflexivity.
Qed.


Lemma schedule_period_of_main_witness :
  let args := mkArgs 12 64 4 8 3 64 50 (1 # 1000) "gpu" 1 "cifar10" 4 in
  exists dm model tr,
    main args [64; 64; 48] = Ok (dm, model, tr) /\
    Qle_bool 0 (a_lr args) = true /\
    TransformerDemo.Lit_configure_optimizers model
    = Ok ([Adam (TransformerDemo.parameters model) (HFloat (1 # 1000))],
          [CosineAnnealingLR
             (Adam (TransformerDemo.parameters model) (HFloat (1 # 1000)))
             (HInt 30)]) /\
    tr_max_epochs tr = 50.
Proof.
  intros args.
  destruct (main_Ok args 64 64 48) as (model & Hi & Hm);
    [reflexivity | reflexivity | reflexivity | lia | lia |].
  eexists _, model, _. split; [exact Hm|]. split; [reflexivity|].
  destruct (proj1 schedule_period_of_main args _ _ _ _ Hm eq_refl) as (Hc & _ & Ht).
  split; [exact Hc | exact Ht].
Defined.

End ModelFacts.

(** * More facts about the value semantics *)

Module MoreValueFacts.
Import Value ValueFacts.

Section WithScalar.
Context {S : Type} {SC : Scalar S}.
Abbreviation tensor := (Value.tensor S).

Lemma Attention_forward_textbook nh D qkv_bias (wq bq wp bp x : tensor) B N :
  0 < nh -> 0 < D -> shape x = [B; N; nh * D] -> 0 <= B -> 0 <= N ->
  let a := mkAttention nh (spow_neg_half D)
             (mkLinear (Shape.mkLinear (nh * D) (nh * D * 3) qkv_bias) wq bq)
             (mkLinear (Shape.mkLinear (nh * D) (nh * D) true) wp bp) in
  exists y y',
    Attention_forward a x = Ok y /\ textbook_attention a x = Ok y' /\
    shape y = [B; N; nh * D] /\ teq y y'.
Proof.
  intros Hnh HD Hx HB HN a. subst a.
  assert (HDq : nh * D / nh = D) by (rewrite Z.mul_comm, Z.div_mul; lia).
  (* the qkv layer *)
  destruct (Linear_forward_teq
              (mkLinear (Shape.mkLinear (nh * D) (nh * D * 3) qkv_bias) wq bq)
              x x B N (nh * D) (teq_refl x) Hx eq_refl)
    as (QKV & _ & HQKV' & _ & HsQKV & _).
  cbn [lin Shape.out_features] in HsQKV.
  (* the forward pass, stage by stage *)
  destruct (split_heads QKV B N nh D HsQKV HB HN Hnh HD)
    as (r & p & q & k & v & Hr & Hp & Hu & Hsq & Hsk & Hsv & Hqkv).
  destruct (scores q k B nh N D Hsq Hsk) as (kT & a0 & HkT & Ha0 & Hsa0 & Hga0).
  destruct (softmax_last (mul_scalar a0 (spow_neg_half D)) B nh N N Hsa0)
    as (sm & Hsm & Hssm & Hgsm).
  destruct (merge_heads sm v B nh N D Hssm Hsv HB HN Hnh HD)
    as (o & t & y & Ho & Ht & Hy & Hsy & Hgy).
  (* the merged heads are the textbook's *)
  assert (Hscore : forall b h i j,
             0 <= b < B -> 0 <= h < nh -> 0 <= i < N -> 0 <= j < N ->
             get (mul_scalar a0 (spow_neg_half D)) [b; h; i; j]
             = score nh (nh * D) QKV h b i j).
  { intros b h i j Hb Hh Hi Hj. cbn [mul_scalar tmap get]. unfold score, head_dim.
    rewrite HDq. f_equal. rewrite Hga0 by assumption.
    apply sum_range_ext. intros d Hd.
    destruct (Hqkv b h i d) as (-> & _ & _); try assumption.
    destruct (Hqkv b h j d) as (_ & -> & _); try assumption. reflexivity. }
  assert (Hmerged : teq y (heads_merged nh (nh * D) QKV B N)).
  { split; [exact Hsy|]. rewrite Hsy. intros idx Hidx.
    apply in_range_3 in Hidx as (b & n & c & -> & Hb & Hn & Hc).
    rewrite Hgy by assumption. cbn [heads_merged get]. unfold head_output, head_dim.
    rewrite HDq.
    pose proof (Z.mod_pos_bound c D HD).
    assert (0 <= c / D < nh).
    { split; [apply Z.div_pos; lia | apply Z.div_lt_upper_bound; lia]. }
    apply sum_range_ext. intros j Hj. f_equal.
    - rewrite Hgsm. unfold attention_matrix. rewrite Hscore by assumption.
      f_equal. apply sum_range_ext. intros j' Hj'. rewrite Hscore by assumption.
      reflexivity.
    - destruct (Hqkv b (c / D) j (c mod D)) as (_ & _ & ->); try assumption.
      reflexivity. }
  (* the projection *)
  destruct (Linear_forward_teq
              (mkLinear (Shape.mkLinear (nh * D) (nh * D) true) wp bp)
              y _ B N (nh * D) Hmerged Hsy eq_refl)
    as (z & z' & Hz & Hz' & Hsz & Hzz).
  exists z, z'.
  unfold Attention_forward, textbook_attention. cbn [qkv proj num_heads scale].
  rewrite Hx, HDq, HQKV'. cbn [mbind res_bind].
  destruct (Z.eqb_spec nh 0); [lia|].
  rewrite Hr. cbn [mbind res_bind]. rewrite Hp. cbn [mbind res_bind].
  rewrite Hu. cbn [mbind res_bind]. rewrite HkT. cbn [mbind res_bind].
  rewrite Ha0. cbn [mbind res_bind]. rewrite Hsm. cbn [mbind res_bind].
  rewrite Ho. cbn [mbind res_bind]. rewrite Ht. cbn [mbind res_bind].
  rewrite Hy. cbn [mbind res_bind].
  repeat (split; [assumption|]). exact Hzz.
Qed.


Lemma Linear_forward_get3 (l : Linear S) (x z : tensor) b n j :
  Linear_forward l x = Ok z ->
  get z [b; n; j]
  = (let y := sum_range (Shape.in_features (lin l)) (fun k =>
                smul (get x [b; n; k]) (get (weight l) [j; k])) in
     if Shape.has_bias (lin l) then sadd y (get (bias l) [j]) else y).
Proof.
  unfold Linear_forward. destruct (Shape.Linear_forward _ _); [|discriminate].
  cbn [mbind res_bind]. intros E; injection E as <-. reflexivity.
Qed.

Lemma textbook_same_sample C (a : Attention S) (x x' y y' : tensor) B B' N b b' :
  shape x = [B; N; C] -> shape x' = [B'; N; C] ->
  Shape.in_features (lin (qkv a)) = C ->
  (forall n k, 0 <= n < N -> 0 <= k < C ->
     get x [b; n; k] = get x' [b'; n; k]) ->
  textbook_attention a x = Ok y -> textbook_attention a x' = Ok y' ->
  forall n c, 0 <= n < N -> get y [b; n; c] = get y' [b'; n; c].
Proof.
  intros Hx Hx' Hin Hsame Hy Hy' n c Hn.
  unfold textbook_attention in Hy, Hy'. rewrite Hx in Hy. rewrite Hx' in Hy'.
  destruct (Linear_forward (qkv a) x) as [QKV|] eqn:HQ; [|discriminate].
  destruct (Linear_forward (qkv a) x') as [QKV'|] eqn:HQ'; [|discriminate].
  cbn [mbind res_bind] in Hy, Hy'.
  assert (Hqkv : forall n f, 0 <= n < N -> get QKV [b; n; f] = get QKV' [b'; n; f]).
  { intros m f Hm. rewrite (Linear_forward_get3 _ _ _ _ _ _ HQ),
      (Linear_forward_get3 _ _ _ _ _ _ HQ'). cbn zeta.
    assert (Hs : sum_range (Shape.in_features (lin (qkv a)))
                   (fun k => smul (get x [b; m; k]) (get (weight (qkv a)) [f; k]))
                 = sum_range (Shape.in_features (lin (qkv a)))
                   (fun k => smul (get x' [b'; m; k]) (get (weight (qkv a)) [f; k]))).
    { apply sum_range_ext. intros k Hk. rewrite Hsame by lia. reflexivity. }
    rewrite Hs. reflexivity. }
  assert (Hslice : forall s h m d, 0 <= m < N ->
             head_slice (num_heads a) C QKV s h b m d
             = head_slice (num_heads a) C QKV' s h b' m d).
  { intros s h m d Hm. unfold head_slice. apply Hqkv. exact Hm. }
  assert (Hscore : forall h i j, 0 <= i < N -> 0 <= j < N ->
             score (num_heads a) C QKV h b i j = score (num_heads a) C QKV' h b' i j).
  { intros h i j Hi Hj. unfold score. f_equal. apply sum_range_ext. intros d _.
    rewrite (Hslice 0 h i d Hi), (Hslice 1 h j d Hj). reflexivity. }
  assert (Hout : forall h m d, 0 <= m < N ->
             head_output (num_heads a) C QKV N h b m d
             = head_output (num_heads a) C QKV' N h b' m d).
  { intros h m d Hm. unfold head_output. apply sum_range_ext. intros j Hj.
    unfold attention_matrix. rewrite (Hslice 2 h j d Hj), (Hscore h m j Hm Hj).
    do 2 f_equal. apply sum_range_ext. intros j' Hj'. rewrite (Hscore h m j' Hm Hj').
    reflexivity. }
  rewrite (Linear_forward_get3 _ _ _ _ _ _ Hy), (Linear_forward_get3 _ _ _ _ _ _ Hy').
  cbn zeta.
  assert (Hs : sum_range (Shape.in_features (lin (proj a)))
                 (fun k => smul (get (heads_merged (num_heads a) C QKV B N) [b; n; k])
                                (get (weight (proj a)) [c; k]))
               = sum_range (Shape.in_features (lin (proj a)))
                 (fun k => smul (get (heads_merged (num_heads a) C QKV' B' N) [b'; n; k])
                                (get (weight (proj a)) [c; k]))).
  { apply sum_range_ext. intros k _. cbn [heads_merged get].
    rewrite (Hout _ n _ Hn). reflexivity. }
  rewrite Hs. reflexivity.
Qed.

(** X12. Attention treats every sample of a batch on its own: if
    sample b of the input x and sample b' of the input x' have the same
    entries, then sample b of [forward(x)] and sample b' of
    [forward(x')] have the same entries, whatever the other samples,
    the positions and the two batch sizes are. *)
Theorem Attention_sample_independent (dim nh : Z) (qkv_bias : bool)
    (wq bq wp bp : tensor) (x x' : tensor) (B B' N b b' : Z) :
  0 < dim -> 0 < nh -> dim mod nh = 0 ->
  shape x = [B; N; dim] -> shape x' = [B'; N; dim] ->
  0 <= b < B -> 0 <= b' < B' -> 0 <= N ->
  (forall n k, 0 <= n < N -> 0 <= k < dim ->
     get x [b; n; k] = get x' [b'; n; k]) ->
  exists a y y',
    Attention_init dim nh qkv_bias wq bq wp bp = Ok a /\
    Attention_forward a x = Ok y /\ Attention_forward a x' = Ok y' /\
    forall n c, 0 <= n < N -> 0 <= c < dim -> get y [b; n; c] = get y' [b'; n; c].
Proof.
  intros Hdim Hnh Hmod Hx Hx' Hb Hb' HN Hsame.
  assert (HdimD : dim = nh * (dim / nh)).
  { pose proof (Z.div_mod dim nh ltac:(lia)). lia. }
  assert (HD : 0 < dim / nh).
  { assert (0 <= dim / nh) by (apply Z.div_pos; lia). nia. }
  assert (Hinit : Attention_init dim nh qkv_bias wq bq wp bp
                  = Ok (mkAttention nh (spow_neg_half (dim / nh))
                          (mkLinear (Shape.mkLinear dim (dim * 3) qkv_bias) wq bq)
                          (mkLinear (Shape.mkLinear dim dim true) wp bp))).
  { unfold Attention_init. rewrite ShapeFacts.Attention_init_Ok by assumption.
    reflexivity. }
  rewrite Hinit. clear Hinit.
  set (D := dim / nh) in *. clearbody D. subst dim.
  destruct (Attention_forward_textbook nh D qkv_bias wq bq wp bp x B N
              Hnh HD Hx ltac:(lia) HN) as (y & t & Hy & Ht & Hsy & Hyt).
  destruct (Attention_forward_textbook nh D qkv_bias wq bq wp bp x' B' N
              Hnh HD Hx' ltac:(lia) HN) as (y' & t' & Hy' & Ht' & Hsy' & Hyt').
  eexists _, y, y'. split; [reflexivity|]. split; [exact Hy|]. split; [exact Hy'|].
  intros n c Hn Hc.
  destruct Hyt as [_ Hg]. destruct Hyt' as [_ Hg'].
  rewrite Hg by (rewrite Hsy; repeat constructor; lia).
  rewrite Hg' by (rewrite Hsy'; repeat constructor; lia).
  refine (textbook_same_sample (nh * D) _ x x' t t' B B' N b b' Hx Hx' _
            Hsame Ht Ht' n c Hn).
  reflexivity.
Qed.

(** *** The collate functions *)

Lemma unzip_batch_Ok (batch : list (tensor * Z)) :
  batch <> [] -> unzip_batch batch = Ok (map fst batch, map snd batch).
Proof. destruct batch; [contradiction | reflexivity]. Qed.

Lemma stack_images (batch : list (tensor * Z)) s :
  batch <> [] -> Forall (fun sample => shape (fst sample) = s) batch ->
  exists x, stack (map fst batch) = Ok x /\
            shape x = Z.of_nat (length batch) :: s.
Proof.
  intros Hne Hall.
  assert (Hne' : map fst batch <> []) by (destruct batch; [contradiction | discriminate]).
  assert (Hall' : Forall (fun x : tensor => shape x = s) (map fst batch)).
  { apply Forall_map. exact Hall. }
  destruct (stack_Ok (map fst batch) s Hne' Hall') as (x & Hx & Hsx & _).
  rewrite length_map in Hsx. eauto.
Qed.

Lemma gray_collate_fn_shape (batch : list (tensor * Z)) c h w :
  batch <> [] -> Forall (fun sample => shape (fst sample) = [c; h; w]) batch ->
  exists xn x, gray_collate_fn batch = Ok (xn, x) /\
    shape xn = [Z.of_nat (length batch); 1; h; w] /\
    shape x = [Z.of_nat (length batch); c; h; w].
Proof.
  intros Hne Hall. destruct (stack_images batch _ Hne Hall) as (x & Hx & Hsx).
  unfold gray_collate_fn. rewrite unzip_batch_Ok by assumption. cbn [mbind res_bind].
  rewrite Hx. cbn [mbind res_bind]. unfold reduce_mean_channels. rewrite Hsx.
  cbn [mbind res_bind]. eexists _, x. split; [reflexivity|]. split; [reflexivity|].
  exact Hsx.
Qed.

Lemma collate_fn_shape (batch : list (tensor * Z)) c h w p :
  batch <> [] -> Forall (fun sample => shape (fst sample) = [c; h; w]) batch ->
  0 < p -> h mod p = 0 -> w mod p = 0 ->
  exists x, collate_fn p batch = Ok (x, map snd batch) /\
    shape x = [Z.of_nat (length batch); p * p; c * (h / p) * (w / p)].
Proof.
  intros Hne Hall Hp Hh Hw. destruct (stack_images batch _ Hne Hall) as (x & Hx & Hsx).
  unfold collate_fn. rewrite unzip_batch_Ok by assumption. cbn [mbind res_bind].
  rewrite Hx. cbn [mbind res_bind]. unfold rearrange_patches. rewrite Hsx.
  destruct (Z.eqb_spec p 0); [lia|]. rewrite Hh, Hw.
  destruct (Z.ltb_spec p 0); [lia|].
  cbn [Z.eqb andb negb mbind res_bind]. eexists. split; reflexivity.
Qed.

Lemma stack_mismatch (x0 : tensor) (xs : list tensor) :
  Exists (fun x => shape x <> shape x0) xs -> stack (x0 :: xs) = Raise TorchError.
Proof.
  intros Hex. unfold stack.
  destruct (forallb _ (x0 :: xs)) eqn:E; [|reflexivity].
  exfalso. rewrite forallb_forall in E. apply Exists_exists in Hex as (x & Hin & Hne).
  apply Hne. eapply bool_decide_eq_true. apply E. right.
  apply list_elem_of_In. exact Hin.
Qed.

(** X13. How the two collate functions fail.  An empty batch is a
    ValueError of the unpacking [x, y = zip(...)], in the notebook's own
    code.  Images of differing shapes are rejected by [torch.stack].
    Images of one shape that is not (c, h, w) are rejected by einops.
    On images (c, h, w), [LitCifar10.collate_fn] fails with
    ZeroDivisionError for [patch_num = 0] (the remainder [h % 0] that
    einops evaluates), with an einops error for a positive [patch_num]
    that does not divide both the height and the width, and inside the
    framework's reshape for a negative [patch_num] that divides both. *)
Theorem collate_failures :
  gray_collate_fn [] = Raise ValueError /\
  (forall p, collate_fn p [] = Raise ValueError) /\
  (forall (s0 : tensor * Z) rest p,
     Exists (fun sample => shape (fst sample) <> shape (fst s0)) rest ->
     gray_collate_fn (s0 :: rest) = Raise TorchError /\
     collate_fn p (s0 :: rest) = Raise TorchError) /\
  (forall (batch : list (tensor * Z)) s p,
     batch <> [] -> Forall (fun sample => shape (fst sample) = s) batch ->
     length s <> 3%nat ->
     gray_collate_fn batch = Raise EinopsError /\
     collate_fn p batch = Raise EinopsError) /\
  (forall (batch : list (tensor * Z)) c h w p,
     batch <> [] -> Forall (fun sample => shape (fst sample) = [c; h; w]) batch ->
     (p = 0 -> collate_fn p batch = Raise ZeroDivisionError) /\
     (0 < p -> ~ (h mod p = 0 /\ w mod p = 0) ->
      collate_fn p batch = Raise EinopsError) /\
     (p < 0 -> h mod p = 0 -> w mod p = 0 ->
      collate_fn p batch = Raise TorchError)).
Proof.
  split; [reflexivity|]. split; [reflexivity|]. split; [|split].
  - intros s0 rest p Hex.
    assert (Hst : stack (map fst (s0 :: rest)) = Raise TorchError).
    { cbn [map]. apply stack_mismatch. apply Exists_exists in Hex as (x & Hin & Hne).
      apply Exists_exists. exists (fst x). split; [|exact Hne].
      apply list_elem_of_In, in_map, list_elem_of_In. exact Hin. }
    unfold gray_collate_fn, collate_fn. rewrite unzip_batch_Ok by discriminate.
    cbn [mbind res_bind]. rewrite Hst. split; reflexivity.
  - intros batch s p Hne Hall Hlen.
    destruct (stack_images batch _ Hne Hall) as (x & Hx & Hsx).
    unfold gray_collate_fn, collate_fn. rewrite unzip_batch_Ok by assumption.
    cbn [mbind res_bind]. rewrite Hx. cbn [mbind res_bind].
    unfold reduce_mean_channels, rearrange_patches. rewrite Hsx.
    destruct s as [|c [|h [|w [|? ?]]]]; cbn [length] in Hlen; try lia;
      split; reflexivity.
  - intros batch c h w p Hne Hall.
    destruct (stack_images batch _ Hne Hall) as (x & Hx & Hsx).
    assert (Hc : collate_fn p batch
                 = (x ← rearrange_patches x p; Ok (x, map snd batch))).
    { unfold collate_fn. rewrite unzip_batch_Ok by assumption.
      cbn [mbind res_bind]. rewrite Hx. reflexivity. }
    rewrite Hc. unfold rearrange_patches. rewrite Hsx. split; [|split].
    + intros ->. reflexivity.
    + intros Hp Hnot. destruct (Z.eqb_spec p 0); [lia|].
      destruct (Z.eqb_spec (h mod p) 0) as [Eh|]; [|reflexivity].
      destruct (Z.eqb_spec (w mod p) 0) as [Ew|]; [|reflexivity].
      exfalso. apply Hnot. auto.
    + intros Hp Hh Hw. destruct (Z.eqb_spec p 0); [lia|]. rewrite Hh, Hw.
      destruct (Z.ltb_spec p 0); [|lia]. reflexivity.
Qed.

(** *** The two einops layouts *)

Lemma flat_index h w ci i j :
  0 <= ci -> 0 <= i < h -> 0 <= j < w ->
  let f := (ci * h + i) * w + j in
  f / (h * w) = ci /\ (f / w) mod h = i /\ f mod w = j.
Proof.
  intros Hc Hi Hj f.
  destruct (patch_index 1 h w 0 0 ci i j) as (_ & _ & H1 & H2 & H3); try lia.
  auto.
Qed.

Lemma flat_index_inv h w f :
  0 < h -> 0 < w -> 0 <= f ->
  (f / (h * w) * h + (f / w) mod h) * w + f mod w = f.
Proof.
  intros Hh Hw Hf.
  assert (E1 : f / (h * w) = f / w / h).
  { rewrite (Z.mul_comm h w). symmetry. apply Z.div_div; lia. }
  rewrite E1.
  pose proof (Z.div_mod (f / w) h ltac:(lia)).
  pose proof (Z.div_mod f w ltac:(lia)). nia.
Qed.

(** X14. The two einops layouts of the notebooks are inverse to each
    other: flattening a batch (B, c, h, w) with 'b c h w -> b (c h w)'
    and unflattening the result with 'b (c h w) -> b c h w' gives the
    batch back, entry by entry, and unflattening a batch (B, F), with F
    a multiple of h * w, and flattening again gives that batch back. *)
Theorem flatten_unflatten_round_trip (h w : Z) :
  0 < h -> 0 < w ->
  (forall (x : tensor) B c, shape x = [B; c; h; w] -> 0 <= c ->
     exists y x', rearrange_flatten x = Ok y /\
                  rearrange_unflatten y B h w = Ok x' /\ teq x' x) /\
  (forall (y : tensor) B F, shape y = [B; F] -> 0 <= F -> F mod (h * w) = 0 ->
     exists x y', rearrange_unflatten y B h w = Ok x /\
                  rearrange_flatten x = Ok y' /\ teq y' y).
Proof.
  intros Hh Hw. assert (Hhw : 0 < h * w) by nia. split.
  - intros x B c Hx Hc. unfold rearrange_flatten, rearrange_unflatten.
    rewrite Hx. cbn [Shape.rearrange_flatten mbind res_bind shape].
    eexists _, _. split; [reflexivity|]. cbn [shape].
    unfold Shape.rearrange_unflatten. rewrite Z.eqb_refl.
    destruct (Z.ltb_spec 0 (h * w)); [|lia].
    replace (c * h * w) with (c * (h * w)) by ring.
    rewrite Z.mod_mul, Z.div_mul by lia. cbn [Z.eqb andb mbind res_bind].
    split; [reflexivity|].
    split; [cbn [shape]; congruence|]. cbn [shape get]. intros idx Hidx.
    apply in_range_4 in Hidx as (b & ci & i & j & -> & Hb & Hci & Hi & Hj).
    destruct (flat_index h w ci i j) as (-> & -> & ->); try lia. reflexivity.
  - intros y B F Hy HF Hmod. unfold rearrange_flatten, rearrange_unflatten.
    rewrite Hy. unfold Shape.rearrange_unflatten. rewrite Z.eqb_refl.
    destruct (Z.ltb_spec 0 (h * w)); [|lia]. rewrite Hmod.
    cbn [Z.eqb andb mbind res_bind].
    eexists _, _. split; [reflexivity|].
    cbn [shape Shape.rearrange_flatten mbind res_bind]. split; [reflexivity|].
    assert (E : F / (h * w) * h * w = F).
    { pose proof (Z.div_mod F (h * w) ltac:(lia)). lia. }
    split; [cbn [shape]; rewrite Hy, E; reflexivity|]. cbn [shape get].
    rewrite E. intros idx Hidx.
    apply in_range_2 in Hidx as (b & f & -> & Hb & Hf).
    rewrite flat_index_inv by lia. reflexivity.
Qed.

(** *** The two MLPs on inputs they reject *)

(** X15. The two MLP classifiers reject the same inputs with the same
    error: an input that is not of rank 4 is an einops error of the
    flattening in both, and a batch (B, c, h, w) with c * h * w other
    than [n_features] is a shape error of the first layer, of
    [nn.Linear] in SimpleMLP and of [torch.matmul] in TensorMLP. *)
Theorem mlp_same_failure (gelu : S -> S) (n_features n_hidden num_classes : Z)
    (t : TensorMLP S) (x : tensor) :
  TensorMLP_wf n_features n_hidden num_classes t ->
  (length (shape x) <> 4%nat ->
   TensorMLP_forward gelu t x = Raise EinopsError /\
   SimpleMLP_forward gelu (SimpleMLP_of n_features n_hidden num_classes t) x
   = Raise EinopsError) /\
  (forall B c h w, shape x = [B; c; h; w] -> c * h * w <> n_features ->
   TensorMLP_forward gelu t x = Raise TorchError /\
   SimpleMLP_forward gelu (SimpleMLP_of n_features n_hidden num_classes t) x
   = Raise TorchError).
Proof.
  intros (Hw1 & Hb1 & Hw2 & Hb2 & Hw3 & Hb3). split.
  - intros Hlen.
    assert (Hf : rearrange_flatten x = Raise EinopsError).
    { unfold rearrange_flatten.
      destruct (shape x) as [|b [|c [|h [|w [|? ?]]]]]; cbn [length] in Hlen;
        try lia; reflexivity. }
    unfold TensorMLP_forward, SimpleMLP_forward. rewrite Hf. split; reflexivity.
  - intros B c h w Hx Hne.
    destruct (rearrange_flatten_Ok x B c h w Hx) as (y & Hy & Hsy).
    destruct (tensor_T_2 (w1 t) _ _ Hw1) as (w1T & HT & HsT & _).
    unfold TensorMLP_forward, SimpleMLP_forward. rewrite Hy. cbn [mbind res_bind].
    rewrite HT. cbn [mbind res_bind]. unfold matmul, Linear_forward.
    rewrite Hsy, HsT. cbn [SimpleMLP_of fc1 lin].
    unfold Shape.matmul, Shape.Linear_forward. cbn [rev app Shape.in_features].
    destruct (Z.eqb_spec (c * h * w) n_features); [contradiction|].
    split; reflexivity.
Qed.

End WithScalar.

Import Examples.

Lemma Attention_sample_independent_witness :
  let x' : Value.tensor Q := from_flat [2; 2; 4] (fun k => inject_Z (k mod 8 + 1)) in
  exists a y y',
    Attention_init (SC:=Q_Scalar) 4 2 false qkv_weight qkv_bias proj_weight proj_bias
    = Ok a /\
    Attention_forward a x_124 = Ok y /\ Attention_forward a x' = Ok y' /\
    get y [0; 1; 2] = get y' [1; 1; 2].
Proof.
  intros x'.
  assert (Hsame : forall n k, 0 <= n < 2 -> 0 <= k < 4 ->
            get x_124 [0; n; k] = get x' [1; n; k]).
  { intros n k Hn Hk. unfold x_124, x', from_flat, ravel. cbn [get ravel_acc].
    f_equal. replace ((((0 * 2 + 1) * 2 + n) * 4 + k)) with (4 * n + k + 1 * 8) by ring.
    rewrite Z.mod_add by lia. rewrite Z.mod_small by lia. ring. }
  destruct (Attention_sample_independent (SC:=Q_Scalar) 4 2 false
              qkv_weight qkv_bias proj_weight proj_bias x_124 x' 1 2 2 0 1
              ltac:(lia) ltac:(lia) eq_refl eq_refl eq_refl
              ltac:(lia) ltac:(lia) ltac:(lia) Hsame)
    as (a & y & y' & Ha & Hy & Hy' & Hg).
  exists a, y, y'. split; [exact Ha|]. split; [exact Hy|]. split; [exact Hy'|].
  apply Hg; lia.
Defined.

Lemma collate_failures_witness :
  samples <> [] /\
  Forall (fun sample => shape (fst sample) = [1; 2; 2]) samples /\
  collate_fn (SC:=Q_Scalar) 0 samples = Raise ZeroDivisionError /\
  collate_fn (SC:=Q_Scalar) 3 samples = Raise EinopsError /\
  collate_fn (SC:=Q_Scalar) (-2) samples = Raise TorchError.
Proof.
  assert (Hne : samples <> []) by discriminate.
  assert (Hall : Forall (fun sample : Value.tensor Q * Z =>
                           shape (fst sample) = [1; 2; 2]) samples)
    by (repeat constructor).
  split; [exact Hne|]. split; [exact Hall|].
  pose proof (fun p => proj2 (proj2 (proj2 (proj2 (collate_failures (SC:=Q_Scalar)))))
                         samples 1 2 2 p Hne Hall) as W.
  split; [apply (proj1 (W 0)); reflexivity|].
  split; [apply (proj1 (proj2 (W 3))); [lia | intros [E _]; discriminate E]|].
  apply (proj2 (proj2 (W (-2)))); [lia | reflexivity | reflexivity].
Defined.

Lemma flatten_unflatten_round_trip_witness :
  exists y x', rearrange_flatten x_2122 = Ok y /\
               rearrange_unflatten y 2 2 2 = Ok x' /\ teq x' x_2122.
Proof.
  exact (proj1 (flatten_unflatten_round_trip (SC:=Q_Scalar) 2 2 ltac:(lia) ltac:(lia))
           x_2122 2 1 eq_refl ltac:(lia)).
Defined.

Lemma mlp_same_failure_witness :
  TensorMLP_wf 4 2 3 mlp_4_2_3 /\
  TensorMLP_forward (SC:=Q_Scalar) Q_act mlp_4_2_3 x_124 = Raise EinopsError /\
  SimpleMLP_forward (SC:=Q_Scalar) Q_act (SimpleMLP_of 4 2 3 mlp_4_2_3) x_124
  = Raise EinopsError /\
  TensorMLP_forward (SC:=Q_Scalar) Q_act mlp_4_2_3 (full [2; 1; 2; 3] 0%Q)
  = Raise TorchError /\
  SimpleMLP_forward (SC:=Q_Scalar) Q_act (SimpleMLP_of 4 2 3 mlp_4_2_3)
    (full [2; 1; 2; 3] 0%Q) = Raise TorchError.
Proof.
  assert (Hwf : TensorMLP_wf 4 2 3 mlp_4_2_3) by (repeat split).
  split; [exact Hwf|].
  destruct (mlp_same_failure (SC:=Q_Scalar) Q_act 4 2 3 mlp_4_2_3 x_124 Hwf)
    as [Hrank _].
  destruct (Hrank ltac:(discriminate)) as [H1 H2].
  destruct (mlp_same_failure (SC:=Q_Scalar) Q_act 4 2 3 mlp_4_2_3
              (full [2; 1; 2; 3] 0%Q) Hwf) as [_ Hfeat].
  destruct (Hfeat 2 1 2 3 eq_refl ltac:(lia)) as [H3 H4].
  auto.
Defined.

End MoreValueFacts.

(** * The data path of each notebook, from the collate function to the model *)

Module PipelineFacts.
Import Models ModelFacts MoreValueFacts.

Section WithScalar.
Context {S : Type} {SC : Scalar S}.

Abbreviation tensor := (Value.tensor S).

Lemma main_model_forward args N P model B' :
  TransformerDemo.LitTransformer_init (main_kwargs args P N) = Ok model ->
  0 < a_num_heads args -> 0 <= B' -> 0 <= N ->
  LitTransformer_forward model [B'; N; P] = Ok [B'; 10].
Proof.
  intros Hi Hh HB HN.
  assert (Hhp : TransformerDemo.hparams model
                = save_hyperparameters (main_kwargs args P N) TransformerDemo.defaults).
  { pose proof Hi as Hi'. apply LitTransformer_init_inv in Hi'
      as (? & ? & ? & ? & ? & ? & ? & _ & _ & _ & _ & _ & _ & _ & _ & _ & _ & _ & ->).
    reflexivity. }
  destruct (main_kwargs_lookup args P N) as (L1 & L2 & _ & L4 & L5 & L6 & _).
  cbn zeta in *. rewrite <- Hhp in L1, L2, L4, L5, L6.
  rewrite (LitTransformer_forward_eq _ model _ _ _ _ _ B' N Hi L1 L2 L5 L4 L6)
    by assumption.
  rewrite Z.eqb_refl. reflexivity.
Qed.

(** X16. The transformer notebook's data path, end to end.  With a
    positive [patch_num] that divides 32 and an embedding width that is
    a positive multiple of a positive number of heads, the collate
    function turns the first batch of CIFAR-10 images (3, 32, 32) into
    patch sequences, the main cell builds the model from the shape of
    that batch, and the model then takes every batch the same collate
    function makes, of whatever size, to one row of 10 logits per
    sample. *)
Theorem transformer_pipeline (args : Args) (batch : list (tensor * Z)) :
  batch <> [] ->
  Forall (fun sample => Value.shape (fst sample) = [3; 32; 32]) batch ->
  0 < a_patch_num args -> 32 mod a_patch_num args = 0 ->
  0 < a_embed_dim args -> 0 < a_num_heads args ->
  a_embed_dim args mod a_num_heads args = 0 ->
  exists x dm model tr,
    Value.collate_fn (a_patch_num args) batch = Ok (x, map snd batch) /\
    main args (Value.shape x) = Ok (dm, model, tr) /\
    forall batch' : list (tensor * Z),
      batch' <> [] ->
      Forall (fun sample => Value.shape (fst sample) = [3; 32; 32]) batch' ->
      exists x',
        Value.collate_fn (dm_patch_num dm) batch' = Ok (x', map snd batch') /\
        LitTransformer_forward model (Value.shape x')
        = Ok [Z.of_nat (length batch'); 10].
Proof.
  intros Hne Hall Hp Hmod He Hh Hdiv.
  destruct (collate_fn_shape batch 3 32 32 _ Hne Hall Hp Hmod Hmod) as (x & Hx & Hsx).
  set (p := a_patch_num args) in *.
  assert (Hq : 0 <= 32 / p) by (apply Z.div_pos; lia).
  assert (HP : 0 <= 3 * (32 / p) * (32 / p)) by nia.
  assert (HN : 0 <= p * p) by nia.
  destruct (main_Ok args (Z.of_nat (length batch)) (p * p) (3 * (32 / p) * (32 / p))
              He Hh Hdiv HP HN) as (model & Hi & Hm).
  eexists x, _, model, _. split; [exact Hx|]. rewrite Hsx. split; [exact Hm|].
  intros batch' Hne' Hall'. cbn [dm_patch_num]. fold p.
  destruct (collate_fn_shape batch' 3 32 32 _ Hne' Hall' Hp Hmod Hmod)
    as (x' & Hx' & Hsx').
  exists x'. split; [exact Hx'|]. rewrite Hsx'.
  apply (main_model_forward args); try assumption. lia.
Qed.

(** X17. The autoencoder notebook's data path: on a non-empty batch of
    CIFAR-10 images (3, 32, 32), [gray_collate_fn] gives the gray batch
    and the colour batch, and a model built with any latent width maps
    the gray batch to a tensor of the colour batch's shape, so the MSE
    loss of the steps compares tensors of equal shape. *)
Theorem colorize_pipeline args (m : Colorize.LitColorizeCIFAR10Model)
    (batch : list (tensor * Z)) :
  Colorize.LitColorizeCIFAR10Model_init args = Ok m ->
  batch <> [] ->
  Forall (fun sample => Value.shape (fst sample) = [3; 32; 32]) batch ->
  exists xn x,
    Value.gray_collate_fn batch = Ok (xn, x) /\
    Value.shape x = [Z.of_nat (length batch); 3; 32; 32] /\
    LitColorize_forward m (Value.shape xn) = Ok (Value.shape x).
Proof.
  intros Hi Hne Hall.
  destruct (gray_collate_fn_shape batch 3 32 32 Hne Hall) as (xn & x & Hc & Hsn & Hsx).
  exists xn, x. split; [exact Hc|]. split; [exact Hsx|]. rewrite Hsn, Hsx.
  apply Colorize_init_inv in Hi as (fd & e & d & _ & He & Hd & ->).
  unfold LitColorize_forward. cbn [Colorize.encoder Colorize.decoder].
  rewrite (proj1 (MoreShapeFacts.Encoder_filters_64 64 fd e _ He) eq_refl).
  cbn [mbind res_bind].
  rewrite (MoreShapeFacts.Decoder_forward_side 3 256 fd 32 3 d _ Hd) by lia.
  reflexivity.
Qed.

End WithScalar.

Lemma transformer_pipeline_witness :
  let batch : list (Value.tensor Q * Z) :=
    [(full [3; 32; 32] 0%Q, 3); (full [3; 32; 32] 1%Q, 7)] in
  exists x dm model tr,
    Value.collate_fn (SC:=Q_Scalar) (a_patch_num get_args) batch = Ok (x, [3; 7]) /\
    main get_args (Value.shape x) = Ok (dm, model, tr) /\
    exists x',
      Value.collate_fn (SC:=Q_Scalar) (dm_patch_num dm) batch = Ok (x', [3; 7]) /\
      LitTransformer_forward model (Value.shape x') = Ok [2; 10].
Proof.
  intros batch.
  assert (Hne : batch <> []) by discriminate.
  assert (Hall : Forall (fun sample : Value.tensor Q * Z =>
                           Value.shape (fst sample) = [3; 32; 32]) batch)
    by (repeat constructor).
  destruct (transformer_pipeline (SC:=Q_Scalar) get_args batch Hne Hall
              ltac:(reflexivity) eq_refl ltac:(reflexivity) ltac:(reflexivity) eq_refl)
    as (x & dm & model & tr & Hx & Hm & Hall').
  exists x, dm, model, tr. split; [exact Hx|]. split; [exact Hm|].
  exact (Hall' batch Hne Hall).
Defined.

Lemma colorize_pipeline_witness :
  let batch : list (Value.tensor Q * Z) :=
    [(full [3; 32; 32] 0%Q, 3); (full [3; 32; 32] 1%Q, 7)] in
  exists (m : Colorize.LitColorizeCIFAR10Model) xn x,
    Colorize.LitColorizeCIFAR10Model_init {[ "feature_dim" := HInt 16 ]} = Ok m /\
    Value.gray_collate_fn (SC:=Q_Scalar) batch = Ok (xn, x) /\
    Value.shape x = [2; 3; 32; 32] /\
    LitColorize_forward m (Value.shape xn) = Ok (Value.shape x).
Proof.
  intros batch.
  destruct (Colorize.LitColorizeCIFAR10Model_init {[ "feature_dim" := HInt 16 ]})
    as [m|err] eqn:Hi; [|vm_compute in Hi; discriminate].
  assert (Hne : batch <> []) by discriminate.
  assert (Hall : Forall (fun sample : Value.tensor Q * Z =>
                           Value.shape (fst sample) = [3; 32; 32]) batch)
    by (repeat constructor).
  destruct (colorize_pipeline (SC:=Q_Scalar) _ m batch Hi Hne Hall)
    as (xn & x & Hc & Hs & Hf).
  exists m, xn, x. auto.
Defined.

End PipelineFacts.

(** * Facts about the epoch-end hooks *)

Module MetricsFacts.
Import Metrics LightningFacts.

Local Open Scope Q_scope.

Lemma column_map {A} key (f : A -> outputs) (g : A -> Q) (l : list A) :
  (forall a, f a !! key = Some (g a)) -> column key (map f l) = Ok (map g l).
Proof.
  intros Hk. unfold column. induction l as [|a l IH]; [reflexivity|].
  cbn [map traverse]. rewrite IH. unfold py_dict_get. rewrite Hk. reflexivity.
Qed.

Lemma stack_mean_Ok {A} (g : A -> Q) (l : list A) :
  l <> [] ->
  stack_mean (map g l) = Ok (sum (map g l) / inject_Z (Z.of_nat (length l))).
Proof.
  intros Hne. destruct l as [|a l]; [contradiction|].
  unfold stack_mean. cbn [map]. rewrite <- (length_map g (a :: l)). reflexivity.
Qed.

Lemma sum_scale {A} (g : A -> Q) (c : Q) (l : list A) :
  sum (map (fun a => g a * c) l) == sum (map g l) * c.
Proof.
  induction l as [|a l IH]; cbn [map sum fold_right]; [ring|].
  fold (sum (map (fun a => g a * c) l)). fold (sum (map g l)). rewrite IH. ring.
Qed.

Lemma sum_inject {A} (g : A -> Z) (l : list A) :
  sum (map (fun a => inject_Z (g a)) l) == inject_Z (fold_right Z.add 0%Z (map g l)).
Proof.
  induction l as [|a l IH]; cbn [map sum fold_right]; [reflexivity|].
  fold (sum (map (fun a => inject_Z (g a)) l)). rewrite IH, inject_Z_plus. reflexivity.
Qed.

Lemma sum_div_const {A} (g : A -> Q) (c : Q) (l : list A) :
  sum (map (fun a => g a / c) l) == sum (map g l) / c.
Proof. unfold Qdiv. apply sum_scale. Qed.

Lemma sum_ext {A} (f g : A -> Q) (l : list A) :
  Forall (fun a => f a == g a) l -> sum (map f l) == sum (map g l).
Proof.
  induction 1 as [|a l Ha _ IH]; cbn [map sum fold_right]; [reflexivity|].
  fold (sum (map f l)). fold (sum (map g l)). rewrite Ha, IH. reflexivity.
Qed.


(** X20. What the classifiers log as test accuracy.  On a non-empty
    list of test batches, [LitTransformer] (which scales by 100 in
    [test_epoch_end]) and [LitCIFAR10Model] (which scales each batch in
    [test_step]) log the same [test_loss], the mean of the batch
    losses, and equal values of [test_acc]: 100 times the unweighted
    mean of the batch accuracies.  When all batches have the same
    positive size, that is the percentage of correct predictions over
    all samples. *)
Theorem test_acc_logged (batches : list (Q * list Z * list Z)) (st : log_state) :
  batches <> [] ->
  let loss := fun b : Q * list Z * list Z => fst (fst b) in
  let acc := fun b : Q * list Z * list Z => accuracy (snd (fst b)) (snd b) in
  let k := inject_Z (Z.of_nat (length batches)) in
  let outsT :=
    map (fun b => LitTransformer_test_step (fst (fst b)) (snd (fst b)) (snd b)) batches in
  let outsM :=
    map (fun b => LitCIFAR10Model_test_step (fst (fst b)) (snd (fst b)) (snd b)) batches in
  exists accT accM,
    LitTransformer_test_epoch_end outsT st
    = Ok (log "test_acc" accT (log "test_loss" (sum (map loss batches) / k) st)) /\
    LitCIFAR10Model_test_epoch_end outsM st
    = Ok (log "test_acc" accM (log "test_loss" (sum (map loss batches) / k) st)) /\
    accT == accM /\
    accT == 100 * (sum (map acc batches) / k) /\
    forall n, (0 < n)%nat -> Forall (fun b => length (snd b) = n) batches ->
      accT == 100 * inject_Z (fold_right Z.add 0%Z
                       (map (fun b => correct (snd (fst b)) (snd b)) batches))
              / inject_Z (Z.of_nat (length batches * n)).
Proof.
  intros Hne loss acc k outsT outsM.
  assert (Hk : ~ k == 0).
  { subst k. destruct batches; [contradiction|]. cbn [length].
    unfold Qeq; cbn; lia. }
  exists (sum (map acc batches) / k * 100),
         (sum (map (fun b => acc b * 100) batches) / k).
  split; [|split; [|split; [|split]]].
  - unfold LitTransformer_test_epoch_end. subst outsT.
    rewrite (column_map "test_loss" _ loss) by (intros b; reflexivity).
    cbn [mbind res_bind]. rewrite stack_mean_Ok by assumption. cbn [mbind res_bind].
    rewrite (column_map "test_acc" _ acc) by (intros b; reflexivity).
    cbn [mbind res_bind]. rewrite stack_mean_Ok by assumption. reflexivity.
  - unfold LitCIFAR10Model_test_epoch_end. subst outsM.
    rewrite (column_map "test_loss" _ loss) by (intros b; reflexivity).
    cbn [mbind res_bind]. rewrite stack_mean_Ok by assumption. cbn [mbind res_bind].
    rewrite (column_map "test_acc" _ (fun b => acc b * 100)) by (intros b; reflexivity).
    cbn [mbind res_bind]. rewrite stack_mean_Ok by assumption. reflexivity.
  - rewrite sum_scale. field. exact Hk.
  - field. exact Hk.
  - intros n Hn Hall.
    assert (Hn0 : ~ inject_Z (Z.of_nat n) == 0) by (unfold Qeq; cbn; lia).
    assert (Hacc : sum (map acc batches)
                   == sum (map (fun b => inject_Z (correct (snd (fst b)) (snd b)))
                             batches) / inject_Z (Z.of_nat n)).
    { rewrite <- sum_div_const. apply sum_ext.
      eapply Forall_impl; [exact Hall|]. intros b Hb. subst acc. cbn beta.
      unfold accuracy. rewrite Hb. reflexivity. }
    rewrite Hacc, sum_inject, Nat2Z.inj_mul, inject_Z_mult. fold k.
    field. split; assumption.
Qed.

Lemma test_acc_logged_witness :
  let batches : list (Q * list Z * list Z) :=
    [(1 # 2, [3; 5]%Z, [3; 4]%Z); (3 # 2, [7; 7]%Z, [7; 7]%Z)] in
  exists accT accM,
    LitTransformer_test_epoch_end
      (map (fun b => LitTransformer_test_step (fst (fst b)) (snd (fst b)) (snd b))
           batches) []
    = Ok [("test_loss", ((1 # 2) + ((3 # 2) + 0)) / inject_Z 2); ("test_acc", accT)] /\
    LitCIFAR10Model_test_epoch_end
      (map (fun b => LitCIFAR10Model_test_step (fst (fst b)) (snd (fst b)) (snd b))
           batches) []
    = Ok [("test_loss", ((1 # 2) + ((3 # 2) + 0)) / inject_Z 2); ("test_acc", accM)] /\
    accT == accM /\ accT == 75.
Proof.
  intros batches.
  destruct (test_acc_logged batches [] ltac:(discriminate))
    as (accT & accM & HT & HM & Heq & _ & Hn).
  exists accT, accM. split; [exact HT|]. split; [exact HM|]. split; [exact Heq|].
  rewrite (Hn 2%nat ltac:(lia) ltac:(repeat constructor)). reflexivity.
Defined.

(** X21. The epoch-end hooks against the step hooks.  Each epoch-end
    hook of the three Lightning modules finds the keys it reads in what
    the matching step hook returns, so on a non-empty epoch it returns
    and logs the mean of the batch losses; on an epoch without batches
    it fails inside [torch.stack]. *)
Theorem epoch_end_hooks (losses : list Q) (st : log_state) :
  let k := inject_Z (Z.of_nat (length losses)) in
  (losses <> [] ->
   LitCIFAR10Model_training_epoch_end (map LitCIFAR10Model_training_step losses) st
   = Ok (log "train_loss" (sum losses / k) st) /\
   LitColorize_training_epoch_end (map LitColorize_training_step losses) st
   = Ok (log "train_loss" (sum losses / k) st) /\
   LitColorize_test_epoch_end (map LitColorize_test_step losses) st
   = Ok (log "test_loss" (sum losses / k) st)) /\
  LitCIFAR10Model_training_epoch_end [] st = Raise TorchError /\
  LitColorize_training_epoch_end [] st = Raise TorchError /\
  LitColorize_test_epoch_end [] st = Raise TorchError /\
  LitCIFAR10Model_test_epoch_end [] st = Raise TorchError /\
  LitTransformer_test_epoch_end [] st = Raise TorchError.
Proof.
  intros k. split; [|repeat split; reflexivity].
  intros Hne.
  assert (Hid : map (fun q : Q => q) losses = losses) by apply map_id.
  assert (Hmean : stack_mean losses = Ok (sum losses / k)).
  { rewrite <- Hid at 1. rewrite stack_mean_Ok by assumption. rewrite Hid. reflexivity. }
  assert (Hcol : forall key (f : Q -> outputs),
             (forall q, f q !! key = Some q) -> column key (map f losses) = Ok losses).
  { intros key f Hf. rewrite (column_map key f (fun q => q)) by exact Hf.
    rewrite Hid. reflexivity. }
  unfold LitCIFAR10Model_training_epoch_end, LitColorize_training_epoch_end,
    LitColorize_test_epoch_end.
  rewrite (Hcol "loss" LitCIFAR10Model_training_step) by reflexivity.
  rewrite (Hcol "loss" LitColorize_training_step) by reflexivity.
  rewrite (Hcol "test_loss" LitColorize_test_step) by reflexivity.
  cbn [mbind res_bind]. rewrite Hmean. cbn [mbind res_bind].
  repeat split; reflexivity.
Qed.

Lemma epoch_end_hooks_witness :
  LitColorize_training_epoch_end (map LitColorize_training_step [1 # 2; 3 # 2]) []
  = Ok [("train_loss", ((1 # 2) + ((3 # 2) + 0)) / inject_Z 2)].
Proof.
  exact (proj1 (proj2 (proj1 (epoch_end_hooks [1 # 2; 3 # 2] []) ltac:(discriminate)))).
Defined.

End MetricsFacts.

(** * More facts about the callbacks and the constructors *)

Module CallbackFacts.
Import LightningFacts.

Lemma length_py_slice_to {A} (l : list A) n :
  0 <= n -> Z.of_nat (length (py_slice_to l n)) = Z.min n (Z.of_nat (length l)).
Proof.
  intros Hn. unfold py_slice_to. destruct (Z.ltb_spec n 0); [lia|].
  rewrite length_take. lia.
Qed.

Lemma length_py_slice_to_neg {A} (l : list A) n :
  n < 0 -> Z.of_nat (length (py_slice_to l n)) = Z.max 0 (Z.of_nat (length l) + n).
Proof.
  intros Hn. unfold py_slice_to. destruct (Z.ltb_spec n 0); [|lia].
  rewrite length_take. lia.
Qed.

Lemma length_zip3 {A B C} (a : list A) (b : list B) (c : list C) :
  length (zip3 a b c) = Nat.min (length a) (Nat.min (length b) (length c)).
Proof.
  revert b c. induction a as [|x a IH]; intros [|y b] [|z c]; cbn [zip3 length];
    try reflexivity; try lia.
  rewrite IH. lia.
Qed.

Lemma zip3_lookup {A B C} (a : list A) (b : list B) (c : list C) i x y z :
  a !! i = Some x -> b !! i = Some y -> c !! i = Some z ->
  zip3 a b c !! i = Some (x, y, z).
Proof.
  revert b c i. induction a as [|x0 a IH]; intros [|y0 b] [|z0 c] [|i];
    cbn; try discriminate; intros Ha Hb Hc.
  - congruence.
  - apply IH; assumption.
Qed.

Lemma label_human_getitem_wrap z :
  -10 <= z < 10 ->
  py_getitem MlpDemo.label_human z
  = Ok (nth (Z.to_nat (z mod 10)) MlpDemo.label_human "").
Proof.
  intros Hz.
  assert (Hcases : z = -10 \/ z = -9 \/ z = -8 \/ z = -7 \/ z = -6 \/ z = -5
                   \/ z = -4 \/ z = -3 \/ z = -2 \/ z = -1 \/ 0 <= z < 10) by lia.
  repeat (destruct Hcases as [-> | Hcases]; [reflexivity|]).
  rewrite Z.mod_small by lia. apply label_human_getitem. exact Hcases.
Qed.

Lemma label_human_getitem_out z :
  ~ (-10 <= z < 10) -> py_getitem MlpDemo.label_human z = Raise IndexError.
Proof.
  intros Hz. unfold py_getitem. change (Z.of_nat (length MlpDemo.label_human)) with 10.
  destruct (Z.ltb_spec z 0).
  - destruct (Z.ltb_spec (z + 10) 0); [reflexivity | lia].
  - destruct (Z.ltb_spec z 0); [lia|].
    rewrite (proj2 (lookup_ge_None MlpDemo.label_human (Z.to_nat z))); [reflexivity|].
    change (length MlpDemo.label_human) with 10%nat. lia.
Qed.

Lemma traverse_Raise {A B} (f : A -> res B) (l : list A) e :
  Forall (fun a => f a = Raise e \/ exists b, f a = Ok b) l ->
  Exists (fun a => f a = Raise e) l -> traverse f l = Raise e.
Proof.
  induction 1 as [|a l Ha _ IH]; intros Hex; [inversion Hex|].
  cbn [traverse]. destruct Ha as [Ha | [b Hb]].
  - rewrite Ha. reflexivity.
  - rewrite Hb. cbn [mbind res_bind]. rewrite IH; [reflexivity|].
    apply Exists_cons in Hex as [Hh | Ht]; [congruence | exact Ht].
Qed.

Section WithFramework.
Context {T : Type} `{Framework T}.

(** X18. The size of the table the autoencoder's callback logs on the
    first validation batch: with n = batch_size // 4 and a batch of L
    samples, the table has min(n, L) rows when [batch_size] is not
    negative, the first ones of the batch in order, and max(L + n, 0)
    rows when it is negative (the slice [:n] then drops the last -n
    samples).  With the default batch size 64 that is 16 rows for a
    full batch, not the 10 the comment announces; a batch size below 4
    logs an empty table. *)
Theorem Colorize_callback_rows (m : Colorize.LitColorizeCIFAR10Model)
    outputs x c st bs o cs xs os :
  Colorize.hparams m !! "batch_size" = Some (HInt bs) ->
  output_get outputs "x_tilde" = Ok o ->
  unbind c = Ok cs -> unbind x = Ok xs -> unbind o = Ok os ->
  length cs = length xs -> length os = length xs ->
  let L := Z.of_nat (length xs) in
  exists data,
    Colorize.WandbCallback_on_validation_batch_end m outputs (x, c) 0 st
    = Ok (st ++ [mkTable "cifar10-colorize-ae" ["gt color"; "gray"; "colorized"] data]) /\
    Z.of_nat (length data)
    = (if 0 <=? bs then Z.min (bs / 4) L else Z.max 0 (L + bs / 4)) /\
    (forall i c_i x_i o_i, 0 <= bs -> (Z.of_nat i < bs / 4) ->
       cs !! i = Some c_i -> xs !! i = Some x_i -> os !! i = Some o_i ->
       data !! i = Some [Image c_i; Image x_i; Image o_i]).
Proof.
  intros Hbs Ho Hc Hx Hos Hlc Hlo L.
  eexists. split; [apply (Colorize_callback_first m outputs x c st bs o cs xs os);
                   assumption|].
  split.
  - rewrite length_map, length_zip3, !Nat2Z.inj_min.
    destruct (Z.leb_spec 0 bs) as [Hb|Hb].
    + assert (0 <= bs / 4) by (apply Z.div_pos; lia).
      rewrite !length_py_slice_to by assumption. rewrite Hlc, Hlo. fold L. lia.
    + assert (bs / 4 < 0) by (apply Z.div_lt_upper_bound; lia).
      rewrite !length_py_slice_to_neg by assumption. rewrite Hlc, Hlo. fold L. lia.
  - intros i c_i x_i o_i Hb Hi Hci Hxi Hoi.
    assert (Hn : 0 <= bs / 4) by (apply Z.div_pos; lia).
    assert (Hsl : forall A (l : list A) a, l !! i = Some a ->
              py_slice_to l (bs / 4) !! i = Some a).
    { intros A l a Hl. unfold py_slice_to. destruct (Z.ltb_spec (bs / 4) 0); [lia|].
      rewrite lookup_take_lt by lia. exact Hl. }
    rewrite list_lookup_fmap.
    rewrite (zip3_lookup _ _ _ i c_i x_i o_i) by (apply Hsl; assumption).
    reflexivity.
Qed.


(** X19. The MLP notebook's callback on the first validation batch
    logs one row for each of the first min(10, L) samples, and looks
    every label and prediction up in the ten class names with Python's
    indexing: an index from -10 to -1 counts from the end and is
    accepted (it names class index + 10), and the callback raises
    IndexError exactly when a label or a prediction of those rows is
    outside [-10, 10). *)
Theorem Mlp_callback_labels (m : MlpDemo.LitCIFAR10Model)
    outputs x y st o xs ys preds :
  output_get outputs "y_hat" = Ok o ->
  unbind x = Ok xs -> to_ints y = Ok ys -> to_ints (argmax_dim1 o) = Ok preds ->
  let rows := zip3 (py_slice_to xs 10) (py_slice_to ys 10) (py_slice_to preds 10) in
  let ok := fun z : Z => -10 <= z < 10 in
  Z.of_nat (length rows)
  = Z.min 10 (Z.min (Z.of_nat (length xs))
                    (Z.min (Z.of_nat (length ys)) (Z.of_nat (length preds)))) /\
  (Forall (fun r => ok (snd (fst r)) /\ ok (snd r)) rows ->
   MlpDemo.WandbCallback_on_validation_batch_end m outputs (x, y) 0 st
   = Ok (st ++ [mkTable (class_name (MlpDemo.model m))
                  ["image"; "ground truth"; "prediction"]
                  (map (fun r =>
                          [Image (fst (fst r));
                           Str (nth (Z.to_nat (snd (fst r) mod 10)) MlpDemo.label_human "");
                           Str (nth (Z.to_nat (snd r mod 10)) MlpDemo.label_human "")])
                       rows)])) /\
  (Exists (fun r => ~ (ok (snd (fst r)) /\ ok (snd r))) rows ->
   MlpDemo.WandbCallback_on_validation_batch_end m outputs (x, y) 0 st
   = Raise IndexError).
Proof.
  intros Ho Hx Hy Hp rows ok. split; [|split].
  - subst rows. rewrite length_zip3, !Nat2Z.inj_min, !length_py_slice_to by lia. lia.
  - intros Hall. unfold MlpDemo.WandbCallback_on_validation_batch_end.
    cbn [Z.eqb]. rewrite Ho. cbn [mbind res_bind]. rewrite Hx. cbn [mbind res_bind].
    rewrite Hy. cbn [mbind res_bind]. rewrite Hp. cbn [mbind res_bind].
    fold rows. erewrite traverse_Ok; [reflexivity|].
    eapply Forall_impl; [exact Hall|].
    intros [[x_i y_i] y_pred] [Hy_i Hy_pred]. cbn [fst snd] in *.
    rewrite !label_human_getitem_wrap by assumption. reflexivity.
  - intros Hex. unfold MlpDemo.WandbCallback_on_validation_batch_end.
    cbn [Z.eqb]. rewrite Ho. cbn [mbind res_bind]. rewrite Hx. cbn [mbind res_bind].
    rewrite Hy. cbn [mbind res_bind]. rewrite Hp. cbn [mbind res_bind].
    fold rows. rewrite (traverse_Raise _ rows IndexError); [reflexivity| |].
    + apply Forall_forall. intros [[x_i y_i] y_pred] _.
      destruct (decide (ok y_i)) as [Hy_i|Hy_i].
      * rewrite (label_human_getitem_wrap y_i Hy_i). cbn [mbind res_bind].
        destruct (decide (ok y_pred)) as [Hp_i|Hp_i].
        -- rewrite (label_human_getitem_wrap y_pred Hp_i). right. eauto.
        -- rewrite (label_human_getitem_out y_pred Hp_i). left. reflexivity.
      * rewrite (label_human_getitem_out y_i Hy_i). left. reflexivity.
    + eapply Exists_impl; [exact Hex|].
      intros [[x_i y_i] y_pred] Hnot. cbn [fst snd] in *.
      destruct (decide (ok y_i)) as [Hy_i|Hy_i].
      * rewrite (label_human_getitem_wrap y_i Hy_i). cbn [mbind res_bind].
        rewrite label_human_getitem_out; [reflexivity|]. intros Hp_i. apply Hnot. auto.
      * rewrite (label_human_getitem_out y_i Hy_i). reflexivity.
Qed.


Lemma py_arg_insert_ne (args defaults : kwargs) k v name :
  k <> name -> py_arg (<[k := v]> args) defaults name = py_arg args defaults name.
Proof.
  intros Hne. unfold py_arg.
  replace ((<[k := v]> args ∪ defaults) !! name) with ((args ∪ defaults) !! name);
    [reflexivity|].
  rewrite <- insert_union_l, lookup_insert_ne by exact Hne. reflexivity.
Qed.

(** X22. A keyword that is not a parameter of the constructor.
    [LitTransformer] and [LitColorizeCIFAR10Model] take [**kwargs]:
    the keyword is accepted without a word, builds the very same
    layers, and only shows up in [hparams].  [LitCIFAR10Model] has no
    [**kwargs] and rejects the call with a TypeError. *)
Theorem unknown_keyword (args : kwargs) (k : string) (v : hval) :
  (TransformerDemo.defaults !! k = None ->
   forall m, TransformerDemo.LitTransformer_init args = Ok m ->
     TransformerDemo.LitTransformer_init (<[k := v]> args)
     = Ok (TransformerDemo.mkLit (<[k := v]> (TransformerDemo.hparams m))
             (TransformerDemo.encoder m) (TransformerDemo.embed m)
             (TransformerDemo.fc m))) /\
  (Colorize.defaults !! k = None ->
   forall m, Colorize.LitColorizeCIFAR10Model_init args = Ok m ->
     Colorize.LitColorizeCIFAR10Model_init (<[k := v]> args)
     = Ok (Colorize.mkLit (<[k := v]> (Colorize.hparams m))
             (Colorize.encoder m) (Colorize.decoder m))) /\
  (MlpDemo.defaults !! k = None ->
   MlpDemo.LitCIFAR10Model_init (<[k := v]> args) = Raise TypeError).
Proof.
  split; [|split].
  - intros Hk m. unfold TransformerDemo.LitTransformer_init.
    rewrite !py_arg_insert_ne by (intros ->; vm_compute in Hk; discriminate).
    unfold save_hyperparameters. rewrite <- insert_union_l.
    repeat (match goal with
            | |- context [mbind _ ?r] =>
                destruct r; [|discriminate]; cbn [mbind res_bind]
            end).
    intros E; injection E as <-. reflexivity.
  - intros Hk m. unfold Colorize.LitColorizeCIFAR10Model_init.
    rewrite !py_arg_insert_ne by (intros ->; vm_compute in Hk; discriminate).
    unfold save_hyperparameters. rewrite <- insert_union_l.
    repeat (match goal with
            | |- context [mbind _ ?r] =>
                destruct r; [|discriminate]; cbn [mbind res_bind]
            end).
    intros E; injection E as <-. reflexivity.
  - intros Hk. unfold MlpDemo.LitCIFAR10Model_init.
    destruct (decide (dom (<[k := v]> args) ⊆ dom MlpDemo.defaults)) as [Hsub|];
      [|reflexivity].
    exfalso. apply not_elem_of_dom in Hk. apply Hk, Hsub.
    rewrite dom_insert. set_solver.
Qed.

End WithFramework.

Lemma Colorize_callback_rows_witness :
  let F := sym_Framework (fun _ => 0) in
  let x := SBatch [SVar "gray0"; SVar "gray1"; SVar "gray2"] in
  let c := SBatch [SVar "img0"; SVar "img1"; SVar "img2"] in
  let o := SBatch [SVar "out0"; SVar "out1"; SVar "out2"] in
  exists (m : Colorize.LitColorizeCIFAR10Model) data,
    Colorize.LitColorizeCIFAR10Model_init {[ "batch_size" := HInt 8 ]} = Ok m /\
    Colorize.WandbCallback_on_validation_batch_end m
      (RetDict {[ "x_tilde" := o ]}) (x, c) 0 []
    = Ok [mkTable "cifar10-colorize-ae" ["gt color"; "gray"; "colorized"] data] /\
    Z.of_nat (length data) = 2 /\
    data !! 1%nat = Some [Image (SVar "img1"); Image (SVar "gray1"); Image (SVar "out1")].
Proof.
  intros F x c o.
  destruct (Colorize.LitColorizeCIFAR10Model_init {[ "batch_size" := HInt 8 ]})
    as [m|e] eqn:Hinit; [|vm_compute in Hinit; discriminate].
  assert (Hbs : Colorize.hparams m !! "batch_size" = Some (HInt 8)).
  { rewrite (Colorize_init_hparams _ m Hinit). reflexivity. }
  assert (Ho : output_get (RetDict {[ "x_tilde" := o ]}) "x_tilde" = Ok o)
    by reflexivity.
  assert (Hc : unbind c = Ok [SVar "img0"; SVar "img1"; SVar "img2"]) by reflexivity.
  assert (Hx : unbind x = Ok [SVar "gray0"; SVar "gray1"; SVar "gray2"]) by reflexivity.
  assert (Hos : unbind o = Ok [SVar "out0"; SVar "out1"; SVar "out2"]) by reflexivity.
  destruct (Colorize_callback_rows m (RetDict {[ "x_tilde" := o ]}) x c []
              8 o _ _ _ Hbs Ho Hc Hx Hos eq_refl eq_refl)
    as (data & Hcb & Hlen & Hrow).
  exists m, data. split; [reflexivity|]. split; [exact Hcb|]. split; [exact Hlen|].
  apply Hrow; [lia | reflexivity | reflexivity | reflexivity | reflexivity].
Defined.

Lemma Mlp_callback_labels_witness :
  let F := sym_Framework (fun r => match r with
                                   | SApp _ [SVar "img1"] => 12
                                   | _ => 3
                                   end) in
  let x := SBatch [SVar "img0"; SVar "img1"] in
  exists m : MlpDemo.LitCIFAR10Model,
    MlpDemo.LitCIFAR10Model_init ∅ = Ok m /\
    to_ints (argmax_dim1 (MlpDemo.forward m x)) = Ok [3; 12] /\
    MlpDemo.WandbCallback_on_validation_batch_end m
      (RetDict {[ "y_hat" := MlpDemo.forward m x ]}) (x, SLabels [5; -1]) 0 []
    = Raise IndexError /\
    MlpDemo.WandbCallback_on_validation_batch_end m
      (RetDict {[ "y_hat" := MlpDemo.forward m (SBatch [SVar "img0"; SVar "img2"]) ]})
      (SBatch [SVar "img0"; SVar "img2"], SLabels [5; -1]) 0 []
    = Ok [mkTable "SimpleMLP" ["image"; "ground truth"; "prediction"]
            [[Image (SVar "img0"); Str "dog"; Str "cat"];
             [Image (SVar "img2"); Str "truck"; Str "cat"]]].
Proof.
  intros F x.
  destruct (MlpDemo.LitCIFAR10Model_init ∅) as [m|e] eqn:Hinit;
    [|vm_compute in Hinit; discriminate].
  exists m.
  assert (Hm : m = MlpDemo.mkLit (save_hyperparameters ∅ MlpDemo.defaults)
                 (mkMlpModel "SimpleMLP" (HInt 10))).
  { vm_compute in Hinit. injection Hinit as <-. vm_compute. reflexivity. }
  assert (Hpred : to_ints (argmax_dim1 (MlpDemo.forward m x)) = Ok [3; 12]).
  { rewrite Hm. reflexivity. }
  split; [reflexivity|]. split; [exact Hpred|]. split.
  - assert (Ho : output_get (RetDict {[ "y_hat" := MlpDemo.forward m x ]}) "y_hat"
                 = Ok (MlpDemo.forward m x)) by reflexivity.
    assert (Hx : unbind x = Ok [SVar "img0"; SVar "img1"]) by reflexivity.
    assert (Hy : to_ints (SLabels [5; -1]) = Ok [5; -1]) by reflexivity.
    destruct (Mlp_callback_labels m
                (RetDict {[ "y_hat" := MlpDemo.forward m x ]}) x (SLabels [5; -1]) []
                (MlpDemo.forward m x) _ _ _ Ho Hx Hy Hpred)
      as (_ & _ & Hfail).
    apply Hfail. apply Exists_cons_tl, Exists_cons_hd. cbn [fst snd]. lia.
  - set (x2 := SBatch [SVar "img0"; SVar "img2"]).
    assert (Hpred2 : to_ints (argmax_dim1 (MlpDemo.forward m x2)) = Ok [3; 3]).
    { rewrite Hm. reflexivity. }
    assert (Ho : output_get (RetDict {[ "y_hat" := MlpDemo.forward m x2 ]}) "y_hat"
                 = Ok (MlpDemo.forward m x2)) by reflexivity.
    assert (Hx : unbind x2 = Ok [SVar "img0"; SVar "img2"]) by reflexivity.
    assert (Hy : to_ints (SLabels [5; -1]) = Ok [5; -1]) by reflexivity.
    destruct (Mlp_callback_labels m
                (RetDict {[ "y_hat" := MlpDemo.forward m x2 ]}) x2 (SLabels [5; -1]) []
                (MlpDemo.forward m x2) _ _ _ Ho Hx Hy Hpred2)
      as (_ & Hok & _).
    rewrite Hok by (repeat constructor; cbn [fst snd]; lia).
    rewrite Hm. reflexivity.
Defined.

Lemma unknown_keyword_witness :
  exists m : TransformerDemo.LitTransformer,
    TransformerDemo.defaults !! "epochs" = None /\
    TransformerDemo.LitTransformer_init ∅ = Ok m /\
    TransformerDemo.LitTransformer_init {[ "epochs" := HInt 50 ]}
    = Ok (TransformerDemo.mkLit (<[ "epochs" := HInt 50 ]> (TransformerDemo.hparams m))
            (TransformerDemo.encoder m) (TransformerDemo.embed m)
            (TransformerDemo.fc m)) /\
    MlpDemo.LitCIFAR10Model_init {[ "epochs" := HInt 50 ]} = Raise TypeError.
Proof.
  destruct (TransformerDemo.LitTransformer_init ∅) as [m|e] eqn:Hinit;
    [|vm_compute in Hinit; discriminate].
  exists m. split; [reflexivity|]. split; [reflexivity|].
  destruct (unknown_keyword ∅ "epochs" (HInt 50)) as (HT & _ & HM).
  split; [exact (HT eq_refl m Hinit) | exact (HM eq_refl)].
Defined.

End CallbackFacts.

(** * The range of the gray batch *)

Module RangeFacts.
Import Value ValueFacts MoreValueFacts.

Lemma fold_sum_bounds (f : nat -> R) (l : list nat) (lo hi : R) :
  Forall (fun k => (lo <= f k <= hi)%R) l ->
  (INR (length l) * lo <= fold_right Rplus 0%R (map f l) <= INR (length l) * hi)%R.
Proof.
  induction 1 as [|k l Hk _ IH].
  - cbn. lra.
  - cbn [map fold_right length]. rewrite S_INR. lra.
Qed.

Lemma sum_range_bounds (n : Z) (f : Z -> R) (lo hi : R) :
  0 <= n -> (forall k, 0 <= k < n -> (lo <= f k <= hi)%R) ->
  (IZR n * lo <= sum_range (SC:=R_Scalar) n f <= IZR n * hi)%R.
Proof.
  intros Hn Hf. unfold sum_range. cbn [sadd szero R_Scalar].
  assert (HF : Forall (fun k => (lo <= f (Z.of_nat k) <= hi)%R) (seq 0 (Z.to_nat n))).
  { apply Forall_forall. intros k Hk. apply list_elem_of_In, in_seq in Hk.
    apply Hf. lia. }
  pose proof (fold_sum_bounds (fun k => f (Z.of_nat k)) _ lo hi HF) as Hb.
  rewrite length_seq, INR_IZR_INZ, Z2Nat.id in Hb by lia. exact Hb.
Qed.

(** X24. Over the reals, the gray batch stays within the range of the
    colour images: if every entry of every image of the batch lies in
    [lo, hi], so does every pixel of [xn], the channel mean.  For
    CIFAR-10 images from [ToTensor], in [0, 1], the autoencoder's input
    is in [0, 1] as well. *)
Theorem gray_within_range (batch : list (tensor R * Z)) (c h w : Z) (lo hi : R) :
  batch <> [] ->
  Forall (fun sample => shape (fst sample) = [c; h; w]) batch -> 0 < c ->
  Forall (fun sample => forall ci i j, 0 <= ci < c ->
            (lo <= get (fst sample) [ci; i; j]%Z <= hi)%R) batch ->
  exists xn x,
    gray_collate_fn (SC:=R_Scalar) batch = Ok (xn, x) /\
    forall b i j, 0 <= b < Z.of_nat (length batch) ->
      (lo <= get xn [b; 0; i; j]%Z <= hi)%R.
Proof.
  intros Hne Hall Hc Hrange.
  assert (Hne' : map fst batch <> []) by (destruct batch; [contradiction | discriminate]).
  assert (Hall' : Forall (fun x : tensor R => shape x = [c; h; w]) (map fst batch)).
  { apply Forall_map. exact Hall. }
  destruct (stack_Ok (SC:=R_Scalar) (map fst batch) [c; h; w] Hne' Hall')
    as (x & Hx & Hsx & Hgx).
  unfold gray_collate_fn. rewrite unzip_batch_Ok by assumption. cbn [mbind res_bind].
  rewrite Hx. cbn [mbind res_bind]. unfold reduce_mean_channels. rewrite Hsx.
  cbn [mbind res_bind]. eexists _, x. split; [reflexivity|].
  intros b i j Hb. cbn [get sdiv sofZ R_Scalar].
  destruct (lookup_lt_is_Some_2 batch (Z.to_nat b) ltac:(lia)) as [[image label] Hl].
  assert (Him : forall ci, 0 <= ci < c -> (lo <= get x [b; ci; i; j]%Z <= hi)%R).
  { intros ci Hci. rewrite (Hgx b image) by
      (try lia; rewrite list_lookup_fmap, Hl; reflexivity).
    rewrite Forall_forall in Hrange.
    apply (Hrange (image, label)); [|exact Hci].
    eapply list_elem_of_lookup_2. exact Hl. }
  pose proof (sum_range_bounds c (fun ci => get x [b; ci; i; j]) lo hi ltac:(lia) Him)
    as [Hlo Hhi].
  assert (HcR : (0 < IZR c)%R) by (apply IZR_lt; lia).
  split.
  - apply (Rmult_le_reg_r (IZR c)); [exact HcR|].
    unfold Rdiv. rewrite Rmult_assoc, Rinv_l by lra. lra.
  - apply (Rmult_le_reg_r (IZR c)); [exact HcR|].
    unfold Rdiv. rewrite Rmult_assoc, Rinv_l by lra. lra.
Qed.

Lemma gray_within_range_witness :
  let batch : list (tensor R * Z) :=
    [(full [3; 32; 32] (1 / 2)%R, 3); (full [3; 32; 32] 1%R, 7)] in
  exists xn x,
    gray_collate_fn (SC:=R_Scalar) batch = Ok (xn, x) /\
    (0 <= get xn [1; 0; 5; 5]%Z <= 1)%R.
Proof.
  intros batch.
  assert (Hne : batch <> []) by discriminate.
  assert (Hall : Forall (fun sample : tensor R * Z => shape (fst sample) = [3; 32; 32])
                   batch) by (repeat constructor).
  assert (Hr : Forall (fun sample : tensor R * Z => forall ci i j, 0 <= ci < 3 ->
                         (0 <= get (fst sample) [ci; i; j]%Z <= 1)%R) batch).
  { repeat constructor; cbn; lra. }
  destruct (gray_within_range batch 3 32 32 0%R 1%R Hne Hall ltac:(lia) Hr)
    as (xn & x & Hc & Hb).
  exists xn, x. split; [exact Hc|]. apply Hb. cbn. lia.
Defined.

End RangeFacts.

(** * The defaults of the transformer notebook *)

Module DefaultsFacts.
Import Models ModelFacts MoreValueFacts.

Lemma patch_num_4 p :
  0 < p -> 32 mod p = 0 -> 3 * (32 / p) * (32 / p) = 192 -> p = 4.
Proof.
  intros Hp Hmod Hq. pose proof (Z.div_mod 32 p ltac:(lia)) as Hd. rewrite Hmod in Hd.
  set (q := 32 / p) in *. assert (Hq0 : 0 <= q) by (apply Z.div_pos; lia).
  assert (q = 8) by nia. nia.
Qed.

Section WithScalar.
Context {S : Type} {SC : Scalar S}.

(** X23. The defaults of the two classes of the transformer notebook
    fit each other: a [LitTransformer] built without arguments
    ([patch_dim] 192, [seqlen] 16) takes the batches that
    [LitCifar10.collate_fn] makes from CIFAR-10 images exactly for
    [patch_num = 4], the default of [LitCifar10]; for any other patch
    number that divides 32, such as the 8 of [get_args], its embedding
    layer rejects the batch, which is why the main cell sizes the model
    from the data. *)
Theorem default_model_patch_num (m : TransformerDemo.LitTransformer)
    (batch : list (Value.tensor S * Z)) (p : Z) :
  TransformerDemo.LitTransformer_init ∅ = Ok m ->
  batch <> [] ->
  Forall (fun sample => Value.shape (fst sample) = [3; 32; 32]) batch ->
  0 < p -> 32 mod p = 0 ->
  exists x,
    Value.collate_fn p batch = Ok (x, map snd batch) /\
    LitTransformer_forward m (Value.shape x)
    = if p =? 4 then Ok [Z.of_nat (length batch); 10] else Raise TorchError.
Proof.
  intros Hi Hne Hall Hp Hmod.
  destruct (collate_fn_shape batch 3 32 32 p Hne Hall Hp Hmod Hmod) as (x & Hx & Hsx).
  exists x. split; [exact Hx|]. rewrite Hsx.
  assert (Hhp : TransformerDemo.hparams m
                = save_hyperparameters ∅ TransformerDemo.defaults).
  { pose proof Hi as Hi'. apply LitTransformer_init_inv in Hi'
      as (? & ? & ? & ? & ? & ? & ? & _ & _ & _ & _ & _ & _ & _ & _ & _ & _ & _ & ->).
    reflexivity. }
  assert (L : forall k v, save_hyperparameters ∅ TransformerDemo.defaults !! k = Some v ->
                TransformerDemo.hparams m !! k = Some v).
  { intros k v Hk. rewrite Hhp. exact Hk. }
  destruct (Z.eqb_spec p 4) as [->|Hp4].
  - change (4 * 4) with 16. change (3 * (32 / 4) * (32 / 4)) with 192.
    rewrite (LitTransformer_forward_eq ∅ m 64 4 16 192 10 _ 16 Hi
               (L "embed_dim" _ eq_refl) (L "head" _ eq_refl) (L "seqlen" _ eq_refl)
               (L "patch_dim" _ eq_refl) (L "num_classes" _ eq_refl)) by lia.
    reflexivity.
  - pose proof Hi as Hi'. apply LitTransformer_init_inv in Hi'
      as (e' & h' & depth & p0 & s' & c' & enc & _ & _ & _ & Hp' & _ & _
          & _ & _ & _ & _ & _ & ->).
    cbn zeta in Hp'. vm_compute in Hp'. injection Hp' as <-.
    unfold LitTransformer_forward. cbn [TransformerDemo.embed].
    rewrite MoreShapeFacts.Linear_forward_mismatch; [reflexivity|].
    cbn [Shape.in_features]. intros E. apply Hp4. apply patch_num_4; assumption.
Qed.

End WithScalar.

Lemma default_model_patch_num_witness :
  let batch : list (Value.tensor Q * Z) := [(full [3; 32; 32] 0%Q, 3)] in
  exists (m : TransformerDemo.LitTransformer) x x',
    TransformerDemo.LitTransformer_init ∅ = Ok m /\
    Value.collate_fn (SC:=Q_Scalar) 4 batch = Ok (x, [3]) /\
    LitTransformer_forward m (Value.shape x) = Ok [1; 10] /\
    Value.collate_fn (SC:=Q_Scalar) (a_patch_num get_args) batch = Ok (x', [3]) /\
    LitTransformer_forward m (Value.shape x') = Raise TorchError.
Proof.
  intros batch.
  destruct (TransformerDemo.LitTransformer_init ∅) as [m|e] eqn:Hi;
    [|vm_compute in Hi; discriminate].
  assert (Hne : batch <> []) by discriminate.
  assert (Hall : Forall (fun sample : Value.tensor Q * Z =>
                           Value.shape (fst sample) = [3; 32; 32]) batch)
    by (repeat constructor).
  destruct (default_model_patch_num (SC:=Q_Scalar) m batch 4 Hi Hne Hall
              ltac:(lia) eq_refl) as (x & Hx & Hf).
  destruct (default_model_patch_num (SC:=Q_Scalar) m batch 8 Hi Hne Hall
              ltac:(lia) eq_refl) as (x' & Hx' & Hf').
  exists m, x, x'. split; [reflexivity|]. split; [exact Hx|]. split; [exact Hf|].
  split; [exact Hx' | exact Hf'].
Defined.

End DefaultsFacts.

(** * The constructors on a bad number of heads *)

Module ConstructorFacts.
Import Shape ShapeFacts MoreShapeFacts Models ModelFacts.

Lemma py_arg_of_lookup (args defaults : kwargs) k v :
  save_hyperparameters args defaults !! k = Some v -> py_arg args defaults k = Ok v.
Proof. unfold py_arg, save_hyperparameters. intros ->. reflexivity. Qed.

Lemma Block_init_error dim nh r b e :
  0 <= dim -> Attention_init dim nh b = Raise e -> Block_init dim nh r b = Raise e.
Proof.
  intros Hd Ha. unfold Block_init, nn_LayerNorm.
  destruct (Z.leb_spec 0 dim); [|lia]. cbn [mbind res_bind]. rewrite Ha. reflexivity.
Qed.

Lemma Transformer_init_error dim nh nb r b e :
  0 < nb -> Block_init dim nh r b = Raise e -> Transformer_init dim nh nb r b = Raise e.
Proof.
  intros Hnb He. unfold Transformer_init.
  destruct (Z.to_nat nb) as [|n] eqn:En; [lia|].
  cbn [replicateM]. rewrite He. reflexivity.
Qed.

(** X25. What the constructors make of the number of heads, through
    the whole chain Attention, Block, Transformer, LitTransformer: for
    a positive [embed_dim] and at least one block, [head = 0] is a
    ZeroDivisionError (of [dim % num_heads]), a [head] that does not
    divide [embed_dim] is the AssertionError of [Attention.__init__],
    and a positive divisor builds the model, provided the sizes of the
    two linear layers are not negative. *)
Theorem LitTransformer_init_outcome (args : kwargs) (e h depth : Z) :
  let hp := save_hyperparameters args TransformerDemo.defaults in
  hp !! "embed_dim" = Some (HInt e) -> hp !! "head" = Some (HInt h) ->
  hp !! "depth" = Some (HInt depth) -> 0 < e -> 0 < depth ->
  (h = 0 -> TransformerDemo.LitTransformer_init args = Raise ZeroDivisionError) /\
  (h <> 0 -> e mod h <> 0 ->
   TransformerDemo.LitTransformer_init args
   = Raise (AssertionError "dim should be divisible by num_heads")) /\
  (0 < h -> e mod h = 0 ->
   forall p s c,
     hp !! "patch_dim" = Some (HInt p) -> hp !! "seqlen" = Some (HInt s) ->
     hp !! "num_classes" = Some (HInt c) -> 0 <= p -> 0 <= s -> 0 <= c ->
     exists m, TransformerDemo.LitTransformer_init args = Ok m).
Proof.
  intros hp He Hh Hd He0 Hd0.
  unfold TransformerDemo.LitTransformer_init.
  rewrite (py_arg_of_lookup _ _ _ _ He), (py_arg_of_lookup _ _ _ _ Hh),
    (py_arg_of_lookup _ _ _ _ Hd).
  cbn [mbind res_bind as_size].
  split; [|split].
  - intros ->.
    rewrite (Transformer_init_error e 0 depth (4 # 1) false ZeroDivisionError);
      [reflexivity | exact Hd0 |].
    apply Block_init_error; [lia | reflexivity].
  - intros Hh0 Hmod.
    rewrite (Transformer_init_error e h depth (4 # 1) false
               (AssertionError "dim should be divisible by num_heads"));
      [reflexivity | exact Hd0 |].
    apply Block_init_error; [lia|]. unfold Attention_init.
    destruct (Z.eqb_spec h 0); [contradiction|].
    destruct (Z.eqb_spec (e mod h) 0); [contradiction | reflexivity].
  - intros Hh0 Hmod p s c Hp Hs Hc Hp0 Hs0 Hc0.
    destruct (Transformer_init_Ok e h depth (4 # 1) false He0 Hh0 Hmod
                ltac:(discriminate)) as [t ->].
    cbn [mbind res_bind].
    rewrite (py_arg_of_lookup _ _ _ _ Hp). cbn [mbind res_bind as_size].
    rewrite nn_Linear_Ok by lia. cbn [mbind res_bind].
    rewrite (py_arg_of_lookup _ _ _ _ Hs), (py_arg_of_lookup _ _ _ _ Hc).
    cbn [mbind res_bind as_size]. rewrite nn_Linear_Ok by nia.
    cbn [mbind res_bind]. eauto.
Qed.

Lemma LitTransformer_init_outcome_witness :
  TransformerDemo.LitTransformer_init {[ "head" := HInt 0 ]} = Raise ZeroDivisionError /\
  TransformerDemo.LitTransformer_init {[ "head" := HInt 5 ]}
  = Raise (AssertionError "dim should be divisible by num_heads") /\
  exists m, TransformerDemo.LitTransformer_init {[ "head" := HInt 8 ]} = Ok m.
Proof.
  assert (L : forall (h : Z) k v,
             save_hyperparameters ({[ "head" := HInt h ]} : kwargs)
               TransformerDemo.defaults !! k = v ->
             save_hyperparameters ({[ "head" := HInt h ]} : kwargs)
               TransformerDemo.defaults !! k = v) by (intros; assumption).
  split; [|split].
  - apply (proj1 (LitTransformer_init_outcome {[ "head" := HInt 0 ]} 64 0 12
                    (L 0 "embed_dim" _ eq_refl) (L 0 "head" _ eq_refl)
                    (L 0 "depth" _ eq_refl) ltac:(lia) ltac:(lia))). reflexivity.
  - apply (proj1 (proj2 (LitTransformer_init_outcome {[ "head" := HInt 5 ]} 64 5 12
                    (L 5 "embed_dim" _ eq_refl) (L 5 "head" _ eq_refl)
                    (L 5 "depth" _ eq_refl) ltac:(lia) ltac:(lia))));
      [lia | discriminate].
  - apply (proj2 (proj2 (LitTransformer_init_outcome {[ "head" := HInt 8 ]} 64 8 12
                    (L 8 "embed_dim" _ eq_refl) (L 8 "head" _ eq_refl)
                    (L 8 "depth" _ eq_refl) ltac:(lia) ltac:(lia)))
             ltac:(lia) eq_refl 192 16 10
             (L 8 "patch_dim" _ eq_refl) (L 8 "seqlen" _ eq_refl)
             (L 8 "num_classes" _ eq_refl));
      lia.
Defined.

End ConstructorFacts.

(** * Attention and the order of the sequence *)

Module EquivarianceFacts.
Import Value ValueFacts MoreValueFacts.

Lemma fold_Rplus_perm (l l' : list R) :
  Permutation l l' -> fold_right Rplus 0%R l = fold_right Rplus 0%R l'.
Proof.
  induction 1 as [|a l l' _ IH|a b l|l l' l'' _ IH1 _ IH2]; cbn [fold_right].
  - reflexivity.
  - rewrite IH. reflexivity.
  - lra.
  - congruence.
Qed.

Lemma seq_perm (N : nat) (p : nat -> nat) :
  (forall n, (n < N)%nat -> (p n < N)%nat) ->
  (forall i j, (i < N)%nat -> (j < N)%nat -> p i = p j -> i = j) ->
  Permutation (seq 0 N) (map p (seq 0 N)).
Proof.
  intros Hr Hinj. apply Permutation_sym. apply NoDup_Permutation_bis.
  - apply Finite.Injective_map_NoDup_in; [|apply seq_NoDup].
    intros i j Hi Hj. apply in_seq in Hi, Hj. apply Hinj; lia.
  - rewrite length_map. lia.
  - intros k Hk. apply in_map_iff in Hk as (n & <- & Hn). apply in_seq in Hn.
    apply in_seq. specialize (Hr n ltac:(lia)). lia.
Qed.

Lemma sum_range_perm (N : Z) (pi : Z -> Z) (g : Z -> R) :
  (forall n, 0 <= n < N -> 0 <= pi n < N) ->
  (forall i j, 0 <= i < N -> 0 <= j < N -> pi i = pi j -> i = j) ->
  sum_range (SC:=R_Scalar) N (fun j => g (pi j)) = sum_range (SC:=R_Scalar) N g.
Proof.
  intros Hr Hinj. unfold sum_range. cbn [sadd szero R_Scalar].
  set (p := fun n : nat => Z.to_nat (pi (Z.of_nat n))).
  assert (Hp : Permutation (seq 0 (Z.to_nat N)) (map p (seq 0 (Z.to_nat N)))).
  { apply seq_perm.
    - intros n Hn. subst p. cbn beta. specialize (Hr (Z.of_nat n) ltac:(lia)). lia.
    - intros i j Hi Hj E. subst p. cbn beta in E.
      pose proof (Hr (Z.of_nat i) ltac:(lia)). pose proof (Hr (Z.of_nat j) ltac:(lia)).
      assert (pi (Z.of_nat i) = pi (Z.of_nat j)) by lia.
      apply Hinj in H1; lia. }
  rewrite (fold_Rplus_perm _ _ (Permutation_map (fun k => g (Z.of_nat k)) Hp)).
  rewrite map_map. f_equal. apply map_ext_in. intros n Hn. apply in_seq in Hn.
  subst p. cbn beta. rewrite Z2Nat.id; [reflexivity|].
  specialize (Hr (Z.of_nat n) ltac:(lia)). lia.
Qed.


Lemma textbook_permuted C (a : Attention R) (x x' y y' : tensor R) B N (pi : Z -> Z) :
  shape x = [B; N; C] -> shape x' = [B; N; C] ->
  Shape.in_features (lin (qkv a)) = C ->
  (forall n, 0 <= n < N -> 0 <= pi n < N) ->
  (forall i j, 0 <= i < N -> 0 <= j < N -> pi i = pi j -> i = j) ->
  forall b,
  (forall n k, 0 <= n < N -> 0 <= k < C -> get x' [b; n; k] = get x [b; pi n; k]) ->
  textbook_attention (SC:=R_Scalar) a x = Ok y ->
  textbook_attention (SC:=R_Scalar) a x' = Ok y' ->
  forall n c, 0 <= n < N -> get y' [b; n; c] = get y [b; pi n; c].
Proof.
  intros Hx Hx' Hin Hr Hinj b Hperm Hy Hy' n c Hn.
  unfold textbook_attention in Hy, Hy'. rewrite Hx in Hy. rewrite Hx' in Hy'.
  destruct (Linear_forward (qkv a) x) as [QKV|] eqn:HQ; [|discriminate].
  destruct (Linear_forward (qkv a) x') as [QKV'|] eqn:HQ'; [|discriminate].
  cbn [mbind res_bind] in Hy, Hy'.
  set (nh := num_heads a) in *.
  assert (Hqkv : forall m f, 0 <= m < N -> get QKV' [b; m; f] = get QKV [b; pi m; f]).
  { intros m f Hm. rewrite (Linear_forward_get3 _ _ _ _ _ _ HQ),
      (Linear_forward_get3 _ _ _ _ _ _ HQ'). cbn zeta.
    assert (Hs : sum_range (Shape.in_features (lin (qkv a)))
                   (fun k => smul (get x' [b; m; k]) (get (weight (qkv a)) [f; k]))
                 = sum_range (Shape.in_features (lin (qkv a)))
                   (fun k => smul (get x [b; pi m; k]) (get (weight (qkv a)) [f; k]))).
    { apply sum_range_ext. intros k Hk. rewrite Hperm by lia. reflexivity. }
    rewrite Hs. reflexivity. }
  assert (Hslice : forall s h m d, 0 <= m < N ->
             head_slice nh C QKV' s h b m d = head_slice nh C QKV s h b (pi m) d).
  { intros s h m d Hm. unfold head_slice. apply Hqkv. exact Hm. }
  assert (Hscore : forall h i j, 0 <= i < N -> 0 <= j < N ->
             score nh C QKV' h b i j = score nh C QKV h b (pi i) (pi j)).
  { intros h i j Hi Hj. unfold score. f_equal. apply sum_range_ext. intros d _.
    rewrite (Hslice 0 h i d Hi), (Hslice 1 h j d Hj). reflexivity. }
  assert (Hden : forall h i, 0 <= i < N ->
             sum_range N (fun j' => sexp (score nh C QKV' h b i j'))
             = sum_range N (fun j' => sexp (score nh C QKV h b (pi i) j'))).
  { intros h i Hi.
    rewrite <- (sum_range_perm N pi (fun j => sexp (score nh C QKV h b (pi i) j)))
      by assumption.
    apply sum_range_ext. intros j' Hj'. rewrite (Hscore h i j' Hi Hj'). reflexivity. }
  assert (Hout : forall h m d, 0 <= m < N ->
             head_output nh C QKV' N h b m d = head_output nh C QKV N h b (pi m) d).
  { intros h m d Hm. unfold head_output.
    rewrite <- (sum_range_perm N pi
                  (fun j => smul (attention_matrix nh C QKV N h b (pi m) j)
                                 (head_slice nh C QKV 2 h b j d))) by assumption.
    apply sum_range_ext. intros j Hj. unfold attention_matrix.
    rewrite (Hslice 2 h j d Hj), (Hscore h m j Hm Hj), (Hden h m Hm). reflexivity. }
  rewrite (Linear_forward_get3 _ _ _ _ _ _ Hy), (Linear_forward_get3 _ _ _ _ _ _ Hy').
  cbn zeta.
  assert (Hs : sum_range (Shape.in_features (lin (proj a)))
                 (fun k => smul (get (heads_merged nh C QKV' B N) [b; n; k])
                                (get (weight (proj a)) [c; k]))
               = sum_range (Shape.in_features (lin (proj a)))
                 (fun k => smul (get (heads_merged nh C QKV B N) [b; pi n; k])
                                (get (weight (proj a)) [c; k]))).
  { apply sum_range_ext. intros k _. cbn [heads_merged get].
    rewrite (Hout _ n _ Hn). reflexivity. }
  rewrite Hs. reflexivity.
Qed.

(** X26. Over the reals, attention has no notion of position: if the
    rows of every sample of x' are those of x rearranged by a
    permutation pi of the N sequence positions, then the rows of
    [forward(x')] are those of [forward(x)] rearranged by the same
    permutation.  (The notebook adds no positional embedding; the order
    of the patches reaches the classifier only through the flattening
    before [fc].) *)
Theorem Attention_permutation_equivariant (dim nh : Z) (qkv_bias : bool)
    (wq bq wp bp : tensor R) (x x' : tensor R) (B N : Z) (pi : Z -> Z) :
  0 < dim -> 0 < nh -> dim mod nh = 0 ->
  shape x = [B; N; dim] -> shape x' = [B; N; dim] -> 0 <= B -> 0 <= N ->
  (forall n, 0 <= n < N -> 0 <= pi n < N) ->
  (forall i j, 0 <= i < N -> 0 <= j < N -> pi i = pi j -> i = j) ->
  (forall b n k, 0 <= b < B -> 0 <= n < N -> 0 <= k < dim ->
     get x' [b; n; k] = get x [b; pi n; k]) ->
  exists a y y',
    Attention_init (SC:=R_Scalar) dim nh qkv_bias wq bq wp bp = Ok a /\
    Attention_forward a x = Ok y /\ Attention_forward a x' = Ok y' /\
    forall b n c, 0 <= b < B -> 0 <= n < N -> 0 <= c < dim ->
      get y' [b; n; c] = get y [b; pi n; c].
Proof.
  intros Hdim Hnh Hmod Hx Hx' HB HN Hr Hinj Hperm.
  assert (HdimD : dim = nh * (dim / nh)).
  { pose proof (Z.div_mod dim nh ltac:(lia)). lia. }
  assert (HD : 0 < dim / nh).
  { assert (0 <= dim / nh) by (apply Z.div_pos; lia). nia. }
  assert (Hinit : Attention_init (SC:=R_Scalar) dim nh qkv_bias wq bq wp bp
                  = Ok (mkAttention nh (spow_neg_half (dim / nh))
                          (mkLinear (Shape.mkLinear dim (dim * 3) qkv_bias) wq bq)
                          (mkLinear (Shape.mkLinear dim dim true) wp bp))).
  { unfold Attention_init. rewrite ShapeFacts.Attention_init_Ok by assumption.
    reflexivity. }
  rewrite Hinit. clear Hinit.
  set (D := dim / nh) in *. clearbody D. subst dim.
  destruct (Attention_forward_textbook (SC:=R_Scalar) nh D qkv_bias wq bq wp bp x B N
              Hnh HD Hx HB HN) as (y & t & Hy & Ht & Hsy & Hyt).
  destruct (Attention_forward_textbook (SC:=R_Scalar) nh D qkv_bias wq bq wp bp x' B N
              Hnh HD Hx' HB HN) as (y' & t' & Hy' & Ht' & Hsy' & Hyt').
  eexists _, y, y'. split; [reflexivity|]. split; [exact Hy|]. split; [exact Hy'|].
  intros b n c Hb Hn Hc.
  destruct Hyt as [_ Hg]. destruct Hyt' as [_ Hg'].
  pose proof (Hr n Hn) as Hpn.
  rewrite Hg by (rewrite Hsy; repeat constructor; lia).
  rewrite Hg' by (rewrite Hsy'; repeat constructor; lia).
  refine (textbook_permuted (nh * D) _ x x' t t' B N pi Hx Hx' _ Hr Hinj b
            (fun m k Hm Hk => Hperm b m k Hb Hm Hk) Ht Ht' n c Hn).
  reflexivity.
Qed.

Lemma Attention_permutation_equivariant_witness :
  let x : tensor R :=
    mkTensor [1; 2; 4]
      (fun idx => match idx with [_; n; k] => IZR (4 * n + k) | _ => 0%R end) in
  let x' : tensor R :=
    mkTensor [1; 2; 4]
      (fun idx => match idx with [_; n; k] => IZR (4 * (1 - n) + k) | _ => 0%R end) in
  exists a y y',
    Attention_init (SC:=R_Scalar) 4 2 false
      (full [12; 4] 1%R) (full [12] 0%R) (full [4; 4] 1%R) (full [4] 0%R) = Ok a /\
    Attention_forward a x = Ok y /\ Attention_forward a x' = Ok y' /\
    get y' [0; 0; 3] = get y [0; 1; 3].
Proof.
  intros x x'.
  assert (Hr : forall n, 0 <= n < 2 -> 0 <= 1 - n < 2) by (intros; lia).
  assert (Hinj : forall i j, 0 <= i < 2 -> 0 <= j < 2 -> 1 - i = 1 - j -> i = j)
    by (intros; lia).
  assert (Hperm : forall b n k, 0 <= b < 1 -> 0 <= n < 2 -> 0 <= k < 4 ->
            get x' [b; n; k] = get x [b; 1 - n; k]) by (intros; reflexivity).
  destruct (Attention_permutation_equivariant 4 2 false
              (full [12; 4] 1%R) (full [12] 0%R) (full [4; 4] 1%R) (full [4] 0%R)
              x x' 1 2 (fun n => 1 - n)
              ltac:(lia) ltac:(lia) eq_refl eq_refl eq_refl ltac:(lia) ltac:(lia)
              Hr Hinj Hperm)
    as (a & y & y' & Ha & Hy & Hy' & Hg).
  exists a, y, y'. split; [exact Ha|]. split; [exact Hy|]. split; [exact Hy'|].
  apply (Hg 0 0 3); lia.
Defined.

End EquivarianceFacts.
(** * The models in float32 *)

Module Float32Facts.
Import SpecFloat Value ValueFacts Float32Examples.

Abbreviation f32 := spec_float.

(** *** The arithmetic at work *)

(** 1 + 2^24 rounds to 2^24, and 1 / 3 to 11184811 * 2^-25. *)
Example add_rounds :
  Float32.add Float32.one (Float32.of_Z 16777216) = Float32.of_Z 16777216 /\
  Float32.ratio 1 3 = S754_finite false 11184811 (-25).
Proof. split; reflexivity. Qed.

(** e, exp(-17) and erf(1/3) in float32. *)
Example exp_erf_values :
  Float32.exp Float32.one = S754_finite false 11401300 (-22) /\
  Float32.exp (Float32.of_Z (-17)) = S754_finite false 11652889 (-48) /\
  Float32.exp (Float32.of_Z 89) = S754_infinity false /\
  Float32.erf (Float32.ratio 1 3) = S754_finite false 12168452 (-25) /\
  Float32.pow_neg_half 64 = Float32.ratio 1 8.
Proof. vm_compute. repeat split. Qed.

(** Sigmoid reaches 1 at 17 and 0 at -104; GELU is the identity on
    large arguments and 0 at 0. *)
Example activations_saturate :
  Float32.sigmoid (Float32.of_Z 17) = Float32.one /\
  Float32.sigmoid (Float32.of_Z (-104)) = Float32.zero /\
  Float32.sigmoid (Float32.of_Z 2) = S754_finite false 14777322 (-24) /\
  Float32.gelu (Float32.ratio 801 8) = Float32.ratio 801 8 /\
  Float32.gelu (Float32.of_Z 2) = S754_finite false 16395532 (-23) /\
  Float32.gelu Float32.zero = Float32.zero.
Proof. vm_compute. repeat split. Qed.

(** *** Zeros *)

Lemma is_zero_finite (a : f32) : Float32.is_zero a = true -> Float32.is_finite a = true.
Proof. destruct a; cbn; congruence. Qed.

Lemma mul_zero_r (a : f32) :
  Float32.is_finite a = true -> Float32.is_zero (Float32.mul a Float32.zero) = true.
Proof. destruct a; cbn; congruence. Qed.

Lemma add_zeros (a b : f32) :
  Float32.is_zero a = true -> Float32.is_zero b = true ->
  Float32.is_zero (Float32.add a b) = true.
Proof.
  destruct a as [sa| | |]; try discriminate. destruct b as [sb| | |]; try discriminate.
  destruct sa, sb; reflexivity.
Qed.

Lemma add_zero_l (a b : f32) :
  Float32.is_zero a = true -> Float32.is_zero b = false -> Float32.add a b = b.
Proof.
  destruct a as [sa| | |]; try discriminate. destruct b as [sb|sb| |]; try discriminate;
    reflexivity.
Qed.

Lemma relu_zero (a : f32) :
  Float32.is_zero a = true -> Float32.is_zero (Float32.relu a) = true.
Proof. destruct a as [[|]| | |]; try discriminate; reflexivity. Qed.

Lemma sum_range_zeros n (f : Z -> f32) :
  (forall k, Float32.is_zero (f k) = true) ->
  Float32.is_zero (sum_range (SC:=F32_Scalar) n f) = true.
Proof.
  intros Hf. unfold sum_range.
  induction (seq 0 (Z.to_nat n)) as [|k l IH]; cbn [map fold_right].
  - reflexivity.
  - apply add_zeros; [apply Hf | exact IH].
Qed.

(** A linear layer with zero weights and zero bias sends finite entries
    to zeros. *)
Lemma Linear_zero (l : Linear f32) (x y : tensor f32) :
  Linear_forward (SC:=F32_Scalar) l x = Ok y ->
  (forall idx, Float32.is_finite (get x idx) = true) ->
  (forall idx, get (weight l) idx = Float32.zero) ->
  (forall idx, get (bias l) idx = Float32.zero) ->
  forall idx, Float32.is_zero (get y idx) = true.
Proof.
  unfold Linear_forward. intros Hy Hx Hw Hb idx.
  destruct (Shape.Linear_forward _ _) as [s|]; [|discriminate].
  cbn [mbind res_bind] in Hy. injection Hy as <-. cbn [get].
  assert (Hs : Float32.is_zero
                 (sum_range (SC:=F32_Scalar) (Shape.in_features (lin l)) (fun k =>
                    smul (get x (removelast idx ++ [k]))
                         (get (weight l) [List.last idx 0; k]))) = true).
  { apply sum_range_zeros. intros k. rewrite Hw. apply mul_zero_r, Hx. }
  destruct (Shape.has_bias (lin l)); [|exact Hs].
  apply add_zeros; [exact Hs|]. rewrite Hb. reflexivity.
Qed.

Lemma rearrange_unflatten_zero (y u : tensor f32) B h w :
  rearrange_unflatten (SC:=F32_Scalar) y B h w = Ok u ->
  (forall idx, Float32.is_zero (get y idx) = true) ->
  forall idx, Float32.is_zero (get u idx) = true.
Proof.
  unfold rearrange_unflatten. intros Hu Hy idx.
  destruct (Shape.rearrange_unflatten _ _ _ _) as [s|]; [|discriminate].
  cbn [mbind res_bind] in Hu. injection Hu as <-. cbn [get].
  destruct idx as [|b [|c [|i [|j [|? ?]]]]]; try reflexivity. apply Hy.
Qed.

(** The products a transposed convolution with zero weights adds up. *)
Lemma conv_sum_zero (c : ConvTranspose2d f32) (x : tensor f32) b o i j h w :
  (forall idx, Float32.is_zero (get x idx) = true) ->
  (forall idx, get (ct_weight c) idx = Float32.zero) ->
  Float32.is_zero
    (sum_range (SC:=F32_Scalar) (Shape.c_in (ct c)) (fun ci =>
       sum_range (Shape.c_kernel (ct c)) (fun u =>
         sum_range (Shape.c_kernel (ct c)) (fun v =>
           let ni := i + Shape.c_padding (ct c) - u in
           let nj := j + Shape.c_padding (ct c) - v in
           if (ni mod Shape.c_stride (ct c) =? 0) && (nj mod Shape.c_stride (ct c) =? 0)
              && within (ni / Shape.c_stride (ct c)) h
              && within (nj / Shape.c_stride (ct c)) w
           then smul (get x [b; ci; ni / Shape.c_stride (ct c);
                             nj / Shape.c_stride (ct c)])
                     (get (ct_weight c) [ci; o; u; v])
           else szero)))) = true.
Proof.
  intros Hx Hw. apply sum_range_zeros. intros ci. apply sum_range_zeros. intros u.
  apply sum_range_zeros. intros v. cbv zeta.
  destruct (_ && _); [|reflexivity].
  rewrite Hw. apply mul_zero_r, is_zero_finite, Hx.
Qed.

Lemma ConvTranspose2d_zero (c : ConvTranspose2d f32) (x y : tensor f32) :
  ConvTranspose2d_forward (SC:=F32_Scalar) c x = Ok y ->
  (forall idx, Float32.is_zero (get x idx) = true) ->
  (forall idx, get (ct_weight c) idx = Float32.zero) ->
  (forall idx, get (ct_bias c) idx = Float32.zero) ->
  forall idx, Float32.is_zero (get y idx) = true.
Proof.
  unfold ConvTranspose2d_forward. intros Hy Hx Hw Hb idx.
  destruct (Shape.ConvTranspose2d_forward _ _) as [s|]; [|discriminate].
  cbn [mbind res_bind] in Hy. injection Hy as <-. cbn [get].
  destruct (shape x) as [|? [|? [|h [|w [|? ?]]]]]; try reflexivity.
  destruct idx as [|b [|o [|i [|j [|? ?]]]]]; try reflexivity.
  apply add_zeros; [apply conv_sum_zero; assumption|]. rewrite Hb. reflexivity.
Qed.

(** With zero weights the output of a transposed convolution is its
    bias, where the bias is not zero. *)
Lemma ConvTranspose2d_bias (c : ConvTranspose2d f32) (x y : tensor f32) :
  ConvTranspose2d_forward (SC:=F32_Scalar) c x = Ok y ->
  (forall idx, Float32.is_zero (get x idx) = true) ->
  (forall idx, get (ct_weight c) idx = Float32.zero) ->
  forall b o i j, Float32.is_zero (get (ct_bias c) [o]) = false ->
    get y [b; o; i; j] = get (ct_bias c) [o].
Proof.
  unfold ConvTranspose2d_forward, Shape.ConvTranspose2d_forward.
  intros Hy Hx Hw b o i j Hb.
  destruct (shape x) as [|B [|ci [|h [|w [|? ?]]]]]; try discriminate.
  destruct (_ && _); [|discriminate].
  cbn [mbind res_bind] in Hy. injection Hy as <-. cbn [get].
  apply add_zero_l; [apply conv_sum_zero; assumption | exact Hb].
Qed.

Lemma latent_finite idx : Float32.is_finite (get latent idx) = true.
Proof.
  unfold latent. cbn [get].
  destruct idx as [|b [|k [|? ?]]]; try reflexivity.
  pose proof (Z.mod_pos_bound k 7 ltac:(lia)) as Hk.
  assert (Hc : k mod 7 = 0 \/ k mod 7 = 1 \/ k mod 7 = 2 \/ k mod 7 = 3 \/
               k mod 7 = 4 \/ k mod 7 = 5 \/ k mod 7 = 6) by lia.
  destruct Hc as [-> | [-> | [-> | [-> | [-> | [-> | ->]]]]]]; reflexivity.
Qed.

Lemma relu_zeros (t : tensor f32) :
  (forall idx, Float32.is_zero (get t idx) = true) ->
  forall idx, Float32.is_zero (get (tmap Float32.relu t) idx) = true.
Proof. intros Ht idx. cbn [tmap get]. apply relu_zero, Ht. Qed.

(** C10, as stated, fails in float32, where the Sigmoid at the end of
    [Decoder.forward] saturates: the default decoder with zero weights
    and the last layer's bias at 17 and -104 returns, on a latent batch
    of shape (1, 256), an image whose first channel is exactly 1 and
    whose second channel is exactly 0 at every pixel. *)
Lemma Decoder_float32_saturates :
  exists y,
    Decoder_forward (SC:=F32_Scalar) Float32.relu Float32.sigmoid
      Decoder_saturated latent = Ok y /\
    shape y = [1; 3; 32; 32] /\
    get y [0; 0; 0; 0] = Float32.one /\
    get y [0; 1; 31; 31] = Float32.zero /\
    (forall i j, get y [0; 0; i; j] = Float32.one) /\
    (forall i j, get y [0; 1; i; j] = Float32.zero).
Proof.
  assert (Hof : Decoder_of Shape.Decoder_default Decoder_saturated)
    by (repeat split).
  pose proof (Decoder_forward_shape (SC:=F32_Scalar) Float32.relu Float32.sigmoid
                Decoder_saturated _ latent Hof) as Hsh.
  change (shape latent) with [1; 256] in Hsh.
  rewrite ShapeFacts.Decoder_forward_default in Hsh.
  destruct (Decoder_forward _ _ Decoder_saturated latent) as [y|e] eqn:Hy;
    [|discriminate].
  cbn [fmap res_fmap] in Hsh.
  exists y. split; [reflexivity|]. split; [congruence|].
  unfold Decoder_forward in Hy. change (shape latent) with [1; 256] in Hy.
  cbv iota in Hy.
  destruct (Linear_forward (d_fc1 Decoder_saturated) latent) as [y0|] eqn:E0;
    [|discriminate].
  cbn [mbind res_bind] in Hy.
  destruct (rearrange_unflatten y0 _ _ _) as [y1|] eqn:E1; [|discriminate].
  cbn [mbind res_bind] in Hy.
  destruct (ConvTranspose2d_forward (conv1 Decoder_saturated) y1) as [y2|] eqn:E2;
    [|discriminate].
  cbn [mbind res_bind] in Hy.
  destruct (ConvTranspose2d_forward (conv2 Decoder_saturated) _) as [y3|] eqn:E3;
    [|discriminate].
  cbn [mbind res_bind] in Hy.
  destruct (ConvTranspose2d_forward (conv3 Decoder_saturated) _) as [y4|] eqn:E4;
    [|discriminate].
  cbn [mbind res_bind] in Hy.
  destruct (ConvTranspose2d_forward (conv4 Decoder_saturated) _) as [y5|] eqn:E5;
    [|discriminate].
  cbn [mbind res_bind] in Hy. injection Hy as <-.
  assert (Z0 : forall idx, Float32.is_zero (get y0 idx) = true).
  { apply (Linear_zero _ _ _ E0); [apply latent_finite | reflexivity | reflexivity]. }
  assert (Z1 : forall idx, Float32.is_zero (get y1 idx) = true)
    by (apply (rearrange_unflatten_zero _ _ _ _ _ E1 Z0)).
  assert (Z2 : forall idx, Float32.is_zero (get y2 idx) = true)
    by (apply (ConvTranspose2d_zero _ _ _ E2 Z1); reflexivity).
  assert (Z3 : forall idx, Float32.is_zero (get y3 idx) = true)
    by (apply (ConvTranspose2d_zero _ _ _ E3 (relu_zeros _ Z2)); reflexivity).
  assert (Z4 : forall idx, Float32.is_zero (get y4 idx) = true)
    by (apply (ConvTranspose2d_zero _ _ _ E4 (relu_zeros _ Z3)); reflexivity).
  pose proof (ConvTranspose2d_bias _ _ _ E5 (relu_zeros _ Z4) ltac:(reflexivity))
    as Hb. cbn [tmap get].
  assert (H17 : forall i j, Float32.sigmoid (get y5 [0; 0; i; j]) = Float32.one).
  { intros i j. rewrite Hb by reflexivity. vm_compute. reflexivity. }
  assert (H104 : forall i j, Float32.sigmoid (get y5 [0; 1; i; j]) = Float32.zero).
  { intros i j. rewrite Hb by reflexivity. vm_compute. reflexivity. }
  auto.
Qed.

(** C8, as stated, fails in float32 when the kernel of [nn.Linear]
    accumulates the products onto the bias: at the default sizes, with
    the same parameters in both models, [TensorMLP.forward] and
    [SimpleMLP.forward] return different class scores for the first
    image of a batch of 64. *)
Lemma mlp_float32_differ :
  kernel_valid bias_first /\
  exists y1 y2,
    TensorMLP_forward (SC:=F32_Scalar) Float32.gelu mlp_f32 pixels = Ok y1 /\
    SimpleMLP_forward_with (SC:=F32_Scalar) Float32.gelu bias_first
      (SimpleMLP_of 3072 512 10 mlp_f32) pixels = Ok y2 /\
    shape y1 = [64; 10] /\ shape y2 = [64; 10] /\
    get y1 [0; 0] <> get y2 [0; 0] /\
    ~ teq y1 y2.
Proof.
  split; [exact bias_first_valid|].
  assert (Hwf : TensorMLP_wf 3072 512 10 mlp_f32) by (repeat split).
  destruct (TensorMLP_forward_entries (SC:=F32_Scalar) Float32.gelu _ _ _
              mlp_f32 pixels 64 3 32 32 Hwf eq_refl eq_refl)
    as (z1 & z2 & z3 & Ht & Hs & H1 & H2 & H3).
  destruct (SimpleMLP_forward_with_entries (SC:=F32_Scalar) bias_first Float32.gelu
              3072 512 10 mlp_f32 pixels 64 3 32 32 eq_refl eq_refl)
    as (u1 & u2 & u3 & Hu & Hsu & G1 & G2 & G3).
  exists z3, u3. repeat (split; [assumption|]).
  assert (Hz1 : forall k, 0 <= k < 512 ->
                  get z1 [0; k] = S754_finite false 13106142 (-17)).
  { intros k Hk. rewrite H1 by lia. vm_compute. reflexivity. }
  assert (Hz2 : forall k, 0 <= k < 512 ->
                  get z2 [0; k] = S754_finite false 13054339 (-16)).
  { intros k Hk. rewrite H2 by lia.
    rewrite (sum_range_ext _ _
               (fun i => smul (Float32.gelu (S754_finite false 13106142 (-17)))
                              (get (w2 mlp_f32) [k; i])))
      by (intros i Hi; rewrite Hz1 by lia; reflexivity).
    vm_compute. reflexivity. }
  assert (Hz3 : get z3 [0; 0] = S754_finite false 9733386 (-15)).
  { rewrite H3 by lia.
    rewrite (sum_range_ext _ _
               (fun i => smul (Float32.gelu (S754_finite false 13054339 (-16)))
                              (get (w3 mlp_f32) [0; i])))
      by (intros i Hi; rewrite Hz2 by lia; reflexivity).
    vm_compute. reflexivity. }
  assert (Hu1 : forall k, get u1 [0; k] = S754_finite false 13106151 (-17)).
  { intros k. rewrite G1. vm_compute. reflexivity. }
  assert (Hu2 : forall k, get u2 [0; k] = S754_finite false 13054349 (-16)).
  { intros k. rewrite G2.
    rewrite (eval_schedule_ext _
               (fun i => smul (Float32.gelu (S754_finite false 13106151 (-17)))
                              (get (w2 mlp_f32) [k; i])))
      by (intros i; rewrite Hu1; reflexivity).
    vm_compute. reflexivity. }
  assert (Hu3 : get u3 [0; 0] = S754_finite false 9733393 (-15)).
  { rewrite G3.
    rewrite (eval_schedule_ext _
               (fun i => smul (Float32.gelu (S754_finite false 13054349 (-16)))
                              (get (w3 mlp_f32) [0; i])))
      by (intros i; rewrite Hu2; reflexivity).
    vm_compute. reflexivity. }
  assert (Hne : get z3 [0; 0] <> get u3 [0; 0])
    by (rewrite Hz3, Hu3; discriminate).
  split; [exact Hne|].
  intros [_ Heq]. apply Hne, Heq. rewrite Hs. repeat constructor; lia.
Qed.

End Float32Facts.
